(** * Claude Code Server: event bus, sessions, session manager, task executor

    A shallow embedding of [claude_code_server] (session_manager.py,
    task_executor.py, models.py, config.py and the request handlers of
    server.py), with the properties its specification states.

    Conventions.
    - Python [int] is [Z]; a UTC [datetime] is a [Z] count of microseconds;
      a Python [float] is the rational number it denotes, every operation
      rounding its exact result to 53 significant bits ([Float]).
    - A Python [dict] used as a table is a [gmap]; ordered lists are [list].
    - The agent SDK client is an external collaborator.  A [Client] value is
      a scripted stand-in for it: what each of its calls does when awaited.
      Quantifying over every [Client] quantifies over every behaviour of the
      backend.
    - Coroutines are run to completion in a small result-and-state monad
      [M]: a call returns, raises a Python [Exception], or stays suspended
      for ever ([Block]).  Signals that are not [Exception]s (cancellation
      of the executor's own asyncio task from outside) are not modelled;
      nothing in the server cancels that task. *)

From stdpp Require Import gmap strings list fin_maps pretty.
From Stdlib Require Import ZArith Lia QArith Qround Qpower Lqa SpecFloat.

Local Open Scope Z_scope.

(** ** Python runtime: exceptions, results, the clock, logging *)

Module Py.

(** The exception classes the server raises or catches.  [AgentError]
    stands for any other [Exception] subclass instance raised by the agent
    SDK; [msg] is what [str(e)] returns. *)
Inductive exn : Type :=
| ValueError (msg : string)
| RuntimeError (msg : string)
| KeyError (key : string)
| TimeoutError
| AgentError (msg : string)
| HTTPException (status_code : Z) (detail : string).

(** [str(e)] *)
Definition str (e : exn) : string :=
  match e with
  | ValueError m | RuntimeError m | AgentError m => m
  | KeyError k => "'" +:+ k +:+ "'"
  | TimeoutError => ""
  | HTTPException c d => pretty c +:+ ": " +:+ d
  end.

Inductive Res (A : Type) : Type :=
| Ok (a : A)
| Raise (e : exn)
| Block.
Global Arguments Ok {A} a.
Global Arguments Raise {A} e.
Global Arguments Block {A}.

Module Log.
Inductive Level : Type := DEBUG | INFO | WARNING | ERROR.
End Log.

(** The world a coroutine runs in: [clock n] is what the [n]-th call of
    [datetime.utcnow()] returns, [ticks] counts the calls made so far,
    [log] collects the records handed to [logger], [state] is the Python
    object graph the coroutine works on. *)
Record World (St : Type) : Type := mkWorld {
  clock : nat → Z;
  ticks : nat;
  log : list (Log.Level * string);
  state : St;
}.
Global Arguments mkWorld {St} clock ticks log state.
Global Arguments clock {St} w n.
Global Arguments ticks {St} w.
Global Arguments log {St} w.
Global Arguments state {St} w.

Definition M (St A : Type) : Type := World St → Res A * World St.

Global Instance M_ret {St} : MRet (M St) := λ A a w, (Ok a, w).

Global Instance M_bind {St} : MBind (M St) := λ A B f c w,
  match c w with
  | (Ok a, w') => f a w'
  | (Raise e, w') => (Raise e, w')
  | (Block, w') => (Block, w')
  end.

Definition raise {St A} (e : exn) : M St A := λ w, (Raise e, w).

(** A suspension that nothing ever resumes. *)
Definition block {St A} : M St A := λ w, (Block, w).

Definition get_state {St} : M St St := λ w, (Ok (state w), w).

Definition modify {St} (f : St → St) : M St unit := λ w,
  (Ok tt, mkWorld (clock w) (ticks w) (log w) (f (state w))).

(** [datetime.utcnow()] *)
Definition utcnow {St} : M St Z := λ w,
  (Ok (clock w (ticks w)), mkWorld (clock w) (S (ticks w)) (log w) (state w)).

(** [logger.debug / info / warning / error] *)
Definition logger {St} (lvl : Log.Level) (msg : string) : M St unit := λ w,
  (Ok tt, mkWorld (clock w) (ticks w) (log w ++ [(lvl, msg)]) (state w)).

(** [try: body  except Exception as e: handler(e)] *)
Definition try_except {St A} (body : M St A) (handler : exn → M St A) : M St A :=
  λ w, match body w with
       | (Raise e, w') => handler e w'
       | r => r
       end.

(** [try: body  finally: final].  A body that stays suspended never
    reaches the [finally] clause. *)
Definition try_finally {St A} (body : M St A) (final : M St unit) : M St A :=
  λ w, match body w with
       | (Block, w') => (Block, w')
       | (r, w') =>
           match final w' with
           | (Ok _, w'') => (r, w'')
           | (Raise e, w'') => (Raise e, w'')
           | (Block, w'') => (Block, w'')
           end
       end.

(** [asyncio.wait_for(body, timeout)] for a number [timeout] of seconds.
    With [timeout <= 0] the body is cancelled before it has run a single
    step and [TimeoutError] is raised in the caller.  Otherwise the body
    runs: if it is still suspended at the deadline it is cancelled and
    [TimeoutError] is raised; a body that finished earlier passes
    through. *)
Definition wait_for {St A} (body : M St A) (timeout : Z) : M St A :=
  λ w, if decide (timeout ≤ 0) then (Raise TimeoutError, w)
       else match body w with
            | (Block, w') => (Raise TimeoutError, w')
            | r => r
            end.

(** ** Python floats

    A [float] is an IEEE 754 binary64 number.  It is represented by the
    rational number it denotes, and an arithmetic operation returns its
    exact result rounded to the nearest number with a 53-bit mantissa, a
    tie going to the even mantissa ([round]).  The exponent is not bounded:
    the model follows binary64 on results whose magnitude lies between
    [2^-1022] and [2^1024], which covers every duration a [timedelta] can
    hold, and does not model overflow and subnormal numbers beyond them.
    ([elapsed_ms_binary64] compares the model with the Standard Library's
    specification of binary64.) *)

Module Float.

Local Open Scope Q_scope.

Definition t : Type := Q.

(** The integer nearest to [x]; of two equally near ones, the even one. *)
Definition round_half_even (x : Q) : Z :=
  let f := Qfloor x in
  match Qcompare (x - inject_Z f) (1 # 2) with
  | Lt => f
  | Eq => if Z.even f then f else (f + 1)%Z
  | Gt => (f + 1)%Z
  end.

(** For [x > 0], the exponent [e] of the last mantissa bit:
    [2^52 <= x / 2^e < 2^53] (lemma [ulp_exp_spec]). *)
Definition ulp_exp (x : Q) : Z :=
  let k := (Z.log2 (Qnum x) - Z.log2 (Zpos (Qden x)))%Z in
  ((if Qle_bool (2 ^ k) x then k else k - 1) - 52)%Z.

Definition round_pos (x : Q) : Q :=
  inject_Z (round_half_even (x / 2 ^ ulp_exp x)) * 2 ^ ulp_exp x.

(** Round to nearest, ties to even. *)
Definition round (x : Q) : t :=
  match Qcompare x 0 with
  | Gt => round_pos x
  | Lt => - round_pos (- x)
  | Eq => 0
  end.

(** [float(n)] *)
Definition of_int (n : Z) : t := round (inject_Z n).

(** [a / b] on two [int]s, for [b] other than 0: the correctly rounded
    quotient. *)
Definition true_divide (a b : Z) : t := round (inject_Z a / inject_Z b).

(** [x * y] *)
Definition mul (x y : t) : t := round (x * y).

(** [int(x)]: truncation towards zero. *)
Definition to_int (x : t) : Z := Z.quot (Qnum x) (Zpos (Qden x)).

End Float.

(** [td.total_seconds()] of a [timedelta] of [us] microseconds:
    [us / 10**6]. *)
Definition total_seconds (us : Z) : Float.t := Float.true_divide us 1000000.

(** [s.lower()] and [needle in hay], on ASCII text. *)
Definition lower_ascii (c : Ascii.ascii) : Ascii.ascii :=
  let n := Ascii.nat_of_ascii c in
  if ((65 <=? n)%nat && (n <=? 90)%nat)%bool then Ascii.ascii_of_nat (n + 32) else c.

Fixpoint lower (s : string) : string :=
  match s with
  | EmptyString => EmptyString
  | String c r => String (lower_ascii c) (lower r)
  end.

Fixpoint contains (needle hay : string) : bool :=
  (String.prefix needle hay ||
   match hay with
   | EmptyString => false
   | String _ r => contains needle r
   end)%bool.

End Py.
Import Py.

(** ** models.py *)

Inductive TaskStatus : Type := PENDING | RUNNING | COMPLETED | FAILED | INTERRUPTED.

Inductive SessionStatus : Type := ACTIVE | IDLE | TERMINATED.

Record TaskProgress : Type := mkProgress {
  turns : Z;
  tokens_used : Z;
  tokens_input : Z;
  tokens_output : Z;
  files_modified : Z;
  elapsed_time_ms : Z;
}.

(** [TaskProgress()] *)
Definition TaskProgress_default : TaskProgress := mkProgress 0 0 0 0 0 0.

(** [TaskResult]; its float field [total_cost_usd] is never set by the
    server and is left out. *)
Record TaskResult : Type := mkResult {
  exit_code : Z;
  summary : option string;
  errors : list string;
}.

Inductive EventType : Type :=
| MESSAGE | TOOL_USE | TOOL_RESULT | PROGRESS | COMPLETE | ERROR.

Global Instance EventType_eq_dec : EqDecision EventType.
Proof. solve_decision. Defined.

(** The [content] of a tool result block: [None], a string, or a list whose
    elements are normally dicts with a ["type"] and a ["text"] key. *)
Inductive ContentItem : Type :=
| ItemDict (type_ : option string) (text : option string)
| ItemOther.

Inductive ToolContent : Type :=
| ContentNone
| ContentStr (s : string)
| ContentList (l : list ContentItem).

(** The [data] dict of a [MessageEvent], by its ["message_type"]. *)
Inductive MessageData : Type :=
| DataAssistant (content model : string)
| DataThinking (content signature : string)
| DataUser (content : string)
| DataSystem (subtype data : string).

(** The event models, as the dicts [model_dump()] produces: each carries
    its [type] tag (see [event_type]), its [timestamp] and its [data]. *)
Inductive Event : Type :=
| MessageEvent (timestamp : Z) (data : MessageData)
| ToolUseEvent (timestamp : Z) (tool_id tool_name tool_input : string)
| ToolResultEvent (timestamp : Z) (tool_use_id : string)
                  (content : ToolContent) (is_error : option bool)
| ProgressEvent (timestamp : Z) (data : TaskProgress)
| CompleteEvent (timestamp : Z) (data : TaskResult)
| ErrorEvent (timestamp : Z) (error : string).

Definition event_type (e : Event) : EventType :=
  match e with
  | MessageEvent _ _ => MESSAGE
  | ToolUseEvent _ _ _ _ => TOOL_USE
  | ToolResultEvent _ _ _ _ => TOOL_RESULT
  | ProgressEvent _ _ => PROGRESS
  | CompleteEvent _ _ => COMPLETE
  | ErrorEvent _ _ => ERROR
  end.

Record SessionInfo : Type := mkSessionInfo {
  info_session_id : string;
  info_tasks : list string;
  info_status : SessionStatus;
  info_created_at : Z;
  info_last_activity : Z;
}.

Record TaskOptions : Type := mkTaskOptions {
  to_allowed_tools : list string;
  to_permission_mode : string;
  to_max_turns : option Z;
  to_timeout : Z;
  to_model : option string;
  to_cwd : option string;
}.

(** [TaskOptions()] *)
Definition TaskOptions_default : TaskOptions :=
  mkTaskOptions ["Read"; "Write"; "Edit"; "Bash"] "acceptEdits" (Some 50) 3600 None None.

(** The [SessionConfig] of a request (the one of models.py). *)
Record SessionRequest : Type := mkSessionRequest {
  reuse_existing : bool;
  req_session_id : option string;
}.

Record TaskRequest : Type := mkTaskRequest {
  req_task_id : string;
  req_prompt : string;
  req_workspace : string;
  req_options : TaskOptions;
  req_session : SessionRequest;
}.

Record TaskResponse : Type := mkTaskResponse {
  tr_task_id : string;
  tr_session_id : string;
  tr_status : TaskStatus;
  tr_websocket_url : string;
  tr_created_at : Z;
}.

Record TaskStatusResponse : Type := mkTaskStatusResponse {
  ts_task_id : string;
  ts_session_id : string;
  ts_status : TaskStatus;
  ts_progress : TaskProgress;
  ts_result : option TaskResult;
  ts_created_at : Z;
  ts_updated_at : Z;
}.

(** ** config.py: the settings the modelled code reads, with their defaults *)

Record Config : Type := mkConfig {
  max_concurrent : Z;
  idle_timeout_seconds : Z;
  cleanup_interval_seconds : Z;
  default_timeout_seconds : Z;
  max_queue_size : Z;
  default_model : option string;
  default_permission_mode : string;
  default_allowed_tools : list string;
  sdk_max_turns : Z;
  anthropic_api_key : string;
}.

Definition default_config (api_key : string) : Config :=
  mkConfig 10 1800 300 3600 100 None "acceptEdits"
           ["Read"; "Write"; "Edit"; "Bash"] 50 api_key.

(** [ServerConfig] and [APIConfig], as far as the handlers read them. *)
Record ServerConfig : Type := mkServerConfig {
  host : string;
  port : Z;
}.

Record APIConfig : Type := mkAPIConfig {
  auth_enabled : bool;
  api_key : option string;
}.

(** [Config.validate] *)
Definition validate {St} (config : Config) (api : APIConfig) : M St bool :=
  if decide (anthropic_api_key config = "") then
    raise (ValueError "CLAUDE_API_KEY environment variable is required")
  else if (auth_enabled api
           && bool_decide (api_key api = None ∨ api_key api = Some ""))%bool then
    raise (ValueError "API_API_KEY required when authentication is enabled")
  else mret true.

(** ** claude_agent_sdk: messages, options and the client *)

Inductive ContentBlock : Type :=
| TextBlock (text : string)
| ThinkingBlock (thinking signature : string)
| ToolUseBlock (id name input : string)
| ToolResultBlock (tool_use_id : string) (content : ToolContent)
                  (is_error : option bool)
| OtherBlock.

Record ResultMessageData : Type := mkResultMessage {
  usage : option (gmap string Z);
  num_turns : Z;
  duration_ms : Z;
  is_error : bool;
}.

(** [UserMessage.content] is a [str] or something else whose [str()] is
    taken. *)
Inductive UserContent : Type :=
| UserStr (s : string)
| UserOther (str_of : string).

Inductive Message : Type :=
| AssistantMessage (content : list ContentBlock) (model : string)
| UserMessage (content : UserContent)
| SystemMessage (subtype data : string)
| ResultMessage (r : ResultMessageData)
| UnknownMessage.

Record ClaudeAgentOptions : Type := mkOptions {
  allowed_tools : list string;
  permission_mode : string;
  max_turns : option Z;
  model : option string;
  cwd : string;
  env : list (string * string);
}.

(** What awaiting one client call does. *)
Inductive CallResult : Type :=
| Returns
| Raises (e : exn)
| Hangs.

(** How the stream of [receive_response()] ends once its messages have
    been yielded: exhausted, an exception, or no further message ever. *)
Inductive StreamEnd : Type :=
| Exhausted
| StreamRaises (e : exn)
| StreamHangs.

(** [ClaudeSDKClient]: a script for each operation the server awaits. *)
Record Client : Type := mkClient {
  on_connect : CallResult;
  on_query : CallResult;
  on_receive : list Message * StreamEnd;
  on_interrupt : CallResult;
  on_disconnect : CallResult;
}.

Definition call {St} (r : CallResult) : M St unit :=
  match r with
  | Returns => mret tt
  | Raises e => raise e
  | Hangs => block
  end.

(** ** asyncio.Queue *)

Module Queue.

Record t : Type := mk {
  maxsize : Z;
  items : list Event;
}.

(** [asyncio.Queue()]: [maxsize] defaults to 0. *)
Definition new : t := mk 0 [].

Definition qsize (q : t) : Z := Z.of_nat (length (items q)).

(** [full()]: a queue with [maxsize <= 0] is never full. *)
Definition full (q : t) : bool :=
  if maxsize q <=? 0 then false else maxsize q <=? qsize q.

(** [await put(item)]: [None] when the queue is full and the caller stays
    suspended until a consumer makes room. *)
Definition put (item : Event) (q : t) : option t :=
  if full q then None else Some (mk (maxsize q) (items q ++ [item])).

(** [await get()]: [None] when the queue is empty and the caller waits. *)
Definition get (q : t) : option (Event * t) :=
  match items q with
  | [] => None
  | e :: rest => Some (e, mk (maxsize q) rest)
  end.

End Queue.

(** ** session_manager.py: class Session

    Methods that read [datetime.utcnow()] take the reading as [now]. *)

Module Session.

Record t : Type := mk {
  session_id : string;
  workspace : string;
  options : ClaudeAgentOptions;
  client : Client;
  status : SessionStatus;
  tasks : list string;
  created_at : Z;
  last_activity : Z;
  event_queues : gmap string Queue.t;
}.

(** [__init__]; [utcnow()] is read once for each of the two timestamps. *)
Definition init (session_id workspace : string) (options : ClaudeAgentOptions)
    (client : Client) (now1 now2 : Z) : t :=
  mk session_id workspace options client ACTIVE [] now1 now2 ∅.

Definition set_tasks (l : list string) (s : t) : t :=
  mk (session_id s) (workspace s) (options s) (client s) (status s) l
     (created_at s) (last_activity s) (event_queues s).

Definition set_last_activity (now : Z) (s : t) : t :=
  mk (session_id s) (workspace s) (options s) (client s) (status s) (tasks s)
     (created_at s) now (event_queues s).

Definition set_event_queues (qs : gmap string Queue.t) (s : t) : t :=
  mk (session_id s) (workspace s) (options s) (client s) (status s) (tasks s)
     (created_at s) (last_activity s) qs.

Definition add_task (task_id : string) (now : Z) (s : t) : t :=
  set_last_activity now (set_tasks (tasks s ++ [task_id]) s).

(** [list.remove(x)]: drops the first occurrence. *)
Fixpoint list_remove (x : string) (l : list string) : list string :=
  match l with
  | [] => []
  | y :: r => if decide (x = y) then r else y :: list_remove x r
  end.

Definition remove_task (task_id : string) (now : Z) (s : t) : t :=
  set_last_activity now
    (if decide (task_id ∈ tasks s)
     then set_tasks (list_remove task_id (tasks s)) s
     else s).

(** Creates the queue when the task has none, and returns the queue
    stored under [task_id] in either case. *)
Definition subscribe_task (task_id : string) (s : t) : Queue.t * t :=
  match event_queues s !! task_id with
  | Some q => (q, s)
  | None => (Queue.new, set_event_queues (<[task_id := Queue.new]> (event_queues s)) s)
  end.

Definition unsubscribe_task (task_id : string) (s : t) : t :=
  match event_queues s !! task_id with
  | Some _ => set_event_queues (delete task_id (event_queues s)) s
  | None => s
  end.

(** [None] when the underlying [put] stays suspended on a full queue. *)
Definition publish_event (task_id : string) (event : Event) (s : t) : option t :=
  match event_queues s !! task_id with
  | Some q =>
      match Queue.put event q with
      | Some q' => Some (set_event_queues (<[task_id := q']> (event_queues s)) s)
      | None => None
      end
  | None => Some s
  end.

(** [is_idle]; the clock is read only when the session owns no task, and
    [idle_time.total_seconds() > idle_timeout_seconds] is compared on
    microseconds. *)
Definition is_idle {St} (idle_timeout_seconds : Z) (s : t) : M St bool :=
  if (0 <? length (tasks s))%nat then mret false
  else now ← utcnow;
       mret (idle_timeout_seconds * 1000000 <? now - last_activity s).

(** [to_info]; the task list is copied. *)
Definition to_info (s : t) : SessionInfo :=
  mkSessionInfo (session_id s) (tasks s) (status s) (created_at s) (last_activity s).

End Session.

(** ** task_executor.py: class TaskExecutor *)

Module TaskExecutor.

Record t : Type := mk {
  session : Session.t;
  client : Client;
  task_id : option string;
  progress : TaskProgress;
  start_time : option Z;
}.

(** [__init__] *)
Definition init (session : Session.t) : t :=
  mk session (Session.client session) None TaskProgress_default None.

(** What a run works on: the executor object (which holds the session),
    and [published], a record kept for the proofs of every event handed
    to [session.publish_event] by a call that returned, with the task id
    it was published under. *)
Record Run : Type := mkRun {
  self : t;
  published : list (option string * Event);
}.

Definition on_self (f : t → t) (r : Run) : Run := mkRun (f (self r)) (published r).

Definition set_session (s : Session.t) (x : t) : t :=
  mk s (client x) (task_id x) (progress x) (start_time x).
Definition set_task_id (i : option string) (x : t) : t :=
  mk (session x) (client x) i (progress x) (start_time x).
Definition set_progress (p : TaskProgress) (x : t) : t :=
  mk (session x) (client x) (task_id x) p (start_time x).
Definition set_start_time (st : option Z) (x : t) : t :=
  mk (session x) (client x) (task_id x) (progress x) st.

Definition on_progress (f : TaskProgress → TaskProgress) : M Run unit :=
  modify (on_self (λ x, set_progress (f (progress x)) x)).

Definition set_turns (n : Z) (p : TaskProgress) : TaskProgress :=
  mkProgress n (tokens_used p) (tokens_input p) (tokens_output p)
             (files_modified p) (elapsed_time_ms p).
Definition set_tokens (u i o : Z) (p : TaskProgress) : TaskProgress :=
  mkProgress (turns p) u i o (files_modified p) (elapsed_time_ms p).
Definition set_files_modified (n : Z) (p : TaskProgress) : TaskProgress :=
  mkProgress (turns p) (tokens_used p) (tokens_input p) (tokens_output p)
             n (elapsed_time_ms p).
Definition set_elapsed_time_ms (n : Z) (p : TaskProgress) : TaskProgress :=
  mkProgress (turns p) (tokens_used p) (tokens_input p) (tokens_output p)
             (files_modified p) n.

(** [await self.session.publish_event(self.task_id, event.model_dump())].
    A task id of [None] is a key no queue is stored under. *)
Definition publish (event : Event) : M Run unit := λ w,
  let r := state w in
  let tid := task_id (self r) in
  let sent :=
    match tid with
    | Some k => Session.publish_event k event (session (self r))
    | None => Some (session (self r))
    end in
  match sent with
  | Some s' =>
      (Ok tt, mkWorld (clock w) (ticks w) (log w)
                (mkRun (set_session s' (self r)) (published r ++ [(tid, event)])))
  | None => (Block, w)
  end.

(** [f"{x}"] for an optional string. *)
Definition fmt (o : option string) : string := default "None" o.

(** [int(elapsed * 1000)] for [elapsed = (now - start).total_seconds()]:
    the difference of the two times in seconds as a float, multiplied by
    the float 1000.0, truncated towards zero. *)
Definition elapsed_ms (start now : Z) : Z :=
  Float.to_int (Float.mul (total_seconds (now - start)) (Float.of_int 1000)).
Global Arguments elapsed_ms : simpl never.

Definition _emit_message (data : MessageData) : M Run unit :=
  now ← utcnow; publish (MessageEvent now data).

Definition _emit_tool_use (id name input : string) : M Run unit :=
  now ← utcnow; publish (ToolUseEvent now id name input).

(** The test applied to each item of a list-valued tool result. *)
Definition reports_modification (item : ContentItem) : bool :=
  match item with
  | ItemDict (Some ty) text =>
      if decide (ty = "text") then
        let text := default "" text in
        (contains "written successfully" (lower text)
         || contains "modified" (lower text))%bool
      else false
  | _ => false
  end.

Definition _emit_tool_result (tool_use_id : string) (content : ToolContent)
    (is_error : option bool) : M Run unit :=
  now ← utcnow;
  publish (ToolResultEvent now tool_use_id content is_error);;
  match content with
  | ContentList l =>
      on_progress (λ p,
        foldl (λ acc item,
                 if reports_modification item
                 then set_files_modified (files_modified acc + 1) acc
                 else acc) p l)
  | _ => mret tt
  end.

Definition _emit_progress : M Run unit :=
  r ← get_state;
  match start_time (self r) with
  | Some st =>
      now ← utcnow;
      on_progress (set_elapsed_time_ms (elapsed_ms st now))
  | None => mret tt
  end;;
  now ← utcnow;
  r ← get_state;
  publish (ProgressEvent now (progress (self r))).

Definition _emit_error (error : string) : M Run unit :=
  now ← utcnow; publish (ErrorEvent now error).

Definition _complete_task (success : bool) (error : option string) : M Run unit :=
  let result :=
    mkResult (if success then 0 else 1)
             (Some (if success then "Task completed successfully"
                    else "Task failed: " +:+ fmt error))
             (match error with
              | Some e => if decide (e = "") then [] else [e]
              | None => []
              end) in
  now ← utcnow;
  publish (CompleteEvent now result);;
  r ← get_state;
  logger Log.INFO ("Task " +:+ fmt (task_id (self r)) +:+ " "
                   +:+ (if success then "completed" else "failed")).

Definition _handle_block (model : string) (block : ContentBlock) : M Run unit :=
  match block with
  | TextBlock text => _emit_message (DataAssistant text model)
  | ThinkingBlock thinking signature => _emit_message (DataThinking thinking signature)
  | ToolUseBlock id name input => _emit_tool_use id name input
  | ToolResultBlock tool_use_id content is_error =>
      _emit_tool_result tool_use_id content is_error
  | OtherBlock => mret tt
  end.

(** [for block in message.content: ...] *)
Fixpoint _handle_blocks (model : string) (blocks : list ContentBlock) : M Run unit :=
  match blocks with
  | [] => mret tt
  | b :: rest => _handle_block model b;; _handle_blocks model rest
  end.

Definition _handle_assistant_message (content : list ContentBlock) (model : string)
    : M Run unit :=
  on_progress (λ p, set_turns (turns p + 1) p);;
  _handle_blocks model content;;
  _emit_progress.

Definition _handle_user_message (content : UserContent) : M Run unit :=
  _emit_message (DataUser match content with UserStr s => s | UserOther s => s end).

Definition _handle_system_message (subtype data : string) : M Run unit :=
  _emit_message (DataSystem subtype data).

Definition _handle_message (message : Message) : M Run unit :=
  match message with
  | AssistantMessage content model => _handle_assistant_message content model
  | UserMessage content => _handle_user_message content
  | SystemMessage subtype data => _handle_system_message subtype data
  | ResultMessage _ => mret tt
  | UnknownMessage => logger Log.DEBUG "Unknown message type"
  end.

(** [d.get(key, 0)] *)
Definition get0 (d : gmap string Z) (key : string) : Z := default 0 (d !! key).

Definition _handle_result (result : ResultMessageData) : M Run unit :=
  match usage result with
  | Some u =>
      if decide (u = ∅) then mret tt
      else on_progress (set_tokens (get0 u "total_tokens") (get0 u "input_tokens")
                                   (get0 u "output_tokens"))
  | None => mret tt
  end;;
  on_progress (set_turns (num_turns result));;
  on_progress (set_elapsed_time_ms (duration_ms result));;
  _emit_progress;;
  r ← get_state;
  logger Log.INFO
    ("Task " +:+ fmt (task_id (self r)) +:+ " result: turns=" +:+ pretty (num_turns result)
     +:+ ", tokens=" +:+ pretty (tokens_used (progress (self r)))
     +:+ ", duration=" +:+ pretty (duration_ms result) +:+ "ms, error="
     +:+ (if is_error result then "True" else "False")).

(** [async for message in self.client.receive_response(): ...], on the
    messages still to come and the way the stream ends after them. *)
Fixpoint _receive (messages : list Message) (ending : StreamEnd) : M Run unit :=
  match messages with
  | [] =>
      match ending with
      | Exhausted => mret tt
      | StreamRaises e => raise e
      | StreamHangs => block
      end
  | message :: rest =>
      _handle_message message;;
      match message with
      | ResultMessage result => _handle_result result
      | _ => _receive rest ending
      end
  end.

Definition _execute_task (prompt : string) : M Run unit :=
  try_except
    (r ← get_state;
     call (on_query (client (self r)));;
     logger Log.DEBUG ("Task " +:+ fmt (task_id (self r)) +:+ ": Query sent to Claude");;
     _receive (on_receive (client (self r))).1 (on_receive (client (self r))).2;;
     _complete_task true None)
    (λ e, logger Log.ERROR ("Error in task execution: " +:+ str e);; raise e).

Definition execute (task_id prompt : string) (timeout : Z) : M Run unit :=
  modify (on_self (set_task_id (Some task_id)));;
  now ← utcnow;
  modify (on_self (set_start_time (Some now)));;
  logger Log.INFO ("Starting task execution: " +:+ task_id);;
  try_finally
    (try_except
       (wait_for (_execute_task prompt) timeout)
       (λ e,
          match e with
          | TimeoutError =>
              logger Log.ERROR ("Task " +:+ task_id +:+ " timed out after "
                                +:+ pretty timeout +:+ "s");;
              _emit_error "Task execution timed out";;
              _complete_task false (Some "Timeout")
          | _ =>
              logger Log.ERROR ("Task " +:+ task_id +:+ " failed: " +:+ str e);;
              _emit_error (str e);;
              _complete_task false (Some (str e))
          end))
    (now ← utcnow;
     modify (on_self (λ x, set_session (Session.remove_task task_id now (session x)) x))).

End TaskExecutor.

(** ** session_manager.py: class SessionManager

    Every method below holds the manager lock for its whole body, so no
    other manager method runs in between.  What lies outside the process is
    a parameter: the settings ([Config]), the file system ([FileSystem]) and
    the SDK, a function from the options a client is built with to the
    client's behaviour. *)

Record FileSystem : Type := mkFileSystem {
  path_resolve : string → string;   (* [str(Path(p).resolve())] *)
  path_exists : string → bool;      (* [Path(p).exists()] *)
}.

(** The [options] dict of a request; [None] is an absent key, and
    ["max_turns"] and ["model"] may be present with the value [None]. *)
Record OptionsDict : Type := mkOptionsDict {
  opt_allowed_tools : option (list string);
  opt_permission_mode : option string;
  opt_max_turns : option (option Z);
  opt_model : option (option string);
}.

Module SessionManager.

Record t : Type := mk {
  sessions : gmap string Session.t;
  _running : bool;
}.

(** [__init__] *)
Definition init : t := mk ∅ false.

Definition on_sessions (f : gmap string Session.t → gmap string Session.t) (m : t) : t :=
  mk (f (sessions m)) (_running m).

Definition get_active_count (m : t) : Z := Z.of_nat (size (sessions m)).

Definition get_session (session_id : string) : M t (option Session.t) :=
  m ← get_state; mret (sessions m !! session_id).

(** The [ClaudeAgentOptions] that [create_session] builds: each
    [options.get(key, default)] falls back on the configured default. *)
Definition build_options (config : Config) (workspace_path : string)
    (options : OptionsDict) : ClaudeAgentOptions :=
  mkOptions
    (default (default_allowed_tools config) (opt_allowed_tools options))
    (default (default_permission_mode config) (opt_permission_mode options))
    (default (Some (sdk_max_turns config)) (opt_max_turns options))
    (default (default_model config) (opt_model options))
    workspace_path
    [("ANTHROPIC_API_KEY", anthropic_api_key config)].

Definition create_session (config : Config) (fs : FileSystem)
    (sdk : ClaudeAgentOptions → Client)
    (session_id workspace : string) (options : OptionsDict) : M t Session.t :=
  m ← get_state;
  if decide (session_id ∈ dom (sessions m)) then
    raise (ValueError ("Session " +:+ session_id +:+ " already exists"))
  else if max_concurrent config <=? get_active_count m then
    raise (RuntimeError ("Maximum concurrent sessions ("
                         +:+ pretty (max_concurrent config) +:+ ") reached"))
  else
    let workspace_path := path_resolve fs workspace in
    if negb (path_exists fs workspace_path) then
      raise (ValueError ("Workspace directory does not exist: " +:+ workspace))
    else
      let claude_options := build_options config workspace_path options in
      let client := sdk claude_options in
      try_except
        (call (on_connect client);;
         logger Log.INFO ("Connected to Claude SDK for session: " +:+ session_id))
        (λ e, logger Log.ERROR ("Failed to connect to Claude SDK: " +:+ str e);;
              raise e);;
      now1 ← utcnow;
      now2 ← utcnow;
      let session :=
        Session.init session_id workspace_path claude_options client now1 now2 in
      modify (on_sessions <[session_id := session]>);;
      m' ← get_state;
      logger Log.INFO ("Created session: " +:+ session_id +:+ " (total: "
                       +:+ pretty (size (sessions m')) +:+ ")");;
      mret session.

Definition delete_session (session_id : string) : M t unit :=
  m ← get_state;
  match sessions m !! session_id with
  | None => raise (ValueError ("Session " +:+ session_id +:+ " not found"))
  | Some session =>
      try_except
        (call (on_disconnect (Session.client session));;
         logger Log.INFO ("Disconnected session: " +:+ session_id))
        (λ e, logger Log.ERROR ("Error disconnecting session " +:+ session_id
                                +:+ ": " +:+ str e));;
      modify (on_sessions (delete session_id));;
      m' ← get_state;
      logger Log.INFO ("Deleted session: " +:+ session_id +:+ " (remaining: "
                       +:+ pretty (size (sessions m')) +:+ ")")
  end.

(** The list comprehension of [_cleanup_idle_sessions]: the ids of the
    sessions for which [is_idle] holds.  The
    table is walked in the order [map_to_list] gives. *)
Fixpoint _idle_sessions (config : Config) (items : list (string * Session.t))
    : M t (list string) :=
  match items with
  | [] => mret []
  | (session_id, session) :: rest =>
      idle ← Session.is_idle (idle_timeout_seconds config) session;
      ids ← _idle_sessions config rest;
      mret (if idle : bool then session_id :: ids else ids)
  end.

(** One turn of the loop [for session_id in idle_sessions: try: ...]. *)
Definition _cleanup_one (session_id : string) : M t unit :=
  try_except
    (m ← get_state;
     match sessions m !! session_id with
     | None => raise (KeyError session_id)
     | Some session =>
         call (on_disconnect (Session.client session));;
         modify (on_sessions (delete session_id));;
         logger Log.INFO ("Cleaned up idle session: " +:+ session_id)
     end)
    (λ e, logger Log.ERROR ("Error cleaning up session " +:+ session_id
                            +:+ ": " +:+ str e)).

Fixpoint _cleanup_each (ids : list string) : M t unit :=
  match ids with
  | [] => mret tt
  | session_id :: rest => _cleanup_one session_id;; _cleanup_each rest
  end.

Definition _cleanup_idle_sessions (config : Config) : M t unit :=
  m ← get_state;
  idle_sessions ← _idle_sessions config (map_to_list (sessions m));
  _cleanup_each idle_sessions;;
  m' ← get_state;
  match idle_sessions with
  | [] => mret tt
  | _ => logger Log.INFO ("Cleaned up " +:+ pretty (length idle_sessions)
                          +:+ " idle sessions (remaining: "
                          +:+ pretty (size (sessions m')) +:+ ")")
  end.

Definition list_sessions : M t (list SessionInfo) :=
  m ← get_state; mret (Session.to_info <$> (map_to_list (sessions m)).*2).

(** The loop of [stop] over [self.sessions.values()]. *)
Fixpoint _disconnect_all (values : list Session.t) : M t unit :=
  match values with
  | [] => mret tt
  | session :: rest =>
      try_except
        (call (on_disconnect (Session.client session));;
         logger Log.INFO ("Disconnected session: " +:+ Session.session_id session))
        (λ e, logger Log.ERROR ("Error disconnecting session "
                                +:+ Session.session_id session +:+ ": " +:+ str e));;
      _disconnect_all rest
  end.

(** [stop].  The handle of the reaper task is not part of the state
    modelled here; cancelling it does not touch [self.sessions]. *)
Definition stop : M t unit :=
  modify (λ m, mk (sessions m) false);;
  m ← get_state;
  _disconnect_all (map_to_list (sessions m)).*2;;
  modify (on_sessions (λ _, ∅));;
  logger Log.INFO "Session manager stopped".

End SessionManager.

(** ** server.py: the task registry, the interrupt endpoint and the
    subscription step of the streaming endpoint *)

Module Server.

(** An entry of [running_tasks].  Its ["task"] and ["executor"] keys hold
    references that the handlers below do not read. *)
Record TaskInfo : Type := mkTaskInfo {
  session_id : string;
  status : TaskStatus;
  created_at : Z;
}.

Definition set_status (st : TaskStatus) (i : TaskInfo) : TaskInfo :=
  mkTaskInfo (session_id i) st (created_at i).

(** The process-wide objects: [session_manager] and [running_tasks]. *)
Record t : Type := mk {
  session_manager : SessionManager.t;
  running_tasks : gmap string TaskInfo;
}.

Record InterruptResponse : Type := mkInterruptResponse {
  resp_task_id : string;
  resp_status : TaskStatus;
  interrupted_at : Z;
}.

(** Runs a manager method on the server's [session_manager]. *)
Definition with_manager {A} (c : M SessionManager.t A) : M t A := λ w,
  let '(r, wm) := c (mkWorld (clock w) (ticks w) (log w) (session_manager (state w))) in
  (r, mkWorld (clock wm) (ticks wm) (log wm) (mk (state wm) (running_tasks (state w)))).

Definition on_running_tasks (f : gmap string TaskInfo → gmap string TaskInfo)
    (s : t) : t :=
  mk (session_manager s) (f (running_tasks s)).

Definition interrupt_task (task_id : string) : M t InterruptResponse :=
  s ← get_state;
  match running_tasks s !! task_id with
  | None => raise (HTTPException 404 ("Task " +:+ task_id +:+ " not found"))
  | Some task_info =>
      session ← with_manager (SessionManager.get_session (session_id task_info));
      match session with
      | None =>
          raise (HTTPException 404 ("Session not found for task " +:+ task_id))
      | Some session =>
          try_except
            (call (on_interrupt (Session.client session));;
             modify (on_running_tasks <[task_id := set_status INTERRUPTED task_info]>);;
             logger Log.INFO ("Interrupted task: " +:+ task_id);;
             now ← utcnow;
             mret (mkInterruptResponse task_id INTERRUPTED now))
            (λ e,
               logger Log.ERROR ("Error interrupting task " +:+ task_id +:+ ": "
                                 +:+ str e);;
               raise (HTTPException 500 ("Failed to interrupt task: " +:+ str e)))
      end
  end.

(** How [websocket_endpoint] gets to its streaming loop: the socket has
    been closed with [code] after an error frame, or the handler holds
    the task's queue. *)
Inductive Subscription : Type :=
| Closed (code : Z) (error : string)
| Subscribed (event_queue : Queue.t).

(** [while task_id not in running_tasks and retries > 0: sleep(0.1)] *)
Fixpoint _wait_for_task (task_id : string) (retries : nat) : M t unit :=
  match retries with
  | O => mret tt
  | S n =>
      s ← get_state;
      if decide (task_id ∈ dom (running_tasks s)) then mret tt
      else _wait_for_task task_id n
  end.

(** [websocket_endpoint], from the accepted socket up to and including
    [event_queue = session.subscribe_task(task_id)].  The session is the
    object stored in the manager's table, so the queue it creates shows
    there. *)
Definition websocket_subscribe (task_id : string) : M t Subscription :=
  _wait_for_task task_id 10;;
  s ← get_state;
  match running_tasks s !! task_id with
  | None => mret (Closed 1008 ("Task " +:+ task_id +:+ " not found"))
  | Some task_info =>
      session ← with_manager (SessionManager.get_session (session_id task_info));
      match session with
      | None => mret (Closed 1011 "Session not found")
      | Some session =>
          let '(event_queue, session') := Session.subscribe_task task_id session in
          modify (λ s, mk (SessionManager.on_sessions
                             <[session_id task_info := session']> (session_manager s))
                          (running_tasks s));;
          mret (Subscribed event_queue)
      end
  end.

(** [verify_api_key]; [api_key] is the value the dependency is given. *)
Definition verify_api_key (api : APIConfig) (key : option string) : M t bool :=
  if negb (auth_enabled api) then mret true
  else
    match key with
    | None | Some "" => raise (HTTPException 401 "API key required")
    | Some k =>
        if decide (Some k = api_key api) then mret true
        else raise (HTTPException 403 "Invalid API key")
    end.

(** [readiness_check] *)
Definition readiness_check (config : Config) : M t string :=
  s ← get_state;
  if max_concurrent config <=? SessionManager.get_active_count (session_manager s)
  then raise (HTTPException 503 "Server at capacity")
  else mret "ready".

(** [request.options.model_dump()]: every key is present. *)
Definition model_dump (o : TaskOptions) : OptionsDict :=
  mkOptionsDict (Some (to_allowed_tools o)) (Some (to_permission_mode o))
                (Some (to_max_turns o)) (Some (to_model o)).

(** [session.add_task(task_id)] on the session object stored under [sid]. *)
Definition _add_task (sid task_id : string) : M t unit :=
  now ← utcnow;
  modify (λ s, mk (SessionManager.on_sessions
                     (alter (Session.add_task task_id now) sid) (session_manager s))
                  (running_tasks s)).

(** The [else] branch of [create_task]: a new session named after the
    task.  A session object is a value of the manager's table here, so the
    branch also says under which key of the table the object is found. *)
Definition _new_session (config : Config) (fs : FileSystem)
    (sdk : ClaudeAgentOptions → Client) (request : TaskRequest)
    : M t (string * Session.t) :=
  session ← with_manager
              (SessionManager.create_session config fs sdk
                 ("session-" +:+ req_task_id request)
                 (req_workspace request) (model_dump (req_options request)));
  logger Log.INFO ("Created new session: " +:+ Session.session_id session);;
  mret ("session-" +:+ req_task_id request, session).

(** The [if] branch: the session named in the request. *)
Definition _reuse_session (sid : string) : M t (string * Session.t) :=
  found ← with_manager (SessionManager.get_session sid);
  match found with
  | None => raise (HTTPException 404 ("Session " +:+ sid +:+ " not found"))
  | Some session =>
      logger Log.INFO ("Reusing session: " +:+ Session.session_id session);;
      mret (sid, session)
  end.

(** [request.session.reuse_existing and request.session.session_id]: the
    id to reuse, when the flag is set and the id is a non-empty string. *)
Definition reuse_target (r : SessionRequest) : option string :=
  if reuse_existing r then
    match req_session_id r with
    | Some sid => if decide (sid = "") then None else Some sid
    | None => None
    end
  else None.

(** The three [except] clauses of [create_task]. *)
Definition _create_task_error (e : exn) : M t TaskResponse :=
  match e with
  | ValueError _ =>
      logger Log.ERROR ("Invalid request: " +:+ str e);;
      raise (HTTPException 400 (str e))
  | RuntimeError _ =>
      logger Log.ERROR ("Server error: " +:+ str e);;
      raise (HTTPException 503 (str e))
  | _ =>
      logger Log.ERROR ("Unexpected error creating task: " +:+ str e);;
      raise (HTTPException 500 "Internal server error")
  end.

(** The body of the [try] statement of [create_task]. *)
Definition _create_task_body (config : Config) (server : ServerConfig)
    (fs : FileSystem) (sdk : ClaudeAgentOptions → Client) (request : TaskRequest)
    : M t TaskResponse :=
  '(key, session) ←
     match reuse_target (req_session request) with
     | Some sid => _reuse_session sid
     | None => _new_session config fs sdk request
     end;
  _add_task key (req_task_id request);;
  created ← utcnow;
  modify (on_running_tasks
            <[req_task_id request
              := mkTaskInfo (Session.session_id session) RUNNING created]>);;
  now ← utcnow;
  mret (mkTaskResponse (req_task_id request) (Session.session_id session) RUNNING
          ("ws://" +:+ host server +:+ ":" +:+ pretty (port server)
           +:+ "/ws/tasks/" +:+ req_task_id request)
          now).

(** [create_task].  The executor it starts with [asyncio.create_task] does
    not run before the handler has returned; what the handler itself does
    is to find or create the session, add the task to it and register the
    task. *)
Definition create_task (config : Config) (server : ServerConfig) (fs : FileSystem)
    (sdk : ClaudeAgentOptions → Client) (request : TaskRequest) : M t TaskResponse :=
  logger Log.INFO ("Creating task: " +:+ req_task_id request);;
  try_except (_create_task_body config server fs sdk request) _create_task_error.

(** What [get_task_status] reads through the ["task"] and ["executor"]
    references of a registry entry: whether the background task is done
    and, when it is, the exception it ended with; and the executor's
    progress. *)
Record Background : Type := mkBackground {
  done : option (option exn);
  executor_progress : TaskProgress;
}.

(** [get_task_status] *)
Definition get_task_status (task_id : string) (bg : Background)
    : M t TaskStatusResponse :=
  s ← get_state;
  match running_tasks s !! task_id with
  | None => raise (HTTPException 404 ("Task " +:+ task_id +:+ " not found"))
  | Some task_info =>
      let status_val :=
        match done bg with
        | Some (Some _) => FAILED
        | Some None => COMPLETED
        | None => status task_info
        end in
      now ← utcnow;
      mret (mkTaskStatusResponse task_id (session_id task_info) status_val
              (executor_progress bg) None (created_at task_info) now)
  end.

(** The [DELETE /api/v1/sessions/{session_id}] handler. *)
Definition delete_session (session_id : string) : M t string :=
  try_except
    (with_manager (SessionManager.delete_session session_id);;
     logger Log.INFO ("Deleted session: " +:+ session_id);;
     mret ("Session " +:+ session_id +:+ " deleted"))
    (λ e,
       match e with
       | ValueError _ => raise (HTTPException 404 (str e))
       | _ =>
           logger Log.ERROR ("Error deleting session " +:+ session_id +:+ ": " +:+ str e);;
           raise (HTTPException 500 "Internal server error")
       end).

End Server.

(** * Properties *)

(** ** Floats: rounding is monotone *)

Module Rounding.
Import Float.
Local Open Scope Q_scope.

Lemma pow2_pos e : 0 < 2 ^ e.
Proof. by apply Qpower_0_lt. Qed.

Lemma round_half_even_floor x :
  (Qfloor x ≤ round_half_even x ≤ Qfloor x + 1)%Z.
Proof.
  unfold round_half_even.
  destruct (Qcompare _ _); [destruct (Z.even _)|..]; lia.
Qed.

Lemma round_half_even_mono x y :
  x <= y → (round_half_even x ≤ round_half_even y)%Z.
Proof.
  intros Hxy. pose proof (Qfloor_resp_le _ _ Hxy) as Hf.
  destruct (Z.eq_dec (Qfloor x) (Qfloor y)) as [E|N].
  - unfold round_half_even. rewrite E.
    destruct (Qcompare_spec (x - inject_Z (Qfloor y)) (1 # 2)) as [Hx|Hx|Hx];
      destruct (Qcompare_spec (y - inject_Z (Qfloor y)) (1 # 2)) as [Hy|Hy|Hy];
      try destruct (Z.even (Qfloor y)); try lia; exfalso; lra.
  - pose proof (round_half_even_floor x). pose proof (round_half_even_floor y). lia.
Qed.

Lemma round_half_even_Z k : round_half_even (inject_Z k) = k.
Proof.
  unfold round_half_even. rewrite Qfloor_Z.
  destruct (Qcompare_spec (inject_Z k - inject_Z k) (1 # 2)) as [H|H|H]; [|done|]; exfalso; lra.
Qed.

Lemma pow2_succ k : 2 ^ (k + 1) == 2 * 2 ^ k.
Proof. rewrite Qpower_plus by done. simpl. lra. Qed.

Lemma pow2_log2 n : (0 < n)%Z → 2 ^ Z.log2 n <= inject_Z n ∧ inject_Z n < 2 * 2 ^ Z.log2 n.
Proof.
  intros Hn. destruct (Z.log2_spec n Hn) as [H1 H2].
  pose proof (Z.log2_nonneg n) as H0.
  rewrite <- pow2_succ.
  change 2 with (inject_Z 2). rewrite <- !Zpower_Qpower by lia.
  split; [by rewrite <- Zle_Qle|by rewrite <- Zlt_Qlt].
Qed.

Lemma ulp_exp_spec x :
  0 < x → 2 ^ (ulp_exp x + 52) <= x ∧ x < 2 ^ (ulp_exp x + 53).
Proof.
  intros Hx. unfold ulp_exp.
  assert (Hn : (0 < Qnum x)%Z).
  { destruct x as [n d]. unfold Qlt in Hx. simpl in *. lia. }
  destruct (pow2_log2 (Qnum x) Hn) as [HA1 HA2].
  destruct (pow2_log2 (Zpos (Qden x)) eq_refl) as [HB1 HB2].
  set (a := Z.log2 (Qnum x)) in *. set (b := Z.log2 (Zpos (Qden x))) in *.
  pose proof (pow2_pos a) as Ha. pose proof (pow2_pos b) as Hb.
  pose proof (pow2_pos (a - b)) as Hk.
  assert (Hab : 2 ^ (a - b) * 2 ^ b == 2 ^ a).
  { rewrite <- Qpower_plus by done. by replace (a - b + b)%Z with a by lia. }
  assert (Hxd : x * inject_Z (Zpos (Qden x)) == inject_Z (Qnum x)).
  { destruct x as [n d]. unfold Qeq. simpl. lia. }
  assert (Hd : 0 < inject_Z (Zpos (Qden x))) by (unfold Qlt; simpl; lia).
  destruct (Qle_bool (2 ^ (a - b)) x) eqn:Ht.
  - apply Qle_bool_iff in Ht.
    replace (a - b - 52 + 52)%Z with (a - b)%Z by lia.
    replace (a - b - 52 + 53)%Z with (a - b + 1)%Z by lia.
    split; [done|]. rewrite pow2_succ. nra.
  - assert (Hlt : x < 2 ^ (a - b)).
    { apply Qnot_le_lt. intros H. apply Qle_bool_iff in H. congruence. }
    replace (a - b - 1 - 52 + 53)%Z with (a - b)%Z by lia.
    split; [|done].
    assert (E : 2 ^ (a - b) == 2 * 2 ^ (a - b - 1 - 52 + 52)).
    { rewrite <- pow2_succ. by replace (a - b - 1 - 52 + 52 + 1)%Z with (a - b)%Z by lia. }
    pose proof (pow2_pos (a - b - 1 - 52 + 52)). nra.
Qed.

Lemma pow2_Z k : (0 ≤ k)%Z → inject_Z (2 ^ k) == 2 ^ k.
Proof. intros Hk. by rewrite Zpower_Qpower. Qed.

(** The mantissa of a positive number has 53 bits, or is [2^53]. *)
Lemma mantissa_range x :
  0 < x →
  (2 ^ 52 ≤ round_half_even (x / 2 ^ ulp_exp x) ≤ 2 ^ 53)%Z.
Proof.
  intros Hx. destruct (ulp_exp_spec x Hx) as [H1 H2].
  pose proof (pow2_pos (ulp_exp x)) as Hp.
  rewrite Qpower_plus in H1, H2 by done.
  rewrite <- (round_half_even_Z (2 ^ 52)), <- (round_half_even_Z (2 ^ 53)).
  split; apply round_half_even_mono; rewrite pow2_Z by lia.
  - apply Qle_shift_div_l; [done|]. lra.
  - apply Qle_shift_div_r; [done|]. lra.
Qed.

Lemma round_pos_mono x y : 0 < x → x <= y → round_pos x <= round_pos y.
Proof.
  intros Hx Hxy. assert (Hy : 0 < y) by lra.
  destruct (ulp_exp_spec x Hx) as [Hx1 Hx2].
  destruct (ulp_exp_spec y Hy) as [Hy1 Hy2].
  pose proof (mantissa_range x Hx) as [_ Mx].
  pose proof (mantissa_range y Hy) as [My _].
  unfold round_pos.
  set (ex := ulp_exp x) in *. set (ey := ulp_exp y) in *.
  pose proof (pow2_pos ex) as Px. pose proof (pow2_pos ey) as Py.
  assert (Hlt : (ex + 52 < ey + 53)%Z).
  { apply (Qpower_lt_compat_l_inv 2); [lra|done]. }
  destruct (Z.eq_dec ex ey) as [E|N].
  - rewrite E. apply Qmult_le_compat_r; [|lra].
    rewrite <- Zle_Qle. apply round_half_even_mono.
    apply Qle_shift_div_l; [done|].
    rewrite <- E. unfold Qdiv. rewrite <- Qmult_assoc, (Qmult_comm (/ _)), Qmult_inv_r by lra.
    lra.
  - assert (Hle : 2 ^ (ex + 53) <= 2 ^ (ey + 52)).
    { apply Qpower_le_compat_l; [lia|lra]. }
    rewrite !Qpower_plus in Hle by done.
    rewrite Zle_Qle in Mx, My. rewrite pow2_Z in Mx, My by lia.
    set (mx := inject_Z (round_half_even (x / 2 ^ ex))) in *.
    set (my := inject_Z (round_half_even (y / 2 ^ ey))) in *.
    assert (mx * 2 ^ ex <= 2 ^ 53 * 2 ^ ex) by (apply Qmult_le_compat_r; lra).
    assert (2 ^ 52 * 2 ^ ey <= my * 2 ^ ey) by (apply Qmult_le_compat_r; lra).
    lra.
Qed.

Lemma round_pos_pos x : 0 < x → 0 < round_pos x.
Proof.
  intros Hx. pose proof (mantissa_range x Hx) as [M _].
  unfold round_pos. apply Qmult_lt_0_compat; [|apply pow2_pos].
  change 0 with (inject_Z 0). rewrite <- Zlt_Qlt. lia.
Qed.

Lemma round_mono x y : x <= y → round x <= round y.
Proof.
  intros Hxy. unfold round.
  destruct (Qcompare_spec x 0) as [Hx|Hx|Hx];
    destruct (Qcompare_spec y 0) as [Hy|Hy|Hy]; try lra.
  - pose proof (round_pos_pos y Hy). lra.
  - assert (H : 0 < round_pos (- x)) by (apply round_pos_pos; lra). lra.
  - assert (H : round_pos (- y) <= round_pos (- x)) by (apply round_pos_mono; lra).
    lra.
  - assert (H : 0 < round_pos (- x)) by (apply round_pos_pos; lra).
    pose proof (round_pos_pos y Hy). lra.
  - by apply round_pos_mono.
Qed.

Lemma to_int_nonneg x : 0 <= x → to_int x = Qfloor x.
Proof.
  destruct x as [n d]. unfold Qle, to_int. simpl. intros H.
  apply Z.quot_div_nonneg; lia.
Qed.

Lemma to_int_nonpos x : x <= 0 → to_int x = (- Qfloor (- x))%Z.
Proof.
  destruct x as [n d]. unfold Qle, to_int. simpl. intros H.
  rewrite <- (Z.opp_involutive n) at 1.
  rewrite Z.quot_opp_l, Z.quot_div_nonneg by lia. done.
Qed.

Lemma to_int_mono x y : x <= y → (to_int x ≤ to_int y)%Z.
Proof.
  intros Hxy.
  destruct (Qlt_le_dec x 0) as [Hx|Hx]; destruct (Qlt_le_dec y 0) as [Hy|Hy].
  - rewrite !to_int_nonpos by lra.
    assert (Qfloor (- y) ≤ Qfloor (- x))%Z by (apply Qfloor_resp_le; lra). lia.
  - rewrite to_int_nonpos, to_int_nonneg by lra.
    assert (0 ≤ Qfloor (- x))%Z by (rewrite <- (Qfloor_Z 0); apply Qfloor_resp_le; change (inject_Z 0) with 0; lra).
    assert (0 ≤ Qfloor y)%Z by (rewrite <- (Qfloor_Z 0); apply Qfloor_resp_le; change (inject_Z 0) with 0; lra).
    lia.
  - lra.
  - rewrite !to_int_nonneg by done. by apply Qfloor_resp_le.
Qed.

End Rounding.

(** The elapsed time never shrinks when the clock reading grows, although
    it is computed in floating point. *)
Lemma elapsed_ms_mono st a b :
  a ≤ b → TaskExecutor.elapsed_ms st a ≤ TaskExecutor.elapsed_ms st b.
Proof.
  intros Hab. unfold TaskExecutor.elapsed_ms, Float.mul, total_seconds, Float.true_divide.
  apply Rounding.to_int_mono, Rounding.round_mono.
  apply Qmult_le_compat_r; [|by vm_compute].
  apply Rounding.round_mono.
  apply Qmult_le_compat_r; [|by vm_compute].
  rewrite <- Zle_Qle. lia.
Qed.

(** ** Floats: comparison with binary64

    The same computation in the Standard Library's specification of IEEE
    754 arithmetic, at the precision and the exponent range of binary64. *)

Module Binary64.

Definition of_int (n : Z) : spec_float := binary_normalize 53 1024 n 0 false.

Definition to_int (x : spec_float) : option Z :=
  match x with
  | S754_zero _ => Some 0
  | S754_finite s m e =>
      let v := if 0 <=? e then Z.pos m * 2 ^ e else Z.quot (Z.pos m) (2 ^ (- e)) in
      Some (if s then - v else v)
  | _ => None
  end.

Definition elapsed_ms (start now : Z) : option Z :=
  to_int (SFmul 53 1024
            (SFdiv 53 1024 (of_int (now - start)) (of_int 1000000))
            (of_int 1000)).

(** Durations from 0 to 1.2 s in steps of 997 microseconds, forwards and
    backwards, and some longer ones. *)
Definition durations : list Z :=
  ((λ k, Z.of_nat k * 997) <$> seq 0 1200)
  ++ ((λ k, - (Z.of_nat k * 997)) <$> seq 0 100)
  ++ [1001000; 1015000; 4350000; 59999999; 3600000001; 86400000000;
      123456789012345; 9007199254740991].

End Binary64.

Lemma elapsed_ms_binary64 :
  forallb (λ us, bool_decide (Binary64.elapsed_ms 0 us
                              = Some (TaskExecutor.elapsed_ms 0 us)))
          Binary64.durations = true.
Proof. vm_compute. reflexivity. Qed.

(** ** Reasoning about runs of the executor

    Between the moment [execute] has stored the task id and the start time
    and the moment its [finally] clause runs, a step of the executor only
    publishes events under the task id, reads the clock, updates
    [self.progress] and logs.  [after evs n p lg w] is the world such a step
    leaves behind when started in [w]. *)

Module Runs.
Import TaskExecutor.

(** Appends [evs] to the queue stored under [tid], if there is one. *)
Definition push_all (tid : option string) (evs : list Event) (s : Session.t)
    : Session.t :=
  match tid with
  | Some k =>
      match Session.event_queues s !! k with
      | Some q =>
          Session.set_event_queues
            (<[k := Queue.mk (Queue.maxsize q) (Queue.items q ++ evs)]>
               (Session.event_queues s)) s
      | None => s
      end
  | None => s
  end.

Definition after (evs : list Event) (n : nat) (p : TaskProgress)
    (lg : list (Log.Level * string)) (w : World Run) : World Run :=
  let x := self (state w) in
  mkWorld (clock w) (ticks w + n) (log w ++ lg)
    (mkRun (mk (push_all (task_id x) evs (session x)) (client x) (task_id x) p
               (start_time x))
           (published (state w) ++ map (pair (task_id x)) evs)).

(** The queue the executor publishes to, if any, was created unbounded. *)
Definition unbounded (w : World Run) : Prop :=
  ∀ k q, task_id (self (state w)) = Some k →
         Session.event_queues (session (self (state w))) !! k = Some q →
         Queue.maxsize q ≤ 0.

Definition runs {A} (c : M Run A) (w : World Run) (r : Res A)
    (evs : list Event) (n : nat) (p : TaskProgress)
    (lg : list (Log.Level * string)) : Prop :=
  c w = (r, after evs n p lg w).

Lemma push_all_nil tid s : push_all tid [] s = s.
Proof.
  destruct tid as [k|]; simpl; [|done].
  destruct (Session.event_queues s !! k) as [q|] eqn:Hq; [|done].
  rewrite app_nil_r. destruct q as [mx it]; simpl.
  rewrite insert_id by done. by destruct s.
Qed.

Lemma push_all_app tid e1 e2 s :
  push_all tid e2 (push_all tid e1 s) = push_all tid (e1 ++ e2) s.
Proof.
  destruct tid as [k|]; simpl; [|done].
  destruct (Session.event_queues s !! k) as [q|] eqn:Hq; simpl.
  - rewrite lookup_insert_eq. simpl. rewrite insert_insert_eq.
    by rewrite app_assoc.
  - by rewrite Hq.
Qed.

Lemma after_id w : after [] 0 (progress (self (state w))) [] w = w.
Proof.
  destruct w as [c t l [[s cl i p st] pub]]. unfold after; simpl.
  rewrite push_all_nil, !app_nil_r. f_equal. lia.
Qed.

Lemma after_after e1 n1 p1 l1 e2 n2 p2 l2 w :
  after e2 n2 p2 l2 (after e1 n1 p1 l1 w)
  = after (e1 ++ e2) (n1 + n2) p2 (l1 ++ l2) w.
Proof.
  unfold after; simpl.
  rewrite push_all_app, map_app, !app_assoc. f_equal. lia.
Qed.

Lemma unbounded_after e n p l w : unbounded w → unbounded (after e n p l w).
Proof.
  unfold unbounded, after; simpl. intros H k q Hk Hq.
  rewrite Hk in Hq. simpl in Hq.
  destruct (Session.event_queues (session (self (state w))) !! k) as [q0|] eqn:E.
  - simpl in Hq. rewrite lookup_insert_eq in Hq. inversion Hq; subst; simpl.
    eauto.
  - rewrite E in Hq. done.
Qed.

(** *** The monad's operations as runs *)

Lemma runs_cast {A} (c : M Run A) w r e n p l e' n' p' l' :
  runs c w r e n p l → e = e' → n = n' → p = p' → l = l' →
  runs c w r e' n' p' l'.
Proof. by intros H -> -> -> ->. Qed.

Lemma runs_ret {A} (a : A) w :
  runs (mret a : M Run A) w (Ok a) [] 0 (progress (self (state w))) [].
Proof. unfold runs. by rewrite after_id. Qed.

Lemma runs_bind {A B} (c : M Run A) (f : A → M Run B) w a e1 n1 p1 l1 r e2 n2 p2 l2 :
  runs c w (Ok a) e1 n1 p1 l1 →
  runs (f a) (after e1 n1 p1 l1 w) r e2 n2 p2 l2 →
  runs (c ≫= f) w r (e1 ++ e2) (n1 + n2) p2 (l1 ++ l2).
Proof.
  unfold runs. intros H1 H2. unfold mbind, M_bind.
  by rewrite H1, H2, after_after.
Qed.

Lemma runs_bind_raise {A B} (c : M Run A) (f : A → M Run B) w e ev n p l :
  runs c w (Raise e) ev n p l → runs (c ≫= f) w (Raise e) ev n p l.
Proof. unfold runs. intros H. unfold mbind, M_bind. by rewrite H. Qed.

Lemma runs_bind_block {A B} (c : M Run A) (f : A → M Run B) w ev n p l :
  runs c w Block ev n p l → runs (c ≫= f) w Block ev n p l.
Proof. unfold runs. intros H. unfold mbind, M_bind. by rewrite H. Qed.

Lemma runs_get_state w :
  runs get_state w (Ok (state w)) [] 0 (progress (self (state w))) [].
Proof. unfold runs, get_state. by rewrite after_id. Qed.

Lemma runs_utcnow w :
  runs utcnow w (Ok (clock w (ticks w))) [] 1 (progress (self (state w))) [].
Proof.
  destruct w as [c t l [[s cl i p st] pub]]. unfold runs, utcnow, after; simpl.
  rewrite push_all_nil, !app_nil_r. do 2 f_equal. lia.
Qed.

Lemma runs_logger lvl msg w :
  runs (logger lvl msg) w (Ok tt) [] 0 (progress (self (state w))) [(lvl, msg)].
Proof.
  destruct w as [c t l [[s cl i p st] pub]]. unfold runs, logger, after; simpl.
  rewrite push_all_nil, !app_nil_r. do 2 f_equal. lia.
Qed.

Lemma runs_on_progress f w :
  runs (on_progress f) w (Ok tt) [] 0 (f (progress (self (state w)))) [].
Proof.
  destruct w as [c t l [[s cl i p st] pub]].
  unfold runs, on_progress, modify, after; simpl.
  rewrite push_all_nil, !app_nil_r. do 2 f_equal. lia.
Qed.

Lemma runs_raise {A} e w :
  runs (raise e : M Run A) w (Raise e) [] 0 (progress (self (state w))) [].
Proof. unfold runs, raise. by rewrite after_id. Qed.

Lemma runs_block {A} w :
  runs (block : M Run A) w Block [] 0 (progress (self (state w))) [].
Proof. unfold runs, block. by rewrite after_id. Qed.

Lemma runs_publish ev w :
  unbounded w →
  runs (publish ev) w (Ok tt) [ev] 0 (progress (self (state w))) [].
Proof.
  destruct w as [c t l [[s cl i p st] pub]].
  unfold unbounded, runs, publish, after; simpl. intros Hu.
  destruct i as [k|]; simpl.
  - unfold Session.publish_event.
    destruct (Session.event_queues s !! k) as [q|] eqn:Hq; simpl.
    + unfold Queue.put, Queue.full.
      specialize (Hu k q eq_refl Hq).
      destruct (Z.leb_spec (Queue.maxsize q) 0); [|lia].
      rewrite app_nil_r. do 2 f_equal. lia.
    + rewrite app_nil_r. do 2 f_equal. lia.
  - rewrite app_nil_r. do 2 f_equal. lia.
Qed.

(** *** The emitters as runs *)

Lemma runs_emit_message data w :
  unbounded w →
  runs (_emit_message data) w (Ok tt)
       [MessageEvent (clock w (ticks w)) data] 1 (progress (self (state w))) [].
Proof.
  intros Hu. unfold _emit_message. eapply runs_cast.
  { eapply runs_bind; [apply runs_utcnow|]. apply runs_publish.
    by apply unbounded_after. }
  all: done.
Qed.

Lemma runs_emit_tool_use id name input w :
  unbounded w →
  runs (_emit_tool_use id name input) w (Ok tt)
       [ToolUseEvent (clock w (ticks w)) id name input] 1
       (progress (self (state w))) [].
Proof.
  intros Hu. unfold _emit_tool_use. eapply runs_cast.
  { eapply runs_bind; [apply runs_utcnow|]. apply runs_publish.
    by apply unbounded_after. }
  all: done.
Qed.

Lemma runs_emit_error error w :
  unbounded w →
  runs (_emit_error error) w (Ok tt)
       [ErrorEvent (clock w (ticks w)) error] 1 (progress (self (state w))) [].
Proof.
  intros Hu. unfold _emit_error. eapply runs_cast.
  { eapply runs_bind; [apply runs_utcnow|]. apply runs_publish.
    by apply unbounded_after. }
  all: done.
Qed.

(** What the counting loop of [_emit_tool_result] leaves in the progress. *)
Definition counted (content : ToolContent) (p : TaskProgress) : TaskProgress :=
  match content with
  | ContentList l =>
      foldl (λ acc item,
               if reports_modification item
               then set_files_modified (files_modified acc + 1) acc
               else acc) p l
  | _ => p
  end.

Lemma runs_emit_tool_result id content is_error w :
  unbounded w →
  runs (_emit_tool_result id content is_error) w (Ok tt)
       [ToolResultEvent (clock w (ticks w)) id content is_error] 1
       (counted content (progress (self (state w)))) [].
Proof.
  intros Hu. unfold _emit_tool_result.
  destruct content;
    (eapply runs_cast;
     [ eapply runs_bind; [apply runs_utcnow|];
       eapply runs_bind; [apply runs_publish; by apply unbounded_after|];
       first [apply runs_on_progress | apply runs_ret]
     | done.. ]).
Qed.

Lemma runs_emit_progress st w :
  unbounded w →
  start_time (self (state w)) = Some st →
  let p := set_elapsed_time_ms (elapsed_ms st (clock w (ticks w)))
                               (progress (self (state w))) in
  runs _emit_progress w (Ok tt) [ProgressEvent (clock w (S (ticks w))) p] 2 p [].
Proof.
  intros Hu Hst p. unfold _emit_progress. eapply runs_cast.
  { eapply runs_bind; [apply runs_get_state|]. simpl. rewrite Hst.
    eapply runs_bind.
    { eapply runs_bind; [apply runs_utcnow|]. apply runs_on_progress. }
    eapply runs_bind; [apply runs_utcnow|].
    eapply runs_bind; [apply runs_get_state|].
    apply runs_publish. by repeat apply unbounded_after. }
  all: simpl; try done; subst p; by rewrite ?Nat.add_0_r, ?Nat.add_1_r.
Qed.

(** The [TaskResult] built by [_complete_task]. *)
Definition task_result (success : bool) (error : option string) : TaskResult :=
  mkResult (if success then 0 else 1)
           (Some (if success then "Task completed successfully"
                  else "Task failed: " +:+ fmt error))
           (match error with
            | Some e => if decide (e = "") then [] else [e]
            | None => []
            end).

Lemma runs_complete_task success error w :
  unbounded w →
  runs (_complete_task success error) w (Ok tt)
       [CompleteEvent (clock w (ticks w)) (task_result success error)] 1
       (progress (self (state w)))
       [(Log.INFO, "Task " +:+ fmt (task_id (self (state w))) +:+ " "
                   +:+ (if success then "completed" else "failed"))].
Proof.
  intros Hu. unfold _complete_task. eapply runs_cast.
  { eapply runs_bind; [apply runs_utcnow|].
    eapply runs_bind; [apply runs_publish; by apply unbounded_after|].
    eapply runs_bind; [apply runs_get_state|]. apply runs_logger. }
  all: done.
Qed.

(** *** Event lists *)

(** The snapshots carried by the PROGRESS events of a list, in order. *)
Definition snapshots (evs : list Event) : list TaskProgress :=
  omap (λ e, match e with ProgressEvent _ p => Some p | _ => None end) evs.

(** Neither a COMPLETE nor an ERROR event. *)
Definition streaming (e : Event) : Prop :=
  event_type e ≠ COMPLETE ∧ event_type e ≠ ERROR.

(** Every snapshot is at least every earlier one in the field [f]. *)
Fixpoint ascending (f : TaskProgress → Z) (ps : list TaskProgress) : Prop :=
  match ps with
  | [] => True
  | p :: rest => Forall (λ q, f p ≤ f q) rest ∧ ascending f rest
  end.

Definition mono_clock (w : World Run) : Prop :=
  ∀ i j, (i ≤ j)%nat → clock w i ≤ clock w j.

(** The field [f] of every snapshot of [evs] is at least [lo]. *)
Definition above (f : TaskProgress → Z) (lo : Z) (evs : list Event) : Prop :=
  Forall (λ q, lo ≤ f q) (snapshots evs).

(** ... and at most [hi]. *)
Definition below (f : TaskProgress → Z) (hi : Z) (evs : list Event) : Prop :=
  Forall (λ q, f q ≤ hi) (snapshots evs).

Lemma snapshots_app e1 e2 : snapshots (e1 ++ e2) = snapshots e1 ++ snapshots e2.
Proof. apply omap_app. Qed.

Lemma ascending_app f l1 l2 :
  ascending f l1 → ascending f l2 →
  (∀ x y, x ∈ l1 → y ∈ l2 → f x ≤ f y) →
  ascending f (l1 ++ l2).
Proof.
  induction l1 as [|a l1 IH]; simpl; [done|].
  intros [Ha Hl1] Hl2 Hx. split.
  - apply Forall_app. split; [done|].
    apply Forall_forall. intros y Hy. apply Hx; [left|done].
  - apply IH; [done..|]. intros x y Hx' Hy. apply Hx; [by right|done].
Qed.

Lemma elapsed_clock_mono st w i j :
  mono_clock w → (i ≤ j)%nat →
  elapsed_ms st (clock w i) ≤ elapsed_ms st (clock w j).
Proof. intros Hm Hij. apply elapsed_ms_mono. by apply Hm. Qed.

(** Two segments of a run, one after the other. *)
Lemma ascending_seq f mid e1 e2 :
  ascending f (snapshots e1) → below f mid e1 →
  ascending f (snapshots e2) → above f mid e2 →
  ascending f (snapshots (e1 ++ e2)).
Proof.
  intros A1 B1 A2 L2. rewrite snapshots_app.
  apply ascending_app; [done..|]. intros x y Hx Hy.
  unfold below, above in *. rewrite Forall_forall in B1, L2.
  specialize (B1 _ Hx). specialize (L2 _ Hy). lia.
Qed.

Lemma above_seq f lo mid e1 e2 :
  lo ≤ mid → above f lo e1 → above f mid e2 → above f lo (e1 ++ e2).
Proof.
  intros Hle L1 L2. unfold above in *. rewrite snapshots_app.
  apply Forall_app. split; [done|].
  eapply Forall_impl; [exact L2|]. simpl. intros q ?. lia.
Qed.

(** *** The message handlers as runs *)

(** What the handling of one message guarantees about the events [evs] it
    publishes and the progress [p] it leaves: the turn counts of the
    snapshots ascend between the count before and the count after, and,
    on a clock that does not go back, so do the elapsed times between the
    readings before and after. *)
Definition good (st : Z) (w : World Run) (evs : list Event) (n : nat)
    (p : TaskProgress) : Prop :=
  Forall streaming evs
  ∧ turns (progress (self (state w))) ≤ turns p
  ∧ (ascending turns (snapshots evs)
     ∧ above turns (turns (progress (self (state w)))) evs
     ∧ below turns (turns p) evs)
  ∧ (mono_clock w →
     ascending elapsed_time_ms (snapshots evs)
     ∧ above elapsed_time_ms (elapsed_ms st (clock w (ticks w))) evs
     ∧ below elapsed_time_ms (elapsed_ms st (clock w (ticks w + n))) evs).

Lemma good_quiet st w evs n p :
  Forall streaming evs → snapshots evs = [] →
  turns (progress (self (state w))) ≤ turns p →
  good st w evs n p.
Proof.
  intros Hs Hn Ht. unfold good, above, below. rewrite Hn. simpl.
  by split_and!.
Qed.

Lemma counted_turns content p : turns (counted content p) = turns p.
Proof.
  destruct content as [| |l]; simpl; [done..|].
  revert p. induction l as [|i l IH]; intros p; simpl; [done|].
  rewrite IH. by destruct (reports_modification i).
Qed.

Lemma runs_handle_block model b w :
  unbounded w →
  ∃ evs n p,
    runs (_handle_block model b) w (Ok tt) evs n p []
    ∧ Forall streaming evs ∧ snapshots evs = []
    ∧ turns p = turns (progress (self (state w))).
Proof.
  intros Hu. destruct b; simpl.
  - eexists _, _, _. split; [by apply runs_emit_message|].
    split_and!; [|done..]. by repeat constructor.
  - eexists _, _, _. split; [by apply runs_emit_message|].
    split_and!; [|done..]. by repeat constructor.
  - eexists _, _, _. split; [by apply runs_emit_tool_use|].
    split_and!; [|done..]. by repeat constructor.
  - eexists _, _, _. split; [by apply runs_emit_tool_result|].
    split_and!; [|done|apply counted_turns]. by repeat constructor.
  - eexists _, _, _. split; [apply runs_ret|]. by split_and!.
Qed.

Lemma runs_handle_blocks model blocks w :
  unbounded w →
  ∃ evs n p,
    runs (_handle_blocks model blocks) w (Ok tt) evs n p []
    ∧ Forall streaming evs ∧ snapshots evs = []
    ∧ turns p = turns (progress (self (state w))).
Proof.
  revert w. induction blocks as [|b blocks IH]; intros w Hu; simpl.
  - eexists _, _, _. split; [apply runs_ret|]. by split_and!.
  - destruct (runs_handle_block model b w Hu) as (e1 & n1 & p1 & R1 & S1 & N1 & T1).
    destruct (IH (after e1 n1 p1 [] w)) as (e2 & n2 & p2 & R2 & S2 & N2 & T2);
      [by apply unbounded_after|].
    exists (e1 ++ e2), (n1 + n2)%nat, p2. split_and!.
    + eapply runs_cast; [eapply runs_bind; [exact R1|exact R2]|done..].
    + by apply Forall_app.
    + by rewrite snapshots_app, N1, N2.
    + simpl in T2. lia.
Qed.

Lemma runs_handle_assistant_message st content model w :
  unbounded w → start_time (self (state w)) = Some st →
  ∃ evs n p,
    runs (_handle_assistant_message content model) w (Ok tt) evs n p []
    ∧ turns p = turns (progress (self (state w))) + 1
    ∧ good st w evs n p.
Proof.
  intros Hu Hst. unfold _handle_assistant_message.
  set (w1 := after [] 0 (set_turns (turns (progress (self (state w))) + 1)
                                   (progress (self (state w)))) [] w).
  destruct (runs_handle_blocks model content w1) as (e2 & n2 & p2 & R2 & S2 & N2 & T2);
    [by apply unbounded_after|].
  set (w2 := after e2 n2 p2 [] w1).
  pose proof (runs_emit_progress st w2) as R3. simpl in R3.
  specialize (R3 ltac:(by repeat apply unbounded_after) Hst).
  eexists _, _, _. split.
  { eapply runs_cast;
      [ eapply runs_bind; [apply runs_on_progress|];
        eapply runs_bind; [exact R2|exact R3]
      | reflexivity.. ]. }
  simpl in T2. split; [simpl; lia|]. unfold good, above, below. split_and!.
  - simpl. apply Forall_app. split; [done|]. by repeat constructor.
  - simpl. lia.
  - simpl. rewrite snapshots_app, N2. simpl. by split_and!.
  - simpl. rewrite snapshots_app, N2. simpl. repeat constructor. simpl. lia.
  - simpl. rewrite snapshots_app, N2. simpl. repeat constructor. simpl. lia.
  - intros Hm. simpl. rewrite !snapshots_app, N2. simpl.
    split_and!; [done|..]; repeat constructor; simpl.
    all: apply elapsed_clock_mono; [done|lia].
Qed.

(** The turn counter after a message has gone through [_handle_message]. *)
Definition turns_after (m : Message) (n : Z) : Z :=
  match m with
  | AssistantMessage _ _ => n + 1
  | _ => n
  end.

Lemma runs_handle_message st m w :
  unbounded w → start_time (self (state w)) = Some st →
  ∃ evs n p lg,
    runs (_handle_message m) w (Ok tt) evs n p lg
    ∧ turns p = turns_after m (turns (progress (self (state w))))
    ∧ good st w evs n p.
Proof.
  intros Hu Hst. destruct m as [content model|content|subtype data|res|]; simpl.
  - destruct (runs_handle_assistant_message st content model w Hu Hst)
      as (evs & n & p & R & T & G).
    by exists evs, n, p, [].
  - eexists _, _, _, _. split; [by apply runs_emit_message|]. split; [done|].
    apply good_quiet; [by repeat constructor|done|lia].
  - eexists _, _, _, _. split; [by apply runs_emit_message|]. split; [done|].
    apply good_quiet; [by repeat constructor|done|lia].
  - eexists _, _, _, _. split; [apply runs_ret|]. split; [done|].
    apply good_quiet; [done|done|lia].
  - eexists _, _, _, _. split; [apply runs_logger|]. split; [done|].
    apply good_quiet; [done|done|lia].
Qed.

(** The assignments [_handle_result] makes to [self.progress] before it
    calls [_emit_progress]. *)
Definition result_progress (res : ResultMessageData) (p : TaskProgress)
    : TaskProgress :=
  set_elapsed_time_ms (duration_ms res)
    (set_turns (num_turns res)
       (match usage res with
        | Some u =>
            if decide (u = ∅) then p
            else set_tokens (get0 u "total_tokens") (get0 u "input_tokens")
                            (get0 u "output_tokens") p
        | None => p
        end)).

(** The snapshot of the final PROGRESS event, and the progress left in
    the executor: [_emit_progress] has replaced the elapsed time by the
    one measured on the clock. *)
Definition final_progress (st now : Z) (res : ResultMessageData)
    (p : TaskProgress) : TaskProgress :=
  set_elapsed_time_ms (elapsed_ms st now) (result_progress res p).

Lemma runs_handle_result st res w :
  unbounded w → start_time (self (state w)) = Some st →
  let pf := final_progress st (clock w (ticks w)) res (progress (self (state w))) in
  ∃ lg, runs (_handle_result res) w (Ok tt)
             [ProgressEvent (clock w (S (ticks w))) pf] 2 pf lg.
Proof.
  intros Hu Hst pf. unfold _handle_result.
  set (p1 := match usage res with
             | Some u =>
                 if decide (u = ∅) then progress (self (state w))
                 else set_tokens (get0 u "total_tokens") (get0 u "input_tokens")
                                 (get0 u "output_tokens") (progress (self (state w)))
             | None => progress (self (state w))
             end).
  assert (R1 : runs (match usage res with
                     | Some u =>
                         if decide (u = ∅) then mret tt
                         else on_progress (set_tokens (get0 u "total_tokens")
                                (get0 u "input_tokens") (get0 u "output_tokens"))
                     | None => mret tt
                     end) w (Ok tt) [] 0 p1 []).
  { subst p1. destruct (usage res) as [u|]; [|apply runs_ret].
    destruct (decide (u = ∅)); [apply runs_ret|apply runs_on_progress]. }
  set (w3 := after [] 0 (set_elapsed_time_ms (duration_ms res)
                           (set_turns (num_turns res) p1)) []
               (after [] 0 (set_turns (num_turns res) p1) [] (after [] 0 p1 [] w))).
  pose proof (runs_emit_progress st w3) as R4. simpl in R4.
  specialize (R4 ltac:(by repeat apply unbounded_after) Hst).
  eexists. eapply runs_cast.
  { eapply runs_bind; [exact R1|].
    eapply runs_bind; [apply runs_on_progress|].
    eapply runs_bind; [apply runs_on_progress|].
    eapply runs_bind; [exact R4|].
    eapply runs_bind; [apply runs_get_state|]. apply runs_logger. }
  all: simpl; rewrite ?Nat.add_0_r; try reflexivity.
Qed.

(** *** The receive loop *)

(** The first [ResultMessage] of a stream, at which the loop breaks. *)
Fixpoint first_result (messages : list Message) : option ResultMessageData :=
  match messages with
  | [] => None
  | ResultMessage res :: _ => Some res
  | _ :: rest => first_result rest
  end.

(** How the loop over a stream is left. *)
Definition receive_outcome (messages : list Message) (ending : StreamEnd)
    : Res unit :=
  match first_result messages with
  | Some _ => Ok tt
  | None =>
      match ending with
      | Exhausted => Ok tt
      | StreamRaises e => Raise e
      | StreamHangs => Block
      end
  end.

(** The turn count the first [ResultMessage] reports is at least the
    count [n] the executor has reached when that message arrives. *)
Fixpoint turns_agree (n : Z) (messages : list Message) : Prop :=
  match messages with
  | [] => True
  | ResultMessage res :: _ => n ≤ num_turns res
  | m :: rest => turns_agree (turns_after m n) rest
  end.

Definition is_result (m : Message) : bool :=
  match m with ResultMessage _ => true | _ => false end.

(** One message handled, then the rest of the run. *)
Lemma runs_then st (c k : M Run unit) w e1 n1 p1 l1 r e2 n2 p2 l2 :
  runs c w (Ok tt) e1 n1 p1 l1 → good st w e1 n1 p1 →
  runs k (after e1 n1 p1 l1 w) r e2 n2 p2 l2 → Forall streaming e2 →
  runs (c ;; k) w r (e1 ++ e2) (n1 + n2) p2 (l1 ++ l2)
  ∧ Forall streaming (e1 ++ e2)
  ∧ (ascending turns (snapshots e2) ∧ above turns (turns p1) e2 →
     ascending turns (snapshots (e1 ++ e2))
     ∧ above turns (turns (progress (self (state w)))) (e1 ++ e2))
  ∧ (mono_clock w →
     ascending elapsed_time_ms (snapshots e2)
     ∧ above elapsed_time_ms (elapsed_ms st (clock w (ticks w + n1))) e2 →
     ascending elapsed_time_ms (snapshots (e1 ++ e2))
     ∧ above elapsed_time_ms (elapsed_ms st (clock w (ticks w))) (e1 ++ e2)).
Proof.
  intros R1 (S1 & Le1 & (A1 & L1 & B1) & G1) R2 S2. split_and!.
  - eapply runs_bind; [exact R1|exact R2].
  - by apply Forall_app.
  - intros [A2 L2]. split.
    + by eapply ascending_seq.
    + by eapply above_seq.
  - intros Hm [A2 L2]. destruct (G1 Hm) as (A1' & L1' & B1'). split.
    + by eapply ascending_seq.
    + eapply above_seq; [|done..]. apply elapsed_clock_mono; [done|lia].
Qed.

Lemma receive_cons m rest ending :
  is_result m = false →
  _receive (m :: rest) ending = (_handle_message m ;; _receive rest ending).
Proof. by destruct m. Qed.

Lemma receive_outcome_cons m rest ending :
  is_result m = false →
  receive_outcome (m :: rest) ending = receive_outcome rest ending.
Proof. by destruct m. Qed.

Lemma turns_agree_cons m rest n :
  is_result m = false →
  turns_agree n (m :: rest) = turns_agree (turns_after m n) rest.
Proof. by destruct m. Qed.

Lemma runs_receive st messages ending w :
  unbounded w → start_time (self (state w)) = Some st →
  ∃ evs n p lg,
    runs (_receive messages ending) w (receive_outcome messages ending) evs n p lg
    ∧ Forall streaming evs
    ∧ (turns_agree (turns (progress (self (state w)))) messages →
       ascending turns (snapshots evs)
       ∧ above turns (turns (progress (self (state w)))) evs)
    ∧ (mono_clock w →
       ascending elapsed_time_ms (snapshots evs)
       ∧ above elapsed_time_ms (elapsed_ms st (clock w (ticks w))) evs).
Proof.
  revert w. induction messages as [|m rest IH]; intros w Hu Hst.
  - unfold receive_outcome. simpl. eexists [], _, _, _. split.
    + destruct ending; [apply runs_ret|apply runs_raise|apply runs_block].
    + split; [done|]. split; intros _; (split; [done|by constructor]).
  - destruct (runs_handle_message st m w Hu Hst)
      as (e1 & n1 & p1 & l1 & R1 & T1 & G1).
    set (w1 := after e1 n1 p1 l1 w).
    assert (Hu1 : unbounded w1) by by apply unbounded_after.
    destruct (is_result m) eqn:Hm.
    + (* the loop breaks at a result message *)
      destruct m as [| | |res|]; try done.
      destruct (runs_handle_result st res w1 Hu1 Hst) as (l2 & R2). simpl in R2.
      destruct (runs_then st _ _ _ _ _ _ _ _ _ _ _ _ R1 G1 R2) as (R & S & Gt & Ge).
      { by repeat constructor. }
      eexists _, _, _, _. split_and!; [exact R|exact S|..].
      * intros Ht. apply Gt. simpl in Ht, T1. unfold above. simpl.
        split; [by split_and!|]. repeat constructor. simpl. lia.
      * intros Hc. apply Ge; [done|]. unfold above. simpl.
        split; [by split_and!|]. by repeat constructor.
    + destruct (IH w1 Hu1 Hst) as (e2 & n2 & p2 & l2 & R2 & S2 & Gt2 & Ge2).
      destruct (runs_then st _ _ _ _ _ _ _ _ _ _ _ _ R1 G1 R2 S2) as (R & S & Gt & Ge).
      rewrite receive_cons, receive_outcome_cons by done.
      eexists _, _, _, _. split_and!; [exact R|exact S|..].
      * intros Ht. apply Gt. apply Gt2.
        rewrite turns_agree_cons in Ht by done. simpl. by rewrite T1.
      * intros Hc. apply Ge; [done|]. by apply Ge2.
Qed.

(** *** [_execute_task] *)

Definition call_outcome (r : CallResult) : Res unit :=
  match r with
  | Returns => Ok tt
  | Raises e => Raise e
  | Hangs => Block
  end.

Lemma runs_call r w :
  runs (call r) w (call_outcome r) [] 0 (progress (self (state w))) [].
Proof. destruct r; [apply runs_ret|apply runs_raise|apply runs_block]. Qed.

Lemma runs_try_except {A} (body : M Run A) handler w r e1 n1 p1 l1 r' e2 n2 p2 l2 :
  runs body w r e1 n1 p1 l1 →
  match r with
  | Raise e =>
      runs (handler e) (after e1 n1 p1 l1 w) r' e2 n2 p2 l2
  | _ => r' = r ∧ e2 = [] ∧ n2 = 0%nat ∧ p2 = p1 ∧ l2 = []
  end →
  runs (try_except body handler) w r' (e1 ++ e2) (n1 + n2) p2 (l1 ++ l2).
Proof.
  unfold runs, try_except. intros -> H. destruct r as [a|e|].
  - destruct H as (-> & -> & -> & -> & ->).
    by rewrite !app_nil_r, Nat.add_0_r.
  - by rewrite H, after_after.
  - destruct H as (-> & -> & -> & -> & ->).
    by rewrite !app_nil_r, Nat.add_0_r.
Qed.

(** Under a positive timeout the body runs, and a body that is still
    suspended at the deadline ends in [TimeoutError]. *)
Lemma runs_wait_for {A} (body : M Run A) timeout w r e n p l :
  0 < timeout →
  runs body w r e n p l →
  runs (wait_for body timeout) w
       (match r with Block => Raise TimeoutError | _ => r end) e n p l.
Proof.
  unfold runs, wait_for. intros Ht ->. rewrite decide_False by lia.
  by destruct r.
Qed.

(** Under a timeout that is not positive the body does not run. *)
Lemma runs_wait_for_expired {A} (body : M Run A) timeout w :
  timeout ≤ 0 →
  runs (wait_for body timeout) w (Raise TimeoutError) [] 0
       (progress (self (state w))) [].
Proof.
  unfold runs, wait_for. intros Ht. rewrite decide_True by done.
  by rewrite after_id.
Qed.

(** How [_execute_task] is left, by what the client does. *)
Definition task_outcome (cl : Client) : Res unit :=
  match on_query cl with
  | Returns => receive_outcome (on_receive cl).1 (on_receive cl).2
  | Raises e => Raise e
  | Hangs => Block
  end.

(** How [wait_for] around [_execute_task] is left. *)
Definition wait_outcome (timeout : Z) (cl : Client) : Res unit :=
  if decide (timeout ≤ 0) then Raise TimeoutError
  else match task_outcome cl with
       | Block => Raise TimeoutError
       | r => r
       end.

(** The events [_execute_task] itself adds when the stream has been
    consumed without an exception. *)
Definition success_tail (r : Res unit) (t : Z) : list Event :=
  match r with
  | Ok _ => [CompleteEvent t (task_result true None)]
  | _ => []
  end.

Lemma runs_execute_task st prompt w :
  unbounded w → start_time (self (state w)) = Some st →
  ∃ evs t n p lg,
    runs (_execute_task prompt) w (task_outcome (client (self (state w))))
         (evs ++ success_tail (task_outcome (client (self (state w)))) t) n p lg
    ∧ Forall streaming evs
    ∧ (turns_agree (turns (progress (self (state w))))
                   (on_receive (client (self (state w)))).1 →
       ascending turns (snapshots evs))
    ∧ (mono_clock w → ascending elapsed_time_ms (snapshots evs)).
Proof.
  intros Hu Hst. unfold _execute_task, task_outcome.
  set (cl := client (self (state w))).
  set (handler := λ e : exn,
         logger Log.ERROR ("Error in task execution: " +:+ str e);; raise e).
  assert (Hh : ∀ e w', runs (handler e : M Run unit) w' (Raise e) [] 0
                         (progress (self (state w')))
                         [(Log.ERROR, "Error in task execution: " +:+ str e)]).
  { intros e w'. eapply runs_cast;
      [eapply runs_bind; [apply runs_logger|apply runs_raise]|done..]. }
  destruct (on_query cl) eqn:Hq.
  - (* the query went out: the stream is consumed *)
    set (w1 := after [] 0 (progress (self (state w)))
                 [(Log.DEBUG, "Task " +:+ fmt (task_id (self (state w)))
                              +:+ ": Query sent to Claude")] w).
    destruct (runs_receive st (on_receive cl).1 (on_receive cl).2 w1)
      as (evs & n & p & lg & R & S & Gt & Ge); [by apply unbounded_after|done|].
    destruct (receive_outcome (on_receive cl).1 (on_receive cl).2) as [[]|e|] eqn:Ho.
    + pose proof (runs_complete_task true None (after evs n p lg w1)) as Rc.
      specialize (Rc ltac:(by repeat apply unbounded_after)).
      eexists evs, _, _, _, _.
      split_and!; [|exact S|intros; by apply Gt|intros; by apply Ge].
      eapply runs_cast.
      { eapply runs_try_except with (r := Ok tt).
        - eapply runs_bind; [apply runs_get_state|]. fold cl. rewrite Hq.
          eapply runs_bind; [apply runs_ret|].
          eapply runs_bind; [apply runs_logger|].
          rewrite !after_after. simpl.
          eapply runs_bind; [exact R|exact Rc].
        - by split_and!. }
      all: simpl; rewrite ?app_nil_r; reflexivity.
    + eexists evs, 0, _, _, _.
      split_and!; [|exact S|intros; by apply Gt|intros; by apply Ge].
      eapply runs_cast.
      { eapply runs_try_except with (r := Raise e).
        - eapply runs_bind; [apply runs_get_state|]. fold cl. rewrite Hq.
          eapply runs_bind; [apply runs_ret|].
          eapply runs_bind; [apply runs_logger|].
          rewrite !after_after. simpl.
          eapply runs_bind_raise. exact R.
        - apply Hh. }
      all: simpl; rewrite ?app_nil_r; reflexivity.
    + eexists evs, 0, _, _, _.
      split_and!; [|exact S|intros; by apply Gt|intros; by apply Ge].
      eapply runs_cast.
      { eapply runs_try_except with (r := Block).
        - eapply runs_bind; [apply runs_get_state|]. fold cl. rewrite Hq.
          eapply runs_bind; [apply runs_ret|].
          eapply runs_bind; [apply runs_logger|].
          rewrite !after_after. simpl.
          eapply runs_bind_block. exact R.
        - by split_and!. }
      all: simpl; rewrite ?app_nil_r; reflexivity.
  - (* the query raised *)
    eexists [], 0, _, _, _. split_and!; [|done|done|done].
    eapply runs_cast.
    { eapply runs_try_except with (r := Raise e).
      - eapply runs_bind; [apply runs_get_state|]. fold cl. rewrite Hq.
        eapply runs_bind_raise. apply runs_raise.
      - apply Hh. }
    all: simpl; reflexivity.
  - (* the query never returned *)
    eexists [], 0, _, _, _. split_and!; [|done|done|done].
    eapply runs_cast.
    { eapply runs_try_except with (r := Block).
      - eapply runs_bind; [apply runs_get_state|]. fold cl. rewrite Hq.
        eapply runs_bind_block. apply runs_block.
      - by split_and!. }
    all: simpl; reflexivity.
Qed.

(** *** [execute] *)

(** The world in which [execute] enters its [try] statement. *)
Definition started (tid : string) (w : World Run) : World Run :=
  let x := self (state w) in
  mkWorld (clock w) (S (ticks w))
    (log w ++ [(Log.INFO, "Starting task execution: " +:+ tid)])
    (mkRun (mk (session x) (client x) (Some tid) (progress x)
               (Some (clock w (ticks w))))
           (published (state w))).

(** The world its [finally] clause leaves. *)
Definition finished (tid : string) (w : World Run) : World Run :=
  mkWorld (clock w) (S (ticks w)) (log w)
    (on_self (λ x, set_session
                     (Session.remove_task tid (clock w (ticks w)) (session x)) x)
             (state w)).

(** The events with which [execute] closes the stream of a task, by the
    way [_execute_task] was left; [t1] and [t2] are their timestamps. *)
Definition closing (r : Res unit) (t1 t2 : Z) : list Event :=
  match r with
  | Ok _ => [CompleteEvent t1 (task_result true None)]
  | Raise TimeoutError | Block =>
      [ErrorEvent t1 "Task execution timed out";
       CompleteEvent t2 (task_result false (Some "Timeout"))]
  | Raise e =>
      [ErrorEvent t1 (str e);
       CompleteEvent t2 (task_result false (Some (str e)))]
  end.

Lemma runs_failure (msg : string) (err : string) lvl text w :
  unbounded w →
  runs (logger lvl text;; _emit_error msg;; _complete_task false (Some err))
       w (Ok tt)
       [ErrorEvent (clock w (ticks w)) msg;
        CompleteEvent (clock w (S (ticks w))) (task_result false (Some err))]
       2 (progress (self (state w)))
       [(lvl, text);
        (Log.INFO, "Task " +:+ fmt (task_id (self (state w))) +:+ " failed")].
Proof.
  intros Hu. eapply runs_cast.
  { eapply runs_bind; [apply runs_logger|].
    eapply runs_bind; [apply runs_emit_error; by apply unbounded_after|].
    apply runs_complete_task. by repeat apply unbounded_after. }
  all: simpl; rewrite ?Nat.add_0_r, ?Nat.add_1_r; reflexivity.
Qed.

(** The two [except] clauses of [execute], and its [finally] clause. *)
Definition failure_handler (tid : string) (timeout : Z) (e : exn) : M Run unit :=
  match e with
  | TimeoutError =>
      logger Log.ERROR ("Task " +:+ tid +:+ " timed out after "
                        +:+ pretty timeout +:+ "s");;
      _emit_error "Task execution timed out";;
      _complete_task false (Some "Timeout")
  | _ =>
      logger Log.ERROR ("Task " +:+ tid +:+ " failed: " +:+ str e);;
      _emit_error (str e);;
      _complete_task false (Some (str e))
  end.

Definition cleanup (tid : string) : M Run unit :=
  now ← utcnow;
  modify (on_self (λ x, set_session (Session.remove_task tid now (session x)) x)).

Lemma execute_unfold tid prompt timeout w :
  execute tid prompt timeout w
  = try_finally
      (try_except (wait_for (_execute_task prompt) timeout)
                  (failure_handler tid timeout))
      (cleanup tid) (started tid w).
Proof. reflexivity. Qed.

Lemma execute_runs tid prompt timeout w :
  unbounded (started tid w) →
  ∃ evs t1 t2 n p lg,
    execute tid prompt timeout w
    = (Ok tt,
       finished tid
         (after (evs ++ closing (wait_outcome timeout (client (self (state w)))) t1 t2)
                n p lg (started tid w)))
    ∧ Forall streaming evs
    ∧ (turns_agree (turns (progress (self (state w))))
                   (on_receive (client (self (state w)))).1 →
       ascending turns (snapshots evs))
    ∧ (mono_clock w → ascending elapsed_time_ms (snapshots evs)).
Proof.
  intros Hu. unfold wait_outcome.
  destruct (decide (timeout ≤ 0)) as [He|Hp].
  - (* the deadline has passed before the task starts *)
    pose proof (runs_wait_for_expired (_execute_task prompt) timeout
                  (started tid w) He) as R.
    assert (∃ t1 t2 n' p' lg',
              runs (try_except (wait_for (_execute_task prompt) timeout)
                               (failure_handler tid timeout))
                   (started tid w) (Ok tt)
                   ([] ++ closing (Raise TimeoutError) t1 t2) n' p' lg')
      as (t1 & t2 & n' & p' & lg' & R').
    { eexists _, _, _, _, _. eapply runs_cast.
      { eapply runs_try_except with (r := Raise TimeoutError); [exact R|].
        apply runs_failure. by apply unbounded_after. }
      all: reflexivity. }
    exists [], t1, t2, n', p', lg'. split_and!; [|done|done|done].
    rewrite execute_unfold. unfold runs in R'. unfold try_finally. by rewrite R'.
  - destruct (runs_execute_task (clock w (ticks w)) prompt (started tid w) Hu eq_refl)
      as (evs & t & n & p & lg & R & S & Gt & Ge).
    simpl in R, Gt, Ge.
    apply (runs_wait_for _ timeout) in R; [|lia].
    assert (∃ t1 t2 n' p' lg',
              runs (try_except (wait_for (_execute_task prompt) timeout)
                               (failure_handler tid timeout))
                   (started tid w) (Ok tt)
                   (evs ++ closing
                             (match task_outcome (client (self (state w))) with
                              | Block => Raise TimeoutError
                              | r => r
                              end) t1 t2)
                   n' p' lg') as (t1 & t2 & n' & p' & lg' & R').
    { destruct (task_outcome (client (self (state w)))) as [[]|e|] eqn:Ho; simpl in R.
      - eexists t, 0, _, _, _. eapply runs_cast.
        { eapply runs_try_except with (r := Ok tt); [exact R|by split_and!]. }
        all: simpl; rewrite ?app_nil_r; reflexivity.
      - destruct e;
          (eexists _, _, _, _, _; eapply runs_cast;
           [ eapply runs_try_except with (r := Raise _);
             [exact R|apply runs_failure; by apply unbounded_after]
           | rewrite ?app_nil_r; reflexivity.. ]).
      - eexists _, _, _, _, _. eapply runs_cast.
        { eapply runs_try_except with (r := Raise TimeoutError); [exact R|].
          apply runs_failure; by apply unbounded_after. }
        all: try reflexivity.
        by rewrite app_nil_r. }
    exists evs, t1, t2, n', p', lg'. split_and!; [|done|done|done].
    rewrite execute_unfold. unfold runs in R'. unfold try_finally. by rewrite R'.
Qed.

End Runs.

(** ** What a run of [execute] shows to the outside *)

(** The events [execute] hands to [session.publish_event], in order. *)
Definition events_of_run (task_id prompt : string) (timeout : Z)
    (w : World TaskExecutor.Run) : list Event :=
  (drop (length (TaskExecutor.published (state w)))
        (TaskExecutor.published
           (state (TaskExecutor.execute task_id prompt timeout w).2))).*2.

(** The undrained events of the queue stored under [task_id], if any. *)
Definition queue_items (task_id : string) (s : Session.t) : option (list Event) :=
  Queue.items <$> Session.event_queues s !! task_id.

(** The queue stored under [task_id], if any, is unbounded. *)
Definition queue_unbounded (task_id : string) (s : Session.t) : Prop :=
  ∀ q, Session.event_queues s !! task_id = Some q → Queue.maxsize q ≤ 0.

(** Every queue of the session is unbounded. *)
Definition queues_unbounded (s : Session.t) : Prop :=
  ∀ k, queue_unbounded k s.

Definition session_of (w : World TaskExecutor.Run) : Session.t :=
  TaskExecutor.session (TaskExecutor.self (state w)).

Definition progress_of (w : World TaskExecutor.Run) : TaskProgress :=
  TaskExecutor.progress (TaskExecutor.self (state w)).

Definition client_of (w : World TaskExecutor.Run) : Client :=
  TaskExecutor.client (TaskExecutor.self (state w)).

Lemma remove_task_event_queues tid now s :
  Session.event_queues (Session.remove_task tid now s) = Session.event_queues s.
Proof. unfold Session.remove_task. by destruct (decide (tid ∈ Session.tasks s)). Qed.

Lemma queue_items_push_all tid evs s :
  queue_items tid (Runs.push_all (Some tid) evs s)
  = (λ l, l ++ evs) <$> queue_items tid s.
Proof.
  unfold queue_items, Runs.push_all.
  destruct (Session.event_queues s !! tid) as [q|] eqn:Hq; simpl.
  - by rewrite lookup_insert_eq.
  - by rewrite Hq.
Qed.

(** [execute] returns, and what it has published by then. *)
Lemma execute_summary tid prompt timeout w :
  queue_unbounded tid (session_of w) →
  ∃ evs t1 t2,
    (TaskExecutor.execute tid prompt timeout w).1 = Ok tt
    ∧ events_of_run tid prompt timeout w
      = evs ++ Runs.closing (Runs.wait_outcome timeout (client_of w)) t1 t2
    ∧ Forall Runs.streaming evs
    ∧ ((Runs.turns_agree (turns (progress_of w)) (on_receive (client_of w)).1 →
        Runs.ascending turns (Runs.snapshots evs))
       ∧ (Runs.mono_clock w →
          Runs.ascending elapsed_time_ms (Runs.snapshots evs)))
    ∧ TaskExecutor.published (state (TaskExecutor.execute tid prompt timeout w).2)
      = TaskExecutor.published (state w)
        ++ map (pair (Some tid)) (events_of_run tid prompt timeout w)
    ∧ queue_items tid (session_of (TaskExecutor.execute tid prompt timeout w).2)
      = (λ l, l ++ events_of_run tid prompt timeout w)
          <$> queue_items tid (session_of w).
Proof.
  intros Hq.
  destruct (Runs.execute_runs tid prompt timeout w)
    as (evs & t1 & t2 & n & p & lg & E & S & G).
  { intros k q [= <-]. simpl. apply Hq. }
  exists evs, t1, t2.
  assert (Hev : events_of_run tid prompt timeout w
                = evs ++ Runs.closing (Runs.wait_outcome timeout (client_of w)) t1 t2).
  { unfold events_of_run. rewrite E. simpl.
    rewrite drop_app_length. rewrite <- list_fmap_compose.
    by rewrite list_fmap_id. }
  split; [by rewrite E|]. split; [done|]. split; [done|]. split; [exact G|].
  split.
  - rewrite Hev, E. reflexivity.
  - rewrite Hev, E. unfold session_of. simpl.
    unfold queue_items at 1. rewrite remove_task_event_queues.
    apply queue_items_push_all.
Qed.

(** ** Queues are created unbounded and stay so

    [queues_unbounded] holds of a new session and is kept by every method
    of [Session]: it is an invariant of the sessions the server works on. *)

Lemma queues_unbounded_init sid ws opts cl now1 now2 :
  queues_unbounded (Session.init sid ws opts cl now1 now2).
Proof. intros k q. simpl. by rewrite lookup_empty. Qed.

Lemma queues_unbounded_add_task tid now s :
  queues_unbounded s → queues_unbounded (Session.add_task tid now s).
Proof. intros H k q. simpl. apply H. Qed.

Lemma queues_unbounded_remove_task tid now s :
  queues_unbounded s → queues_unbounded (Session.remove_task tid now s).
Proof. intros H k q. rewrite remove_task_event_queues. apply H. Qed.

Lemma queues_unbounded_subscribe_task tid s :
  queues_unbounded s → queues_unbounded (Session.subscribe_task tid s).2.
Proof.
  intros H k q. unfold Session.subscribe_task.
  destruct (Session.event_queues s !! tid) eqn:E; simpl; [apply H|].
  destruct (decide (tid = k)) as [->|Hne].
  - rewrite lookup_insert_eq. by intros [= <-].
  - rewrite lookup_insert_ne by done. apply H.
Qed.

Lemma queues_unbounded_unsubscribe_task tid s :
  queues_unbounded s → queues_unbounded (Session.unsubscribe_task tid s).
Proof.
  intros H k q. unfold Session.unsubscribe_task.
  destruct (Session.event_queues s !! tid) eqn:E; simpl; [|apply H].
  destruct (decide (tid = k)) as [->|Hne].
  - by rewrite lookup_delete_eq.
  - rewrite lookup_delete_ne by done. apply H.
Qed.

Lemma queues_unbounded_publish_event tid ev s s' :
  queues_unbounded s → Session.publish_event tid ev s = Some s' →
  queues_unbounded s'.
Proof.
  intros H. unfold Session.publish_event.
  destruct (Session.event_queues s !! tid) as [q0|] eqn:E; [|by intros [= <-]].
  unfold Queue.put. destruct (Queue.full q0); [done|]. intros [= <-] k q. simpl.
  destruct (decide (tid = k)) as [->|Hne].
  - rewrite lookup_insert_eq. intros [= <-]. simpl. by apply (H k).
  - rewrite lookup_insert_ne by done. apply H.
Qed.

(** ** Sample inputs

    A session with one subscribed task, a clock that advances a quarter of
    a second at each reading, and three clients. *)

Module Sample.

Definition options : ClaudeAgentOptions :=
  mkOptions ["Read"; "Write"; "Edit"; "Bash"] "acceptEdits" (Some 50) None "/tmp/w" [].

Definition clock (n : nat) : Z := Z.of_nat n * 250000.

(** Scenario E1: one assistant text, then the result message. *)
Definition happy : Client :=
  mkClient Returns Returns
    ([AssistantMessage [TextBlock "hi"] "m";
      ResultMessage
        (mkResultMessage
           (Some (<["total_tokens" := 10]>
                    (<["input_tokens" := 6]> (<["output_tokens" := 4]> ∅))))
           1 50 false)],
     Exhausted)
    Returns Returns.

(** The stream yields one assistant message and then nothing more. *)
Definition hanging : Client :=
  mkClient Returns Returns ([AssistantMessage [TextBlock "hi"] "m"], StreamHangs)
           Returns Returns.


(** Two assistant messages, then a result that reports one turn. *)
Definition fewer_turns : Client :=
  mkClient Returns Returns
    ([AssistantMessage [] "m"; AssistantMessage [] "m";
      ResultMessage (mkResultMessage None 1 50 false)],
     Exhausted)
    Returns Returns.

(** The session of task ["t1"], with a subscriber. *)
Definition session (cl : Client) : Session.t :=
  (Session.subscribe_task "t1"
     (Session.add_task "t1" 0 (Session.init "session-t1" "/tmp/w" options cl 0 0))).2.

(** The world in which the server starts the executor of ["t1"]. *)
Definition world (cl : Client) : World TaskExecutor.Run :=
  mkWorld clock 0 [] (TaskExecutor.mkRun (TaskExecutor.init (session cl)) []).

Lemma world_unbounded cl : queue_unbounded "t1" (session_of (world cl)).
Proof.
  apply queues_unbounded_subscribe_task, queues_unbounded_add_task,
    queues_unbounded_init.
Qed.

Lemma clock_mono cl : Runs.mono_clock (world cl).
Proof. intros i j Hij. simpl. unfold clock. lia. Qed.

End Sample.

(** * The claims *)

(** ** Task executor *)

(** C1.  Whatever the agent does (the stream ends, raises or stops
    yielding until the timeout), [execute] returns, and the events it has
    published for the task by then are some events none of which is a
    COMPLETE, followed by exactly one COMPLETE event, which is the last.
    All of them were published under the task's id, and when the task has a
    queue they are what was appended to it, in this order. *)
Theorem execute_one_terminal_event_last tid prompt timeout w :
  queue_unbounded tid (session_of w) →
  (TaskExecutor.execute tid prompt timeout w).1 = Ok tt
  ∧ (∃ evs t result,
       events_of_run tid prompt timeout w = evs ++ [CompleteEvent t result]
       ∧ Forall (λ e, event_type e ≠ COMPLETE) evs)
  ∧ TaskExecutor.published (state (TaskExecutor.execute tid prompt timeout w).2)
    = TaskExecutor.published (state w)
      ++ map (pair (Some tid)) (events_of_run tid prompt timeout w)
  ∧ queue_items tid (session_of (TaskExecutor.execute tid prompt timeout w).2)
    = (λ l, l ++ events_of_run tid prompt timeout w) <$> queue_items tid (session_of w).
Proof.
  intros Hq.
  destruct (execute_summary tid prompt timeout w Hq)
    as (evs & t1 & t2 & Hr & Hev & Hs & _ & Hp & Hi).
  split_and!; [done| |done|done].
  assert (Hn : Forall (λ e, event_type e ≠ COMPLETE) evs).
  { eapply Forall_impl; [exact Hs|]. by intros e [? _]. }
  rewrite Hev.
  destruct (Runs.wait_outcome timeout (client_of w)) as [[]|e|]; simpl.
  - by eexists evs, _, _.
  - destruct e;
      (eexists (evs ++ [_]), _, _; split; [by rewrite <- app_assoc|];
       apply Forall_app; split; [done|by repeat constructor]).
  - eexists (evs ++ [_]), _, _. split; [by rewrite <- app_assoc|].
    apply Forall_app. split; [done|by repeat constructor].
Qed.

Lemma execute_one_terminal_event_last_witness :
  queue_unbounded "t1" (session_of (Sample.world Sample.happy))
  ∧ (TaskExecutor.execute "t1" "echo hi" 3600 (Sample.world Sample.happy)).1 = Ok tt
  ∧ (∃ evs t result,
       events_of_run "t1" "echo hi" 3600 (Sample.world Sample.happy)
       = evs ++ [CompleteEvent t result]
       ∧ Forall (λ e, event_type e ≠ COMPLETE) evs)
  ∧ TaskExecutor.published
      (state (TaskExecutor.execute "t1" "echo hi" 3600 (Sample.world Sample.happy)).2)
    = TaskExecutor.published (state (Sample.world Sample.happy))
      ++ map (pair (Some "t1"))
             (events_of_run "t1" "echo hi" 3600 (Sample.world Sample.happy))
  ∧ queue_items "t1"
      (session_of (TaskExecutor.execute "t1" "echo hi" 3600
                     (Sample.world Sample.happy)).2)
    = (λ l, l ++ events_of_run "t1" "echo hi" 3600 (Sample.world Sample.happy))
        <$> queue_items "t1" (session_of (Sample.world Sample.happy)).
Proof.
  split; [apply Sample.world_unbounded|].
  apply (execute_one_terminal_event_last "t1" "echo hi" 3600 (Sample.world Sample.happy)).
  apply Sample.world_unbounded.
Defined.






(** Two assistant messages, then a result that reports both turns. *)
Definition two_turns : Client :=
  mkClient Returns Returns
    ([AssistantMessage [] "m"; AssistantMessage [] "m";
      ResultMessage (mkResultMessage None 2 50 false)],
     Exhausted)
    Returns Returns.

(** A wall clock that advances a quarter of a second at each reading and
    is set back by 0.6 s after its third reading. *)
Definition stepping_clock (n : nat) : Z :=
  if (n <? 3)%nat then Z.of_nat n * 250000 else Z.of_nat n * 250000 - 600000.

Definition stepped_world : World TaskExecutor.Run :=
  mkWorld stepping_clock 0 []
    (TaskExecutor.mkRun (TaskExecutor.init (Sample.session two_turns)) []).

(** C5, as stated, fails, for each of its two fields.
    - [turns]: with a clock that never goes back, an agent that sends two
      assistant messages and then a result message reporting one turn
      makes the executor publish PROGRESS events whose [turns] are 1, 2, 1.
    - [elapsed_time_ms]: the field is the difference of two readings of
      the wall clock ([datetime.utcnow()]).  In a run whose turn counts
      agree (1, 2, 2), a clock that is set back by 0.6 s between the first
      and the second PROGRESS event gives the elapsed times 250, 150,
      650. *)
Lemma progress_drops_in_turns_or_elapsed :
  (Runs.mono_clock (Sample.world Sample.fewer_turns)
   ∧ turns <$> Runs.snapshots
                 (events_of_run "t1" "p" 3600 (Sample.world Sample.fewer_turns))
     = [1; 2; 1]
   ∧ ¬ Runs.ascending turns
         (Runs.snapshots (events_of_run "t1" "p" 3600 (Sample.world Sample.fewer_turns))))
  ∧ (Runs.turns_agree (turns (progress_of stepped_world))
                      (on_receive (client_of stepped_world)).1
     ∧ turns <$> Runs.snapshots (events_of_run "t1" "p" 3600 stepped_world)
       = [1; 2; 2]
     ∧ elapsed_time_ms <$> Runs.snapshots (events_of_run "t1" "p" 3600 stepped_world)
       = [250; 150; 650]
     ∧ ¬ Runs.ascending elapsed_time_ms
           (Runs.snapshots (events_of_run "t1" "p" 3600 stepped_world))).
Proof.
  split.
  - split; [apply Sample.clock_mono|]. split; [vm_compute; reflexivity|].
    assert (E : Runs.snapshots
                  (events_of_run "t1" "p" 3600 (Sample.world Sample.fewer_turns))
                = [mkProgress 1 0 0 0 0 250; mkProgress 2 0 0 0 0 750;
                   mkProgress 1 0 0 0 0 1250]) by (vm_compute; reflexivity).
    rewrite E. simpl. intros (_ & H & _).
    inversion H as [|? ? Ht _]. simpl in Ht. lia.
  - split; [vm_compute; discriminate|].
    split; [vm_compute; reflexivity|]. split; [vm_compute; reflexivity|].
    assert (E : Runs.snapshots (events_of_run "t1" "p" 3600 stepped_world)
                = [mkProgress 1 0 0 0 0 250; mkProgress 2 0 0 0 0 150;
                   mkProgress 2 0 0 0 0 650]) by (vm_compute; reflexivity).
    rewrite E. simpl. intros (H & _).
    inversion H as [|? ? He _]. simpl in He. lia.
Qed.

(** C5, amended.  Across the PROGRESS events of a task, the final one
    included, each event is compared with every earlier one:
    [elapsed_time_ms] never decreases when the readings of the clock never
    decrease, whatever the turn counts are; and [turns] never decreases
    when the turn count reported by the result message is at least the
    count the executor has reached when that message arrives, whatever the
    clock does. *)
Theorem progress_elapsed_and_turns_ascending tid prompt timeout w :
  queue_unbounded tid (session_of w) →
  (Runs.mono_clock w →
   Runs.ascending elapsed_time_ms
     (Runs.snapshots (events_of_run tid prompt timeout w)))
  ∧ (Runs.turns_agree (turns (progress_of w)) (on_receive (client_of w)).1 →
     Runs.ascending turns
       (Runs.snapshots (events_of_run tid prompt timeout w))).
Proof.
  intros Hq.
  destruct (execute_summary tid prompt timeout w Hq)
    as (evs & t1 & t2 & _ & Hev & _ & [Ht He] & _).
  rewrite Hev, Runs.snapshots_app.
  assert (Runs.snapshots (Runs.closing (Runs.wait_outcome timeout (client_of w)) t1 t2)
          = []) as ->.
  { destruct (Runs.wait_outcome timeout (client_of w)) as [[]|e|]; [done| |done].
    by destruct e. }
  rewrite app_nil_r. by split.
Qed.

(** The two runs above: on the first the elapsed times ascend although
    the turn counts drop, on the second the turn counts ascend although
    the elapsed times drop. *)
Lemma progress_elapsed_and_turns_ascending_witness :
  Runs.ascending elapsed_time_ms
    (Runs.snapshots (events_of_run "t1" "p" 3600 (Sample.world Sample.fewer_turns)))
  ∧ Runs.ascending turns
      (Runs.snapshots (events_of_run "t1" "p" 3600 stepped_world)).
Proof.
  split.
  - destruct (progress_elapsed_and_turns_ascending "t1" "p" 3600
                (Sample.world Sample.fewer_turns) (Sample.world_unbounded _))
      as [He _].
    apply He, Sample.clock_mono.
  - destruct (progress_elapsed_and_turns_ascending "t1" "p" 3600 stepped_world
                (Sample.world_unbounded two_turns))
      as [_ Ht].
    apply Ht. vm_compute. discriminate.
Defined.

(** C8: the code at a concrete input.  In scenario E1 the result message
    reports 1 turn, 10/6/4 tokens and a duration of 50 ms.  The final
    PROGRESS event carries the turns and tokens of the message, but its
    [elapsed_time_ms] is the 1000 ms the executor measured on its own
    clock: [_emit_progress] recomputes the field after [_handle_result] has
    assigned the message's duration to it. *)
Theorem final_progress_elapsed_is_measured_not_reported :
  ∃ t p,
    events_of_run "t1" "echo hi" 3600 (Sample.world Sample.happy) !! 2%nat
    = Some (ProgressEvent t p)
    ∧ events_of_run "t1" "echo hi" 3600 (Sample.world Sample.happy) !! 3%nat
      = Some (CompleteEvent 1500000
                (mkResult 0 (Some "Task completed successfully") []))
    ∧ turns p = 1 ∧ tokens_used p = 10 ∧ tokens_input p = 6 ∧ tokens_output p = 4
    ∧ elapsed_time_ms p = 1000
    ∧ elapsed_time_ms p ≠ 50.
Proof.
  exists 1250000, (mkProgress 1 10 6 4 0 1000).
  split; [vm_compute; reflexivity|]. split; [vm_compute; reflexivity|].
  simpl. split_and!; [reflexivity..|lia].
Qed.

(** ** Event bus *)

(** [publish_many tid evs s]: the events of [evs] published one after the
    other under [tid]; [None] as soon as one [publish_event] stays
    suspended. *)
Definition publish_many (tid : string) (evs : list Event) (s : Session.t)
    : option Session.t :=
  foldl (λ acc ev, acc ≫= Session.publish_event tid ev) (Some s) evs.

(** C3, as stated, fails.  With the default setting [max_queue_size = 100],
    101 events published for a subscribed task that nobody drains are all
    accepted at once: no publish is suspended and the queue then holds 101
    events. *)
Lemma queue_grows_past_max_queue_size :
  max_queue_size (default_config "key") = 100
  ∧ ∃ s',
      publish_many "t1" (replicate 101 (ErrorEvent 0 "e")) (Sample.session Sample.happy)
      = Some s'
      ∧ queue_items "t1" s' = Some (replicate 101 (ErrorEvent 0 "e"))
      ∧ (Z.of_nat (length (replicate 101 (ErrorEvent 0 "e")))
         > max_queue_size (default_config "key")).
Proof.
  split; [reflexivity|]. eexists. split; [vm_compute; reflexivity|].
  split; [vm_compute; reflexivity|]. vm_compute. reflexivity.
Qed.

(** C3, amended.  The queue a subscriber is given has no capacity bound
    ([maxsize] is 0 and [max_queue_size] is not consulted), and as long as
    all queues of a session are of this kind a publish is never suspended
    and never drops an event of a subscribed task: it appends the event to
    the task's queue, which thereby grows by one. *)
Theorem publish_event_appends_without_bound tid ev s :
  queues_unbounded s →
  Queue.maxsize (Session.subscribe_task tid s).1 ≤ 0
  ∧ ∃ s',
      Session.publish_event tid ev s = Some s'
      ∧ queue_items tid s' = (λ l, l ++ [ev]) <$> queue_items tid s
      ∧ queues_unbounded s'.
Proof.
  intros Hu. split.
  - unfold Session.subscribe_task.
    destruct (Session.event_queues s !! tid) as [q|] eqn:E; simpl; [|done].
    by apply (Hu tid).
  - assert (∃ s', Session.publish_event tid ev s = Some s'
                  ∧ queue_items tid s' = (λ l, l ++ [ev]) <$> queue_items tid s)
      as (s' & Hp & Hi).
    { unfold Session.publish_event, queue_items.
      destruct (Session.event_queues s !! tid) as [q|] eqn:E; simpl.
      - unfold Queue.put, Queue.full. pose proof (Hu tid q E) as Hq.
        destruct (Z.leb_spec (Queue.maxsize q) 0); [|lia].
        eexists. split; [done|]. simpl. by rewrite lookup_insert_eq.
      - eexists. split; [done|]. by rewrite E. }
    exists s'. split_and!; [done..|]. by eapply queues_unbounded_publish_event.
Qed.

Lemma publish_event_appends_without_bound_witness :
  queues_unbounded (Sample.session Sample.happy)
  ∧ Queue.maxsize (Session.subscribe_task "t1" (Sample.session Sample.happy)).1 ≤ 0
  ∧ ∃ s',
      Session.publish_event "t1" (ErrorEvent 0 "e") (Sample.session Sample.happy) = Some s'
      ∧ queue_items "t1" s'
        = (λ l, l ++ [ErrorEvent 0 "e"]) <$> queue_items "t1" (Sample.session Sample.happy)
      ∧ queues_unbounded s'.
Proof.
  assert (H : queues_unbounded (Sample.session Sample.happy)).
  { apply queues_unbounded_subscribe_task, queues_unbounded_add_task,
      queues_unbounded_init. }
  split; [exact H|].
  apply (publish_event_appends_without_bound "t1" (ErrorEvent 0 "e")
           (Sample.session Sample.happy) H).
Defined.

(** A server in which task ["t1"] is registered and runs over the session
    ["session-t1"], which nobody has subscribed to yet. *)
Definition sample_server (cl : Client) : World Server.t :=
  mkWorld Sample.clock 0 []
    (Server.mk
       (SessionManager.mk
          {["session-t1" :=
              Session.add_task "t1" 0
                (Session.init "session-t1" "/tmp/w" Sample.options cl 0 0)]}
          true)
       {["t1" := Server.mkTaskInfo "session-t1" RUNNING 0]}).

(** The claim C4 makes: once a stream handler has been given the queue of
    a task, a further subscription attempt for that task is not given a
    queue. *)
Definition second_subscription_rejected : Prop :=
  ∀ tid w q w1,
    Server.websocket_subscribe tid w = (Ok (Server.Subscribed q), w1) →
    ∀ q', (Server.websocket_subscribe tid w1).1 ≠ Ok (Server.Subscribed q').

(** C4, as stated, fails.  Two stream handlers that open the stream of
    task ["t1"] one after the other are both given a queue; the second
    attempt neither raises nor closes the socket. *)
Lemma second_subscription_is_accepted :
  (Server.websocket_subscribe "t1" (sample_server Sample.happy)).1
  = Ok (Server.Subscribed Queue.new)
  ∧ (Server.websocket_subscribe "t1"
       (Server.websocket_subscribe "t1" (sample_server Sample.happy)).2).1
    = Ok (Server.Subscribed Queue.new)
  ∧ ¬ second_subscription_rejected.
Proof.
  split; [vm_compute; reflexivity|]. split; [vm_compute; reflexivity|].
  intros H.
  apply (H "t1" (sample_server Sample.happy) Queue.new
           (Server.websocket_subscribe "t1" (sample_server Sample.happy)).2
           ltac:(vm_compute; reflexivity) Queue.new).
  vm_compute. reflexivity.
Qed.

Lemma wait_for_task_found tid n (w : World Server.t) :
  tid ∈ dom (Server.running_tasks (state w)) →
  Server._wait_for_task tid n w = (Ok tt, w).
Proof.
  intros H. destruct n; simpl; [done|].
  unfold mbind, M_bind, get_state. by rewrite decide_True.
Qed.

(** C4, amended.  When the session of a registered task already holds a
    queue for the task, a further subscription attempt succeeds: it is
    given that same queue, undrained events included, and changes nothing
    in the session or in the server.  Both holders then read from one
    queue. *)
Theorem second_subscription_gets_same_queue tid info sess q (w : World Server.t) :
  Server.running_tasks (state w) !! tid = Some info →
  SessionManager.sessions (Server.session_manager (state w)) !! Server.session_id info
  = Some sess →
  Session.event_queues sess !! tid = Some q →
  Session.subscribe_task tid sess = (q, sess)
  ∧ Server.websocket_subscribe tid w = (Ok (Server.Subscribed q), w).
Proof.
  intros Hi Hs Hq.
  assert (Hsub : Session.subscribe_task tid sess = (q, sess)).
  { unfold Session.subscribe_task. by rewrite Hq. }
  split; [done|].
  unfold Server.websocket_subscribe. unfold mbind at 1, M_bind.
  rewrite wait_for_task_found by (apply elem_of_dom; eauto).
  unfold mbind at 1, M_bind, get_state. rewrite Hi.
  unfold mbind at 1, M_bind, Server.with_manager, SessionManager.get_session.
  unfold mbind at 1, M_bind, get_state. simpl. rewrite Hs, Hsub.
  unfold mbind, M_bind, modify, mret, M_ret. simpl.
  unfold SessionManager.on_sessions. rewrite insert_id by done.
  by destruct w as [c t l [[ss r] rt]].
Qed.

Lemma second_subscription_gets_same_queue_witness :
  Session.subscribe_task "t1" (Sample.session Sample.happy)
  = (Queue.new, Sample.session Sample.happy)
  ∧ Server.websocket_subscribe "t1"
      (Server.websocket_subscribe "t1" (sample_server Sample.happy)).2
    = (Ok (Server.Subscribed Queue.new),
       (Server.websocket_subscribe "t1" (sample_server Sample.happy)).2).
Proof.
  apply (second_subscription_gets_same_queue "t1"
           (Server.mkTaskInfo "session-t1" RUNNING 0)
           (Sample.session Sample.happy)
           Queue.new
           (Server.websocket_subscribe "t1" (sample_server Sample.happy)).2);
    vm_compute; reflexivity.
Defined.

(** ** Session manager *)

(** The error kinds of the specification, as the exceptions
    [create_session] raises for them. *)
Definition ALREADY_EXISTS (session_id : string) : exn :=
  ValueError ("Session " +:+ session_id +:+ " already exists").

Definition AT_CAPACITY (config : Config) : exn :=
  RuntimeError ("Maximum concurrent sessions (" +:+ pretty (max_concurrent config)
                +:+ ") reached").

Definition INVALID_WORKSPACE (workspace : string) : exn :=
  ValueError ("Workspace directory does not exist: " +:+ workspace).

(** C6.  [create_session] fails with ALREADY_EXISTS when the id is in the
    table; otherwise with AT_CAPACITY when the table holds at least
    [max_concurrent] sessions; otherwise with INVALID_WORKSPACE when the
    resolved workspace path does not exist; each time the manager is left
    as it was.  Otherwise the client is connected first: while the
    connection is pending and when it fails (the exception is passed on)
    the table is unchanged, and only when it has succeeded is the new
    session, which holds that client, inserted under its id and
    returned. *)
Theorem create_session_contract config fs sdk sid ws opts (w : World SessionManager.t) :
  let table := SessionManager.sessions (state w) in
  let run := SessionManager.create_session config fs sdk sid ws opts w in
  let cl := sdk (SessionManager.build_options config (path_resolve fs ws) opts) in
  (sid ∈ dom table → run = (Raise (ALREADY_EXISTS sid), w))
  ∧ (sid ∉ dom table → max_concurrent config ≤ Z.of_nat (size table) →
     run = (Raise (AT_CAPACITY config), w))
  ∧ (sid ∉ dom table → Z.of_nat (size table) < max_concurrent config →
     path_exists fs (path_resolve fs ws) = false →
     run = (Raise (INVALID_WORKSPACE ws), w))
  ∧ (sid ∉ dom table → Z.of_nat (size table) < max_concurrent config →
     path_exists fs (path_resolve fs ws) = true →
     match on_connect cl with
     | Returns =>
         ∃ session,
           run.1 = Ok session
           ∧ Session.session_id session = sid
           ∧ Session.client session = cl
           ∧ SessionManager.sessions (state run.2) = <[sid := session]> table
           ∧ log run.2
             = log w
               ++ [(Log.INFO, "Connected to Claude SDK for session: " +:+ sid);
                   (Log.INFO, "Created session: " +:+ sid +:+ " (total: "
                              +:+ pretty (S (size table)) +:+ ")")]
     | Raises e =>
         run.1 = Raise e ∧ SessionManager.sessions (state run.2) = table
     | Hangs =>
         run.1 = Block ∧ SessionManager.sessions (state run.2) = table
     end).
Proof.
  intros table run cl. subst run.
  unfold SessionManager.create_session, SessionManager.get_active_count.
  unfold mbind, M_bind, get_state. cbn beta iota. fold table.
  split_and!.
  - intros Hin. by rewrite decide_True.
  - intros Hin Hcap. rewrite decide_False by done.
    destruct (Z.leb_spec (max_concurrent config) (Z.of_nat (size table))); [done|lia].
  - intros Hin Hcap Hex. rewrite decide_False by done.
    destruct (Z.leb_spec (max_concurrent config) (Z.of_nat (size table))); [lia|].
    by rewrite Hex.
  - intros Hin Hcap Hex. rewrite decide_False by done.
    destruct (Z.leb_spec (max_concurrent config) (Z.of_nat (size table))); [lia|].
    rewrite Hex. cbn beta iota. fold cl.
    unfold try_except, call.
    destruct (on_connect cl) as [|e|]; simpl.
    + eexists. split_and!; [reflexivity..| |].
      * reflexivity.
      * rewrite map_size_insert_None; [by rewrite <- app_assoc|].
        by apply not_elem_of_dom.
    + done.
    + done.
Qed.

(** A file system in which only ["/tmp/w"] exists, an SDK whose clients
    behave like [Sample.happy], and a manager without sessions. *)
Definition sample_fs : FileSystem :=
  mkFileSystem (λ p, p) (λ p, bool_decide (p = "/tmp/w")).

Definition sample_sdk (o : ClaudeAgentOptions) : Client := Sample.happy.

Definition sample_manager : World SessionManager.t :=
  mkWorld Sample.clock 0 [] SessionManager.init.

Definition no_options : OptionsDict := mkOptionsDict None None None None.

Lemma create_session_contract_witness :
  ("session-t1" ∉ dom (SessionManager.sessions (state sample_manager)))
  ∧ (Z.of_nat (size (SessionManager.sessions (state sample_manager)))
     < max_concurrent (default_config "key"))
  ∧ path_exists sample_fs (path_resolve sample_fs "/tmp/w") = true
  ∧ ∃ session,
      (SessionManager.create_session (default_config "key") sample_fs sample_sdk
         "session-t1" "/tmp/w" no_options sample_manager).1 = Ok session
      ∧ Session.session_id session = "session-t1"
      ∧ Session.client session = Sample.happy
      ∧ SessionManager.sessions
          (state (SessionManager.create_session (default_config "key") sample_fs
                    sample_sdk "session-t1" "/tmp/w" no_options sample_manager).2)
        = <["session-t1" := session]> ∅.
Proof.
  assert (H1 : "session-t1" ∉ dom (SessionManager.sessions (state sample_manager))).
  { simpl. set_solver. }
  assert (H2 : Z.of_nat (size (SessionManager.sessions (state sample_manager)))
               < max_concurrent (default_config "key")).
  { vm_compute. reflexivity. }
  assert (H3 : path_exists sample_fs (path_resolve sample_fs "/tmp/w") = true).
  { vm_compute. reflexivity. }
  split_and!; [done..|].
  destruct (create_session_contract (default_config "key") sample_fs sample_sdk
              "session-t1" "/tmp/w" no_options sample_manager) as (_ & _ & _ & H).
  destruct (H H1 H2 H3) as (session & E1 & E2 & E3 & E4 & _).
  exists session. by split_and!.
Defined.

(** A manager whose only session owns no task, was last active at time 0
    and has a client whose [disconnect()] raises; the clock stands more
    than 1800 s later. *)
Definition failing_disconnect : Client :=
  mkClient Returns Returns ([], Exhausted) Returns (Raises (AgentError "connection lost")).

Definition stale_session : Session.t :=
  Session.init "s1" "/tmp/w" Sample.options failing_disconnect 0 0.

Definition stale_manager : World SessionManager.t :=
  mkWorld (λ n, 2000000000 + Sample.clock n) 0 []
    (SessionManager.mk {["s1" := stale_session]} true).

(** When the client of a session raises on [disconnect()], the loop body
    of [_cleanup_idle_sessions] logs the error and leaves the table as it
    was: the [del] statement sits behind the failing call, inside the same
    [try]. *)
Lemma cleanup_one_disconnect_raises sid sess e (w : World SessionManager.t) :
  SessionManager.sessions (state w) !! sid = Some sess →
  on_disconnect (Session.client sess) = Raises e →
  SessionManager._cleanup_one sid w
  = (Ok tt,
     mkWorld (clock w) (ticks w)
       (log w ++ [(Log.ERROR, "Error cleaning up session " +:+ sid +:+ ": " +:+ str e)])
       (state w)).
Proof.
  intros Hs Hd. unfold SessionManager._cleanup_one, try_except.
  unfold mbind, M_bind, get_state. cbn beta iota. rewrite Hs, Hd. reflexivity.
Qed.

(** C2: the code at a concrete input.  The reaper finds session ["s1"]
    idle, its [disconnect()] raises, and when the pass returns the session
    is still in the table; the failure has been logged.
    [delete_session], on the same manager, removes the session although the
    same [disconnect()] raises. *)
Theorem cleanup_keeps_session_when_disconnect_raises :
  (Session.is_idle (idle_timeout_seconds (default_config "key")) stale_session
     stale_manager).1 = Ok true
  ∧ (SessionManager._cleanup_idle_sessions (default_config "key") stale_manager).1
    = Ok tt
  ∧ SessionManager.sessions
      (state (SessionManager._cleanup_idle_sessions (default_config "key")
                stale_manager).2) !! "s1"
    = Some stale_session
  ∧ log (SessionManager._cleanup_idle_sessions (default_config "key") stale_manager).2
    = [(Log.ERROR, "Error cleaning up session s1: connection lost");
       (Log.INFO, "Cleaned up 1 idle sessions (remaining: 1)")]
  ∧ SessionManager.sessions
      (state (SessionManager.delete_session "s1" stale_manager).2) !! "s1"
    = None.
Proof. split_and!; vm_compute; reflexivity. Qed.

(** ** Interrupt endpoint *)

(** C10.  For a registered task whose session is in the table,
    [interrupt_task] records INTERRUPTED only once [interrupt()] has
    returned.  Then it answers with status INTERRUPTED, the registry entry
    of the task has the status INTERRUPTED (its session and creation time
    are kept), and no other entry and no session changes.  When
    [interrupt()] raises it fails with HTTP 500 and the server state is as
    before: the entry of the task is the one that was recorded.  While
    [interrupt()] is pending nothing has been recorded either. *)
Theorem interrupt_task_records_after_success tid info sess (w : World Server.t) :
  Server.running_tasks (state w) !! tid = Some info →
  SessionManager.sessions (Server.session_manager (state w)) !! Server.session_id info
  = Some sess →
  match on_interrupt (Session.client sess) with
  | Returns =>
      (Server.interrupt_task tid w).1
      = Ok (Server.mkInterruptResponse tid INTERRUPTED (clock w (ticks w)))
      ∧ (∃ info',
           Server.running_tasks (state (Server.interrupt_task tid w).2) !! tid
           = Some info'
           ∧ Server.status info' = INTERRUPTED
           ∧ Server.session_id info' = Server.session_id info
           ∧ Server.created_at info' = Server.created_at info)
      ∧ (∀ k, k ≠ tid →
              Server.running_tasks (state (Server.interrupt_task tid w).2) !! k
              = Server.running_tasks (state w) !! k)
      ∧ Server.session_manager (state (Server.interrupt_task tid w).2)
        = Server.session_manager (state w)
  | Raises e =>
      (Server.interrupt_task tid w).1
      = Raise (HTTPException 500 ("Failed to interrupt task: " +:+ str e))
      ∧ state (Server.interrupt_task tid w).2 = state w
      ∧ Server.running_tasks (state (Server.interrupt_task tid w).2) !! tid
        = Some info
  | Hangs =>
      (Server.interrupt_task tid w).1 = Block
      ∧ state (Server.interrupt_task tid w).2 = state w
      ∧ Server.running_tasks (state (Server.interrupt_task tid w).2) !! tid
        = Some info
  end.
Proof.
  intros Hi Hs. destruct w as [c t l [m r]]. simpl in Hi, Hs.
  unfold Server.interrupt_task, Server.with_manager, SessionManager.get_session,
    try_except, call, mbind, M_bind, get_state.
  simpl. rewrite Hi. simpl. rewrite Hs.
  destruct (on_interrupt (Session.client sess)) as [|e|]; simpl.
  - split_and!; [done| |..|done].
    + eexists. rewrite lookup_insert_eq. by split_and!.
    + intros k Hk. by rewrite lookup_insert_ne.
  - by split_and!.
  - by split_and!.
Qed.

Definition failing_interrupt : Client :=
  mkClient Returns Returns ([], StreamHangs) (Raises (AgentError "not connected")) Returns.

(** Task ["t1"], registered as RUNNING: after an [interrupt()] that
    returns its entry reads INTERRUPTED, after one that raises it still
    reads RUNNING. *)
Lemma interrupt_task_records_after_success_witness :
  ((Server.interrupt_task "t1" (sample_server Sample.happy)).1
   = Ok (Server.mkInterruptResponse "t1" INTERRUPTED 0)
   ∧ (∃ info',
        Server.running_tasks
          (state (Server.interrupt_task "t1" (sample_server Sample.happy)).2) !! "t1"
        = Some info'
        ∧ Server.status info' = INTERRUPTED
        ∧ Server.session_id info' = "session-t1"
        ∧ Server.created_at info' = 0)
   ∧ (∀ k, k ≠ "t1" →
           Server.running_tasks
             (state (Server.interrupt_task "t1" (sample_server Sample.happy)).2) !! k
           = Server.running_tasks (state (sample_server Sample.happy)) !! k)
   ∧ Server.session_manager
       (state (Server.interrupt_task "t1" (sample_server Sample.happy)).2)
     = Server.session_manager (state (sample_server Sample.happy)))
  ∧ ((Server.interrupt_task "t1" (sample_server failing_interrupt)).1
     = Raise (HTTPException 500 "Failed to interrupt task: not connected")
     ∧ state (Server.interrupt_task "t1" (sample_server failing_interrupt)).2
       = state (sample_server failing_interrupt)
     ∧ Server.running_tasks
         (state (Server.interrupt_task "t1" (sample_server failing_interrupt)).2) !! "t1"
       = Some (Server.mkTaskInfo "session-t1" RUNNING 0)).
Proof.
  split.
  - apply (interrupt_task_records_after_success "t1"
             (Server.mkTaskInfo "session-t1" RUNNING 0)
             (Session.add_task "t1" 0
                (Session.init "session-t1" "/tmp/w" Sample.options Sample.happy 0 0))
             (sample_server Sample.happy));
      vm_compute; reflexivity.
  - apply (interrupt_task_records_after_success "t1"
             (Server.mkTaskInfo "session-t1" RUNNING 0)
             (Session.add_task "t1" 0
                (Session.init "session-t1" "/tmp/w" Sample.options failing_interrupt 0 0))
             (sample_server failing_interrupt));
      vm_compute; reflexivity.
Defined.

(** * Further properties of the code *)

(** ** Session: the task list *)

Lemma list_remove_absent x l : x ∉ l → Session.list_remove x l = l.
Proof.
  induction l as [|y l IH]; simpl; [done|]. intros H.
  apply not_elem_of_cons in H as [Hne Hl].
  rewrite decide_False by done. by rewrite IH.
Qed.

Lemma remove_task_tasks tid now s :
  Session.tasks (Session.remove_task tid now s) = Session.list_remove tid (Session.tasks s).
Proof.
  unfold Session.remove_task.
  destruct (decide (tid ∈ Session.tasks s)); simpl; [done|].
  by rewrite list_remove_absent.
Qed.

(** X1.  Adding a task that the session does not own yet and removing it
    again gives back the task list as it was, in the same order; what
    remains of the two calls is the later activity time. *)
Theorem add_then_remove_task tid now1 now2 s :
  tid ∉ Session.tasks s →
  Session.remove_task tid now2 (Session.add_task tid now1 s)
  = Session.set_last_activity now2 s.
Proof.
  intros Hn. unfold Session.remove_task, Session.add_task. simpl.
  rewrite decide_True by (apply elem_of_app; right; by left).
  assert (Session.list_remove tid (Session.tasks s ++ [tid]) = Session.tasks s) as E.
  { induction (Session.tasks s) as [|y l IH]; simpl.
    - by rewrite decide_True.
    - apply not_elem_of_cons in Hn as [Hne Hl].
      rewrite decide_False by done. by rewrite IH. }
  unfold Session.set_last_activity, Session.set_tasks. simpl. by rewrite E.
Qed.

Lemma add_then_remove_task_witness :
  ("t2" ∉ Session.tasks (Sample.session Sample.happy))
  ∧ Session.remove_task "t2" 9 (Session.add_task "t2" 5 (Sample.session Sample.happy))
    = Session.set_last_activity 9 (Sample.session Sample.happy).
Proof.
  assert (H : "t2" ∉ Session.tasks (Sample.session Sample.happy)).
  { assert (Session.tasks (Sample.session Sample.happy) = ["t1"]) as -> by reflexivity.
    intros H. apply elem_of_cons in H as [H|H]; [discriminate|].
    by apply elem_of_nil in H. }
  split; [exact H|].
  apply (add_then_remove_task "t2" 5 9 (Sample.session Sample.happy) H).
Defined.

(** [list.remove] takes out the first occurrence and nothing else. *)
Lemma list_remove_first x before after :
  x ∉ before →
  Session.list_remove x (before ++ x :: after) = before ++ after.
Proof.
  induction before as [|y l IH]; simpl; intros H.
  - by rewrite decide_True.
  - apply not_elem_of_cons in H as [Hne Hl].
    rewrite decide_False by done. by rewrite IH.
Qed.

(** X2.  [remove_task] takes out the first occurrence of an id the session
    owns, and nothing else: the ids before it and the ids after it stay as
    they are, in order, so that an id that was added twice is still owned
    once, at its later position.  The activity time becomes the time of
    the call. *)
Theorem remove_task_removes_first tid now s :
  tid ∈ Session.tasks s →
  ∃ before after,
    Session.tasks s = before ++ tid :: after
    ∧ (tid ∉ before)
    ∧ Session.tasks (Session.remove_task tid now s) = before ++ after
    ∧ Session.last_activity (Session.remove_task tid now s) = now.
Proof.
  intros Hin.
  destruct (list_elem_of_split_l _ _ Hin) as (before & after & E & Hn).
  exists before, after. split_and!; [done|done|..].
  - by rewrite remove_task_tasks, E, list_remove_first.
  - unfold Session.remove_task. by destruct (decide _).
Qed.

(** A session that owns ["t1"] twice, with ["t2"] in between. *)
Definition twice_session : Session.t :=
  Session.add_task "t1" 2 (Session.add_task "t2" 1 (Sample.session Sample.happy)).

Lemma remove_task_removes_first_witness :
  Session.tasks twice_session = ["t1"; "t2"; "t1"]
  ∧ Session.tasks (Session.remove_task "t1" 9 twice_session) = ["t2"; "t1"]
  ∧ ∃ before after,
      Session.tasks twice_session = before ++ "t1" :: after
      ∧ ("t1" ∉ before)
      ∧ Session.tasks (Session.remove_task "t1" 9 twice_session) = before ++ after
      ∧ Session.last_activity (Session.remove_task "t1" 9 twice_session) = 9.
Proof.
  split; [reflexivity|]. split; [vm_compute; reflexivity|].
  apply (remove_task_removes_first "t1" 9 twice_session).
  vm_compute. by left.
Defined.

(** ** Session: the event queues *)

(** X3.  Once a task is unsubscribed, publishing for it does nothing, and
    a later subscriber starts from a new, empty queue: the events that were
    not drained before the unsubscription are gone. *)
Theorem unsubscribe_discards tid ev s :
  Session.publish_event tid ev (Session.unsubscribe_task tid s)
  = Some (Session.unsubscribe_task tid s)
  ∧ (Session.subscribe_task tid (Session.unsubscribe_task tid s)).1 = Queue.new
  ∧ queue_items tid (Session.subscribe_task tid (Session.unsubscribe_task tid s)).2
    = Some [].
Proof.
  assert (H : Session.event_queues (Session.unsubscribe_task tid s) !! tid = None).
  { unfold Session.unsubscribe_task.
    destruct (Session.event_queues s !! tid) eqn:E; simpl; [|done].
    apply lookup_delete_eq. }
  unfold Session.publish_event, Session.subscribe_task, queue_items.
  rewrite H. simpl. by rewrite lookup_insert_eq.
Qed.

(** X4.  A publish that returns touches one thing only, the queue of the
    task it publishes for: the queues of all other tasks, the set of
    subscribed tasks, the task list and the activity time of the session
    are what they were. *)
Theorem publish_event_frame tid ev s s' :
  Session.publish_event tid ev s = Some s' →
  (∀ k, k ≠ tid → Session.event_queues s' !! k = Session.event_queues s !! k)
  ∧ dom (Session.event_queues s') = dom (Session.event_queues s)
  ∧ Session.tasks s' = Session.tasks s
  ∧ Session.last_activity s' = Session.last_activity s
  ∧ Session.client s' = Session.client s.
Proof.
  unfold Session.publish_event.
  destruct (Session.event_queues s !! tid) as [q|] eqn:E.
  - destruct (Queue.put ev q) as [q'|]; [|done]. intros [= <-]. simpl.
    split_and!; [|..|done|done|done].
    + intros k Hk. by rewrite lookup_insert_ne.
    + by apply dom_insert_lookup_L.
  - intros [= <-]. by split_and!.
Qed.

Lemma publish_event_frame_witness :
  Session.publish_event "t1" (ErrorEvent 0 "e") (Sample.session Sample.happy)
  = Some (Runs.push_all (Some "t1") [ErrorEvent 0 "e"] (Sample.session Sample.happy))
  ∧ Session.tasks (Runs.push_all (Some "t1") [ErrorEvent 0 "e"]
                     (Sample.session Sample.happy))
    = Session.tasks (Sample.session Sample.happy).
Proof.
  assert (H : Session.publish_event "t1" (ErrorEvent 0 "e") (Sample.session Sample.happy)
              = Some (Runs.push_all (Some "t1") [ErrorEvent 0 "e"]
                        (Sample.session Sample.happy))).
  { vm_compute. reflexivity. }
  split; [exact H|].
  apply (publish_event_frame "t1" (ErrorEvent 0 "e") (Sample.session Sample.happy) _ H).
Defined.

(** ** Task executor: the session after a run *)

Lemma push_all_tasks tid evs s :
  Session.tasks (Runs.push_all tid evs s) = Session.tasks s.
Proof.
  unfold Runs.push_all. destruct tid as [k|]; [|done].
  by destruct (Session.event_queues s !! k).
Qed.

Lemma push_all_other tid evs s k :
  k ≠ tid →
  Session.event_queues (Runs.push_all (Some tid) evs s) !! k
  = Session.event_queues s !! k.
Proof.
  intros Hk. unfold Runs.push_all.
  destruct (Session.event_queues s !! tid); simpl; [|done].
  by rewrite lookup_insert_ne.
Qed.

Lemma session_of_finished tid w :
  session_of (Runs.finished tid w)
  = Session.remove_task tid (clock w (ticks w)) (session_of w).
Proof. reflexivity. Qed.

Lemma session_of_after_started tid evs n p lg w :
  session_of (Runs.after evs n p lg (Runs.started tid w))
  = Runs.push_all (Some tid) evs (session_of w).
Proof. reflexivity. Qed.

(** X5.  On every exit of [execute] the task is taken out of the task list
    of its session: the list afterwards is the one before with the first
    occurrence of the task id removed, the other entries being kept in
    order.  So a task that was listed once is no longer listed, while one
    that was listed twice still is. *)
Theorem execute_removes_task tid prompt timeout w :
  queue_unbounded tid (session_of w) →
  Session.tasks (session_of (TaskExecutor.execute tid prompt timeout w).2)
  = Session.list_remove tid (Session.tasks (session_of w))
  ∧ (∀ before after,
       Session.tasks (session_of w) = before ++ tid :: after →
       tid ∉ before →
       Session.tasks (session_of (TaskExecutor.execute tid prompt timeout w).2)
       = before ++ after)
  ∧ (NoDup (Session.tasks (session_of w)) →
     tid ∉ Session.tasks (session_of (TaskExecutor.execute tid prompt timeout w).2)).
Proof.
  intros Hq.
  destruct (Runs.execute_runs tid prompt timeout w)
    as (evs & t1 & t2 & n & p & lg & E & _).
  { intros k q [= <-]. simpl. apply Hq. }
  rewrite E. cbn [snd].
  rewrite session_of_finished, session_of_after_started.
  rewrite remove_task_tasks, push_all_tasks. split_and!; [done|..].
  - intros before after -> Hn. by apply list_remove_first.
  - intros Hnd. induction Hnd as [|y l Hy Hl IH]; simpl.
    + apply not_elem_of_nil.
    + destruct (decide (tid = y)) as [->|Hne]; [done|].
      apply not_elem_of_cons. by split.
Qed.

(** The executor of ["t1"] over a session that lists ["t1"] twice. *)
Definition twice_world : World TaskExecutor.Run :=
  mkWorld Sample.clock 0 [] (TaskExecutor.mkRun (TaskExecutor.init twice_session) []).

Lemma execute_removes_task_witness :
  queue_unbounded "t1" (session_of twice_world)
  ∧ Session.tasks (session_of twice_world) = ["t1"; "t2"; "t1"]
  ∧ Session.tasks
      (session_of (TaskExecutor.execute "t1" "p" 1 twice_world).2)
    = ["t2"; "t1"]
  ∧ (NoDup (Session.tasks (session_of (Sample.world Sample.hanging)))
     ∧ "t1" ∉ Session.tasks
                (session_of (TaskExecutor.execute "t1" "p" 1
                               (Sample.world Sample.hanging)).2)).
Proof.
  assert (Hq : queue_unbounded "t1" (session_of twice_world)).
  { apply queues_unbounded_add_task, queues_unbounded_add_task,
      queues_unbounded_subscribe_task, queues_unbounded_add_task,
      queues_unbounded_init. }
  assert (Hnd : NoDup (Session.tasks (session_of (Sample.world Sample.hanging)))).
  { vm_compute. repeat constructor. by intros ?%elem_of_nil. }
  split; [exact Hq|]. split; [reflexivity|]. split.
  - destruct (execute_removes_task "t1" "p" 1 twice_world Hq) as (_ & H & _).
    exact (H [] ["t2"; "t1"] eq_refl (not_elem_of_nil _)).
  - split; [exact Hnd|].
    destruct (execute_removes_task "t1" "p" 1 (Sample.world Sample.hanging)
                (Sample.world_unbounded _)) as (_ & _ & H).
    by apply H.
Defined.

(** X6.  A run of [execute] leaves the queues of all other tasks of the
    session as they are, and when nobody has subscribed to its own task
    (the session holds no queue under the task id) it leaves the whole
    queue table as it is: every event of the run is dropped. *)
Theorem execute_touches_own_queue_only tid prompt timeout w :
  queue_unbounded tid (session_of w) →
  (∀ k, k ≠ tid →
        Session.event_queues
          (session_of (TaskExecutor.execute tid prompt timeout w).2) !! k
        = Session.event_queues (session_of w) !! k)
  ∧ (Session.event_queues (session_of w) !! tid = None →
     Session.event_queues (session_of (TaskExecutor.execute tid prompt timeout w).2)
     = Session.event_queues (session_of w)).
Proof.
  intros Hq.
  destruct (Runs.execute_runs tid prompt timeout w)
    as (evs & t1 & t2 & n & p & lg & E & _).
  { intros k q [= <-]. simpl. apply Hq. }
  rewrite E. cbn [snd].
  rewrite session_of_finished, session_of_after_started.
  rewrite remove_task_event_queues. split.
  - intros k Hk. by apply push_all_other.
  - intros Hn. unfold Runs.push_all. by rewrite Hn.
Qed.

Lemma execute_touches_own_queue_only_witness :
  queue_unbounded "t9" (session_of (Sample.world Sample.happy))
  ∧ Session.event_queues
      (session_of (TaskExecutor.execute "t9" "p" 1 (Sample.world Sample.happy)).2)
    = Session.event_queues (session_of (Sample.world Sample.happy)).
Proof.
  assert (H : queue_unbounded "t9" (session_of (Sample.world Sample.happy))).
  { intros q Hq. vm_compute in Hq. discriminate. }
  split; [exact H|].
  apply (execute_touches_own_queue_only "t9" "p" 1 (Sample.world Sample.happy) H).
  vm_compute. reflexivity.
Defined.

(** ** Task executor: failures of the agent *)

(** The agent fails with [e]: the query raises it, or the stream raises it
    before it has yielded a result message. *)
Definition agent_raises (cl : Client) (e : exn) : Prop :=
  on_query cl = Raises e
  ∨ (on_query cl = Returns
     ∧ Runs.first_result (on_receive cl).1 = None
     ∧ (on_receive cl).2 = StreamRaises e).

Lemma agent_raises_outcome cl e : agent_raises cl e → Runs.task_outcome cl = Raise e.
Proof.
  unfold Runs.task_outcome, Runs.receive_outcome.
  by intros [->|(-> & -> & ->)].
Qed.

(** X7.  When the agent is run (the timeout is positive) and fails with
    an exception other than a timeout, the run ends with an ERROR event
    carrying [str(e)] and then a COMPLETE event with exit code 1 and the
    summary "Task failed: " followed by [str(e)].  The error list of that
    event holds [str(e)], except when [str(e)] is the empty string: then
    the list is empty although the exit code is 1. *)
Theorem execute_agent_exception tid prompt timeout w e :
  queue_unbounded tid (session_of w) →
  0 < timeout →
  agent_raises (client_of w) e →
  e ≠ TimeoutError →
  ∃ evs t1 t2,
    events_of_run tid prompt timeout w
    = evs ++ [ErrorEvent t1 (str e);
              CompleteEvent t2
                (mkResult 1 (Some ("Task failed: " +:+ str e))
                          (if decide (str e = "") then [] else [str e]))]
    ∧ Forall Runs.streaming evs.
Proof.
  intros Hq Hpos Hr Hne.
  destruct (execute_summary tid prompt timeout w Hq)
    as (evs & t1 & t2 & _ & Hev & Hs & _).
  exists evs, t1, t2. split; [|done].
  rewrite Hev. unfold Runs.wait_outcome.
  rewrite decide_False, (agent_raises_outcome _ _ Hr) by lia. by destruct e.
Qed.

Definition failing_stream (msg : string) : Client :=
  mkClient Returns Returns
           ([AssistantMessage [TextBlock "hi"] "m"], StreamRaises (AgentError msg))
           Returns Returns.

Lemma execute_agent_exception_witness :
  agent_raises (client_of (Sample.world (failing_stream ""))) (AgentError "")
  ∧ ∃ evs t1 t2,
      events_of_run "t1" "p" 3600 (Sample.world (failing_stream ""))
      = evs ++ [ErrorEvent t1 "";
                CompleteEvent t2 (mkResult 1 (Some "Task failed: ") [])]
      ∧ Forall Runs.streaming evs.
Proof.
  assert (H : agent_raises (client_of (Sample.world (failing_stream "")))
                           (AgentError "")).
  { right. split_and!; reflexivity. }
  split; [exact H|].
  apply (execute_agent_exception "t1" "p" 3600 (Sample.world (failing_stream ""))
           (AgentError "") (Sample.world_unbounded _)); [lia|exact H|discriminate].
Defined.

(** X8.  A [TimeoutError] raised by the agent itself is reported exactly
    like an expired deadline: ERROR "Task execution timed out", then
    COMPLETE with exit code 1 and the error list ["Timeout"]. *)
Theorem execute_agent_timeout_error tid prompt timeout w :
  queue_unbounded tid (session_of w) →
  agent_raises (client_of w) TimeoutError →
  ∃ evs t1 t2,
    events_of_run tid prompt timeout w
    = evs ++ [ErrorEvent t1 "Task execution timed out";
              CompleteEvent t2 (mkResult 1 (Some "Task failed: Timeout") ["Timeout"])]
    ∧ Forall Runs.streaming evs.
Proof.
  intros Hq Hr.
  destruct (execute_summary tid prompt timeout w Hq)
    as (evs & t1 & t2 & _ & Hev & Hs & _).
  exists evs, t1, t2. split; [|done].
  rewrite Hev. unfold Runs.wait_outcome.
  destruct (decide (timeout ≤ 0)); [done|].
  by rewrite (agent_raises_outcome _ _ Hr).
Qed.

Definition timeout_raising : Client :=
  mkClient Returns (Raises TimeoutError) ([], Exhausted) Returns Returns.

Lemma execute_agent_timeout_error_witness :
  agent_raises (client_of (Sample.world timeout_raising)) TimeoutError
  ∧ ∃ evs t1 t2,
      events_of_run "t1" "p" 3600 (Sample.world timeout_raising)
      = evs ++ [ErrorEvent t1 "Task execution timed out";
                CompleteEvent t2 (mkResult 1 (Some "Task failed: Timeout") ["Timeout"])]
      ∧ Forall Runs.streaming evs.
Proof.
  assert (H : agent_raises (client_of (Sample.world timeout_raising)) TimeoutError).
  { left. reflexivity. }
  split; [exact H|].
  apply (execute_agent_timeout_error "t1" "p" 3600 (Sample.world timeout_raising)
           (Sample.world_unbounded _) H).
Defined.

(** ** Task executor: the result message and the file counter *)

(** X9.  Whatever the result message holds, [_handle_result] publishes
    exactly one event, a PROGRESS event, and the snapshot it carries is the
    progress it leaves in the executor: [turns] is the message's
    [num_turns]; the three token counts are the message's totals (a missing
    key counts as 0) when its [usage] is a non-empty dict and are left as
    they were when [usage] is [None] or empty; [files_modified] is
    untouched; [elapsed_time_ms] is the time measured on the executor's
    clock since the start of the run ([int(total_seconds() * 1000)], in
    floating point), whatever [duration_ms] says. *)
Theorem handle_result_final_progress res st w :
  Runs.unbounded w →
  TaskExecutor.start_time (TaskExecutor.self (state w)) = Some st →
  ∃ p,
    (TaskExecutor._handle_result res w).1 = Ok tt
    ∧ TaskExecutor.published (state (TaskExecutor._handle_result res w).2)
      = TaskExecutor.published (state w)
        ++ [(TaskExecutor.task_id (TaskExecutor.self (state w)),
             ProgressEvent (clock w (S (ticks w))) p)]
    ∧ progress_of (TaskExecutor._handle_result res w).2 = p
    ∧ turns p = num_turns res
    ∧ elapsed_time_ms p = TaskExecutor.elapsed_ms st (clock w (ticks w))
    ∧ files_modified p = files_modified (progress_of w)
    ∧ (tokens_used p, tokens_input p, tokens_output p)
      = match usage res with
        | Some u =>
            if decide (u = ∅)
            then (tokens_used (progress_of w), tokens_input (progress_of w),
                  tokens_output (progress_of w))
            else (TaskExecutor.get0 u "total_tokens",
                  TaskExecutor.get0 u "input_tokens",
                  TaskExecutor.get0 u "output_tokens")
        | None => (tokens_used (progress_of w), tokens_input (progress_of w),
                   tokens_output (progress_of w))
        end.
Proof.
  intros Hu Hst.
  destruct (Runs.runs_handle_result st res w Hu Hst) as (lg & R).
  unfold Runs.runs in R. rewrite R. eexists. split_and!; try reflexivity.
  all: unfold progress_of, Runs.final_progress, Runs.result_progress; simpl.
  all: destruct (usage res) as [u|]; [|done]; by destruct (decide (u = ∅)).
Qed.

(** The world of a run of ["t1"] that has entered the [try] statement. *)
Definition running_world (cl : Client) : World TaskExecutor.Run :=
  Runs.started "t1" (Sample.world cl).

Lemma running_world_unbounded cl : Runs.unbounded (running_world cl).
Proof. intros k q [= <-]. simpl. apply Sample.world_unbounded. Qed.

Lemma handle_result_final_progress_witness :
  ∃ p,
    (TaskExecutor._handle_result (mkResultMessage None 7 50 false)
       (running_world Sample.happy)).1 = Ok tt
    ∧ progress_of (TaskExecutor._handle_result (mkResultMessage None 7 50 false)
                     (running_world Sample.happy)).2 = p
    ∧ turns p = 7
    ∧ elapsed_time_ms p = 250.
Proof.
  destruct (handle_result_final_progress (mkResultMessage None 7 50 false) 0
              (running_world Sample.happy) (running_world_unbounded _) eq_refl)
    as (p & H1 & _ & H3 & H4 & H5 & _).
  exists p. split_and!; [exact H1|exact H3|exact H4|exact H5].
Defined.

(** The number of items of a tool result that count as a modified file:
    only a list-valued content has any. *)
Definition reports (content : ToolContent) : nat :=
  match content with
  | ContentList l =>
      length (filter (λ i, TaskExecutor.reports_modification i = true) l)
  | _ => 0%nat
  end.

Lemma counted_files content p :
  files_modified (Runs.counted content p) = files_modified p + Z.of_nat (reports content).
Proof.
  destruct content as [| |l]; simpl; [lia..|].
  revert p. induction l as [|i l IH]; intros p; simpl; [lia|].
  rewrite IH, filter_cons.
  destruct (TaskExecutor.reports_modification i) eqn:E.
  - rewrite decide_True by done. simpl. lia.
  - rewrite decide_False by done. lia.
Qed.

(** X10.  [_emit_tool_result] publishes the TOOL_RESULT event and then
    raises [files_modified] by the number of items of the content that are
    dicts of type "text" whose text contains "written successfully" or
    "modified"; a content that is a string or [None] never counts,
    whatever it says.  The turn counter is not touched. *)
Theorem emit_tool_result_counts id content is_error w :
  Runs.unbounded w →
  (TaskExecutor._emit_tool_result id content is_error w).1 = Ok tt
  ∧ TaskExecutor.published
      (state (TaskExecutor._emit_tool_result id content is_error w).2)
    = TaskExecutor.published (state w)
      ++ [(TaskExecutor.task_id (TaskExecutor.self (state w)),
           ToolResultEvent (clock w (ticks w)) id content is_error)]
  ∧ files_modified (progress_of (TaskExecutor._emit_tool_result id content is_error w).2)
    = files_modified (progress_of w) + Z.of_nat (reports content)
  ∧ turns (progress_of (TaskExecutor._emit_tool_result id content is_error w).2)
    = turns (progress_of w).
Proof.
  intros Hu.
  pose proof (Runs.runs_emit_tool_result id content is_error w Hu) as R.
  unfold Runs.runs in R. rewrite R. unfold progress_of. simpl.
  split_and!; [done|done|apply counted_files|apply Runs.counted_turns].
Qed.

Lemma emit_tool_result_counts_witness :
  files_modified
    (progress_of
       (TaskExecutor._emit_tool_result "u"
          (ContentList [ItemDict (Some "text") (Some "File Written Successfully");
                        ItemDict (Some "text") (Some "nothing changed");
                        ItemDict (Some "image") (Some "modified")])
          None (running_world Sample.happy)).2)
  = 0 + 1.
Proof.
  apply (emit_tool_result_counts "u"
           (ContentList [ItemDict (Some "text") (Some "File Written Successfully");
                         ItemDict (Some "text") (Some "nothing changed");
                         ItemDict (Some "image") (Some "modified")])
           None (running_world Sample.happy) (running_world_unbounded _)).
Defined.

Lemma lower_ascii_idemp c : lower_ascii (lower_ascii c) = lower_ascii c.
Proof. by destruct c as [[] [] [] [] [] [] [] []]. Qed.

Lemma lower_idemp s : lower (lower s) = lower s.
Proof. induction s as [|c s IH]; simpl; [done|]. by rewrite lower_ascii_idemp, IH. Qed.

(** X11.  The test that counts a modified file does not depend on letter
    case: an item counts exactly when the same item with its text in lower
    case does. *)
Theorem reports_modification_ignores_case ty t :
  TaskExecutor.reports_modification (ItemDict ty (Some t))
  = TaskExecutor.reports_modification (ItemDict ty (Some (lower t))).
Proof.
  unfold TaskExecutor.reports_modification. destruct ty as [ty|]; [|done].
  destruct (decide (ty = "text")); [|done]. simpl. by rewrite lower_idemp.
Qed.

(** ** Session manager: creating and deleting sessions *)

(** Every call of [create_session], by the checks it makes in turn. *)
Lemma create_session_run config fs sdk sid ws opts (w : World SessionManager.t) :
  let table := SessionManager.sessions (state w) in
  let run := SessionManager.create_session config fs sdk sid ws opts w in
  let cl := sdk (SessionManager.build_options config (path_resolve fs ws) opts) in
  (sid ∈ dom table → run = (Raise (ALREADY_EXISTS sid), w))
  ∧ (sid ∉ dom table → max_concurrent config ≤ Z.of_nat (size table) →
     run = (Raise (AT_CAPACITY config), w))
  ∧ (sid ∉ dom table → Z.of_nat (size table) < max_concurrent config →
     path_exists fs (path_resolve fs ws) = false →
     run = (Raise (INVALID_WORKSPACE ws), w))
  ∧ (sid ∉ dom table → Z.of_nat (size table) < max_concurrent config →
     path_exists fs (path_resolve fs ws) = true →
     match on_connect cl with
     | Returns =>
         run.1
         = Ok (Session.init sid (path_resolve fs ws)
                 (SessionManager.build_options config (path_resolve fs ws) opts) cl
                 (clock w (ticks w)) (clock w (S (ticks w))))
         ∧ SessionManager.sessions (state run.2)
           = <[sid := Session.init sid (path_resolve fs ws)
                        (SessionManager.build_options config (path_resolve fs ws) opts)
                        cl (clock w (ticks w)) (clock w (S (ticks w)))]> table
     | Raises e =>
         run.1 = Raise e ∧ SessionManager.sessions (state run.2) = table
     | Hangs =>
         run.1 = Block ∧ SessionManager.sessions (state run.2) = table
     end).
Proof.
  intros table run cl. subst run.
  unfold SessionManager.create_session, SessionManager.get_active_count.
  unfold mbind, M_bind, get_state. cbn beta iota. fold table.
  split_and!.
  - intros Hin. by rewrite decide_True.
  - intros Hin Hcap. rewrite decide_False by done.
    destruct (Z.leb_spec (max_concurrent config) (Z.of_nat (size table))); [done|lia].
  - intros Hin Hcap Hex. rewrite decide_False by done.
    destruct (Z.leb_spec (max_concurrent config) (Z.of_nat (size table))); [lia|].
    by rewrite Hex.
  - intros Hin Hcap Hex. rewrite decide_False by done.
    destruct (Z.leb_spec (max_concurrent config) (Z.of_nat (size table))); [lia|].
    rewrite Hex. cbn beta iota. fold cl.
    unfold try_except, call.
    by destruct (on_connect cl) as [|e|].
Qed.

(** Every call of [create_session] either fails or stays suspended with
    all sessions left as they were, or returns the new session, which it
    has then inserted under an id that was free while the table was below
    capacity. *)
Lemma create_session_cases config fs sdk sid ws opts (w : World SessionManager.t) :
  let table := SessionManager.sessions (state w) in
  let run := SessionManager.create_session config fs sdk sid ws opts w in
  ((∀ session, run.1 ≠ Ok session) ∧ SessionManager.sessions (state run.2) = table)
  ∨ (∃ session,
       run.1 = Ok session
       ∧ (sid ∉ dom table)
       ∧ (Z.of_nat (size table) < max_concurrent config)
       ∧ Session.session_id session = sid
       ∧ Session.tasks session = []
       ∧ Session.client session
         = sdk (SessionManager.build_options config (path_resolve fs ws) opts)
       ∧ SessionManager.sessions (state run.2) = <[sid := session]> table).
Proof.
  intros table run.
  destruct (create_session_run config fs sdk sid ws opts w)
    as (H1 & H2 & H3 & H4). fold table run in H1, H2, H3, H4.
  destruct (decide (sid ∈ dom table)) as [Hin|Hin].
  { left. rewrite (H1 Hin). by split. }
  destruct (Z.le_gt_cases (max_concurrent config) (Z.of_nat (size table))) as [Hc|Hc].
  { left. rewrite (H2 Hin Hc). by split. }
  destruct (path_exists fs (path_resolve fs ws)) eqn:Hex.
  2: { left. rewrite (H3 Hin Hc eq_refl). by split. }
  specialize (H4 Hin Hc eq_refl).
  destruct (on_connect _) eqn:Hcon.
  - right. destruct H4 as (E1 & E2). eexists. by split_and!.
  - left. destruct H4 as [-> ->]. by split.
  - left. destruct H4 as [-> ->]. by split.
Qed.

(** X12.  [create_session] keeps the number of sessions within
    [max_concurrent], whatever its outcome, and never removes or replaces
    a session that is already in the table. *)
Theorem create_session_keeps_capacity config fs sdk sid ws opts
    (w : World SessionManager.t) :
  Z.of_nat (size (SessionManager.sessions (state w))) ≤ max_concurrent config →
  Z.of_nat (size (SessionManager.sessions
                    (state (SessionManager.create_session config fs sdk sid ws opts
                              w).2)))
  ≤ max_concurrent config
  ∧ ∀ k s, SessionManager.sessions (state w) !! k = Some s →
           SessionManager.sessions
             (state (SessionManager.create_session config fs sdk sid ws opts w).2) !! k
           = Some s.
Proof.
  intros Hcap.
  destruct (create_session_cases config fs sdk sid ws opts w)
    as [[_ ->]|(session & _ & Hin & Hlt & _ & _ & _ & ->)]; [done|].
  apply not_elem_of_dom in Hin. split.
  - rewrite map_size_insert_None by done. lia.
  - intros k s Hk. rewrite lookup_insert_ne; [done|]. intros <-. congruence.
Qed.

Lemma create_session_keeps_capacity_witness :
  Z.of_nat (size (SessionManager.sessions (state sample_manager)))
  ≤ max_concurrent (default_config "key")
  ∧ Z.of_nat (size (SessionManager.sessions
                      (state (SessionManager.create_session (default_config "key")
                                sample_fs sample_sdk "session-t1" "/tmp/w" no_options
                                sample_manager).2)))
    ≤ max_concurrent (default_config "key").
Proof.
  assert (H : Z.of_nat (size (SessionManager.sessions (state sample_manager)))
              ≤ max_concurrent (default_config "key")).
  { vm_compute. discriminate. }
  split; [exact H|].
  apply (create_session_keeps_capacity (default_config "key") sample_fs sample_sdk
           "session-t1" "/tmp/w" no_options sample_manager H).
Defined.

(** X13.  A session that [create_session] has returned is the one
    [get_session] then finds under its id, and a second [create_session]
    for the same id fails with ALREADY_EXISTS and changes nothing, whatever
    workspace and options it is given. *)
Theorem create_session_then_lookup config fs sdk sid ws opts ws' opts' session
    (w : World SessionManager.t) :
  (SessionManager.create_session config fs sdk sid ws opts w).1 = Ok session →
  let w' := (SessionManager.create_session config fs sdk sid ws opts w).2 in
  SessionManager.get_session sid w' = (Ok (Some session), w')
  ∧ SessionManager.create_session config fs sdk sid ws' opts' w'
    = (Raise (ALREADY_EXISTS sid), w').
Proof.
  intros Hok w'.
  destruct (create_session_cases config fs sdk sid ws opts w)
    as [[Hno _]|(session' & E & _ & _ & _ & _ & _ & Hins)]; [by destruct (Hno session)|].
  rewrite Hok in E. injection E as <-. fold w' in Hins.
  assert (Hl : SessionManager.sessions (state w') !! sid = Some session).
  { rewrite Hins. apply lookup_insert_eq. }
  split.
  - unfold SessionManager.get_session, mbind, M_bind, get_state, mret, M_ret.
    by rewrite Hl.
  - destruct (create_session_run config fs sdk sid ws' opts' w') as (H1 & _).
    apply H1. apply elem_of_dom. eauto.
Qed.

Lemma sample_create_session_ok :
  ∃ session,
    (SessionManager.create_session (default_config "key") sample_fs sample_sdk
       "session-t1" "/tmp/w" no_options sample_manager).1 = Ok session.
Proof. eexists. vm_compute. reflexivity. Qed.

Lemma create_session_then_lookup_witness :
  ∃ session,
    (SessionManager.create_session (default_config "key") sample_fs sample_sdk
       "session-t1" "/tmp/w" no_options sample_manager).1 = Ok session
    ∧ SessionManager.create_session (default_config "key") sample_fs sample_sdk
        "session-t1" "/nowhere" no_options
        (SessionManager.create_session (default_config "key") sample_fs sample_sdk
           "session-t1" "/tmp/w" no_options sample_manager).2
      = (Raise (ALREADY_EXISTS "session-t1"),
         (SessionManager.create_session (default_config "key") sample_fs sample_sdk
            "session-t1" "/tmp/w" no_options sample_manager).2).
Proof.
  destruct sample_create_session_ok as (session & H).
  exists session. split; [exact H|].
  apply (create_session_then_lookup (default_config "key") sample_fs sample_sdk
           "session-t1" "/tmp/w" no_options "/nowhere" no_options session
           sample_manager H).
Defined.

(** X14.  [delete_session] fails with a [ValueError] and changes nothing
    when the id is not in the table.  Otherwise it removes the session
    whether [disconnect()] returns or raises (the exception is logged and
    not passed on); only while [disconnect()] is pending is the session
    still in the table. *)
Theorem delete_session_contract sid (w : World SessionManager.t) :
  match SessionManager.sessions (state w) !! sid with
  | None =>
      SessionManager.delete_session sid w
      = (Raise (ValueError ("Session " +:+ sid +:+ " not found")), w)
  | Some session =>
      match on_disconnect (Session.client session) with
      | Returns =>
          (SessionManager.delete_session sid w).1 = Ok tt
          ∧ SessionManager.sessions (state (SessionManager.delete_session sid w).2)
            = delete sid (SessionManager.sessions (state w))
      | Raises e =>
          (SessionManager.delete_session sid w).1 = Ok tt
          ∧ SessionManager.sessions (state (SessionManager.delete_session sid w).2)
            = delete sid (SessionManager.sessions (state w))
          ∧ (Log.ERROR, "Error disconnecting session " +:+ sid +:+ ": " +:+ str e)
            ∈ log (SessionManager.delete_session sid w).2
      | Hangs =>
          (SessionManager.delete_session sid w).1 = Block
          ∧ SessionManager.sessions (state (SessionManager.delete_session sid w).2)
            = SessionManager.sessions (state w)
      end
  end.
Proof.
  unfold SessionManager.delete_session, mbind, M_bind, get_state, try_except, call.
  cbn beta iota.
  destruct (SessionManager.sessions (state w) !! sid) as [session|]; [|done].
  destruct (on_disconnect (Session.client session)) as [|e|]; simpl; [done| |done].
  split_and!; [done..|]. set_solver.
Qed.

Lemma delete_session_present sid session (w : World SessionManager.t) :
  SessionManager.sessions (state w) !! sid = Some session →
  on_disconnect (Session.client session) ≠ Hangs →
  (SessionManager.delete_session sid w).1 = Ok tt
  ∧ SessionManager.sessions (state (SessionManager.delete_session sid w).2)
    = delete sid (SessionManager.sessions (state w)).
Proof.
  intros Hs Hd.
  unfold SessionManager.delete_session, mbind, M_bind, get_state, try_except, call.
  cbn beta iota. rewrite Hs.
  by destruct (on_disconnect (Session.client session)).
Qed.

(** X15.  Deleting a session right after it has been created gives back
    the table of sessions as it was before, provided the client's
    [disconnect()] does not stay pending. *)
Theorem create_then_delete_session config fs sdk sid ws opts session
    (w : World SessionManager.t) :
  (SessionManager.create_session config fs sdk sid ws opts w).1 = Ok session →
  on_disconnect (sdk (SessionManager.build_options config (path_resolve fs ws) opts))
  ≠ Hangs →
  let w' := (SessionManager.create_session config fs sdk sid ws opts w).2 in
  (SessionManager.delete_session sid w').1 = Ok tt
  ∧ SessionManager.sessions (state (SessionManager.delete_session sid w').2)
    = SessionManager.sessions (state w).
Proof.
  intros Hok Hd w'.
  destruct (create_session_cases config fs sdk sid ws opts w)
    as [[Hno _]|(session' & E & Hin & _ & _ & _ & Hcl & Hins)];
    [by destruct (Hno session)|].
  rewrite Hok in E. injection E as <-. fold w' in Hins.
  destruct (delete_session_present sid session w') as [H1 H2].
  { rewrite Hins. apply lookup_insert_eq. }
  { by rewrite Hcl. }
  split; [done|]. rewrite H2, Hins, delete_insert_eq.
  apply delete_id. by apply not_elem_of_dom.
Qed.

Lemma create_then_delete_session_witness :
  ∃ session,
    (SessionManager.create_session (default_config "key") sample_fs sample_sdk
       "session-t1" "/tmp/w" no_options sample_manager).1 = Ok session
    ∧ SessionManager.sessions
        (state (SessionManager.delete_session "session-t1"
                  (SessionManager.create_session (default_config "key") sample_fs
                     sample_sdk "session-t1" "/tmp/w" no_options sample_manager).2).2)
      = SessionManager.sessions (state sample_manager).
Proof.
  destruct sample_create_session_ok as (session & H).
  exists session. split; [exact H|].
  apply (create_then_delete_session (default_config "key") sample_fs sample_sdk
           "session-t1" "/tmp/w" no_options session sample_manager H).
  discriminate.
Defined.

(** ** Session manager: the reaper *)

(** [is_idle] never fails; it reads the clock at most once and changes
    nothing else; it answers [true] only for a session without tasks whose
    last activity lies more than the timeout before the reading. *)
Lemma is_idle_run timeout s (w : World SessionManager.t) :
  ∃ b n,
    Session.is_idle timeout s w
    = (Ok b, mkWorld (clock w) (ticks w + n) (log w) (state w))
    ∧ (b = true → Session.tasks s = [])
    ∧ (Session.tasks s = [] →
       b = (timeout * 1000000 <? clock w (ticks w) - Session.last_activity s)).
Proof.
  destruct w as [c t l m]. unfold Session.is_idle.
  destruct (Session.tasks s) as [|x r] eqn:E; simpl.
  - eexists _, 1%nat. unfold mbind, M_bind, utcnow, mret, M_ret. simpl.
    rewrite Nat.add_1_r. by split_and!.
  - exists false, 0%nat. unfold mret, M_ret. rewrite Nat.add_0_r. by split_and!.
Qed.

Lemma idle_sessions_run config items (w : World SessionManager.t) :
  ∃ ids n,
    SessionManager._idle_sessions config items w
    = (Ok ids, mkWorld (clock w) (ticks w + n) (log w) (state w))
    ∧ (∀ k, k ∈ ids → ∃ s, (k, s) ∈ items ∧ Session.tasks s = [])
    ∧ (∀ k s, (k, s) ∈ items → Session.tasks s = [] →
              (∀ i, idle_timeout_seconds config * 1000000
                    < clock w i - Session.last_activity s) →
              k ∈ ids).
Proof.
  revert w. induction items as [|[sid s] items IH]; intros w.
  - exists [], 0%nat. destruct w as [c t l m]. simpl. unfold mret, M_ret.
    rewrite Nat.add_0_r. split_and!; [done|..].
    + by intros k ?%elem_of_nil.
    + by intros k s ?%elem_of_nil.
  - destruct (is_idle_run (idle_timeout_seconds config) s w) as (b & n1 & E1 & Hb1 & Hb2).
    destruct (IH (mkWorld (clock w) (ticks w + n1) (log w) (state w)))
      as (ids & n2 & E2 & Hin & Hall).
    simpl in E2, Hall.
    exists (if b then sid :: ids else ids), (n1 + n2)%nat. split_and!.
    + simpl. unfold mbind at 1, M_bind. rewrite E1.
      unfold mbind, M_bind. rewrite E2. unfold mret, M_ret.
      by rewrite Nat.add_assoc.
    + intros k Hk. destruct b.
      * apply elem_of_cons in Hk as [->|Hk].
        -- exists s. split; [by left|by apply Hb1].
        -- destruct (Hin k Hk) as (s' & ? & ?). exists s'. split; [by right|done].
      * destruct (Hin k Hk) as (s' & ? & ?). exists s'. split; [by right|done].
    + intros k s' Hk Ht Hidle. apply elem_of_cons in Hk as [[= -> ->]|Hk].
      * rewrite (Hb2 Ht). destruct (Z.ltb_spec (idle_timeout_seconds config * 1000000)
                                      (clock w (ticks w) - Session.last_activity s))
          as [_|Hge]; [by left|]. specialize (Hidle (ticks w)). lia.
      * assert (k ∈ ids) by by eapply Hall.
        destruct b; [by right|done].
Qed.

(** One turn of the reaper's loop: it returns or stays suspended, and the
    table afterwards is the table before, with or without the session. *)
Lemma cleanup_one_run sid (w : World SessionManager.t) :
  let run := SessionManager._cleanup_one sid w in
  match SessionManager.sessions (state w) !! sid with
  | None => run.1 = Ok tt ∧ state run.2 = state w
  | Some s =>
      match on_disconnect (Session.client s) with
      | Returns =>
          run.1 = Ok tt
          ∧ SessionManager.sessions (state run.2)
            = delete sid (SessionManager.sessions (state w))
      | Raises _ => run.1 = Ok tt ∧ state run.2 = state w
      | Hangs => run.1 = Block ∧ state run.2 = state w
      end
  end.
Proof.
  unfold SessionManager._cleanup_one, try_except, mbind, M_bind, get_state, call.
  cbn beta iota.
  destruct (SessionManager.sessions (state w) !! sid) as [s|]; [|done].
  by destruct (on_disconnect (Session.client s)).
Qed.

Lemma cleanup_one_shrinks sid (w : World SessionManager.t) :
  (∀ k s, SessionManager.sessions (state (SessionManager._cleanup_one sid w).2) !! k
          = Some s →
          SessionManager.sessions (state w) !! k = Some s)
  ∧ (∀ k, k ≠ sid →
          SessionManager.sessions (state (SessionManager._cleanup_one sid w).2) !! k
          = SessionManager.sessions (state w) !! k).
Proof.
  pose proof (cleanup_one_run sid w) as H. simpl in H.
  destruct (SessionManager.sessions (state w) !! sid) as [s|] eqn:E.
  - destruct (on_disconnect (Session.client s)).
    + destruct H as [_ ->]. split.
      * intros k s' Hk. by apply lookup_delete_Some in Hk as [_ ?].
      * intros k Hk. by rewrite lookup_delete_ne.
    + by destruct H as [_ ->].
    + by destruct H as [_ ->].
  - by destruct H as [_ ->].
Qed.

Lemma cleanup_each_shrinks ids (w : World SessionManager.t) :
  (∀ k s, SessionManager.sessions (state (SessionManager._cleanup_each ids w).2) !! k
          = Some s →
          SessionManager.sessions (state w) !! k = Some s)
  ∧ (∀ k, k ∉ ids →
          SessionManager.sessions (state (SessionManager._cleanup_each ids w).2) !! k
          = SessionManager.sessions (state w) !! k).
Proof.
  revert w. induction ids as [|sid ids IH]; intros w; simpl; [done|].
  unfold mbind, M_bind.
  destruct (cleanup_one_shrinks sid w) as [H1 H2].
  destruct (SessionManager._cleanup_one sid w) as [[[]|e|] w1] eqn:E; simpl in *.
  - destruct (IH w1) as [I1 I2]. split.
    + intros k s Hk. apply H1. by apply I1.
    + intros k Hk. apply not_elem_of_cons in Hk as [Hne Hk].
      rewrite I2 by done. by apply H2.
  - split; [done|]. intros k Hk. apply not_elem_of_cons in Hk as [Hne Hk]. by apply H2.
  - split; [done|]. intros k Hk. apply not_elem_of_cons in Hk as [Hne Hk]. by apply H2.
Qed.

(** The table after a pass of the reaper is the table after its loop over
    the ids it found idle, which are ids of sessions without tasks. *)
Lemma cleanup_idle_sessions_run config (w : World SessionManager.t) :
  ∃ ids w1,
    state w1 = state w ∧ clock w1 = clock w
    ∧ (∀ k, k ∈ ids →
            ∃ s, SessionManager.sessions (state w) !! k = Some s
                 ∧ Session.tasks s = [])
    ∧ (∀ k s, SessionManager.sessions (state w) !! k = Some s →
              Session.tasks s = [] →
              (∀ i, idle_timeout_seconds config * 1000000
                    < clock w i - Session.last_activity s) →
              k ∈ ids)
    ∧ state (SessionManager._cleanup_idle_sessions config w).2
      = state (SessionManager._cleanup_each ids w1).2
    ∧ (SessionManager._cleanup_idle_sessions config w).1
      = (SessionManager._cleanup_each ids w1).1.
Proof.
  destruct (idle_sessions_run config (map_to_list (SessionManager.sessions (state w))) w)
    as (ids & n & E & Hin & Hall).
  exists ids, (mkWorld (clock w) (ticks w + n) (log w) (state w)).
  split_and!; [done|done|..].
  - intros k Hk. destruct (Hin k Hk) as (s & Hs & Ht).
    exists s. split; [|done]. by apply elem_of_map_to_list in Hs.
  - intros k s Hs Ht Hi. eapply Hall; [|done..]. by apply elem_of_map_to_list.
  - unfold SessionManager._cleanup_idle_sessions.
    unfold mbind at 1, M_bind, get_state. cbn beta iota.
    unfold mbind at 1, M_bind. rewrite E.
    unfold mbind at 1, M_bind.
    destruct (SessionManager._cleanup_each ids _) as [[[]|e|] w2]; [|done..].
    unfold mbind, M_bind. cbn beta iota. by destruct ids.
  - unfold SessionManager._cleanup_idle_sessions.
    unfold mbind at 1, M_bind, get_state. cbn beta iota.
    unfold mbind at 1, M_bind. rewrite E.
    unfold mbind at 1, M_bind.
    destruct (SessionManager._cleanup_each ids _) as [[[]|e|] w2]; [|done..].
    unfold mbind, M_bind. cbn beta iota. by destruct ids.
Qed.

(** X16.  A pass of the reaper never removes a session that owns a task,
    whatever the clock and the clients do, and it adds or replaces
    nothing: every session in the table afterwards was there before. *)
Theorem cleanup_keeps_busy_sessions config (w : World SessionManager.t) :
  (∀ k s,
     SessionManager.sessions (state w) !! k = Some s →
     Session.tasks s ≠ [] →
     SessionManager.sessions
       (state (SessionManager._cleanup_idle_sessions config w).2) !! k = Some s)
  ∧ (∀ k s,
       SessionManager.sessions
         (state (SessionManager._cleanup_idle_sessions config w).2) !! k = Some s →
       SessionManager.sessions (state w) !! k = Some s).
Proof.
  destruct (cleanup_idle_sessions_run config w)
    as (ids & w1 & Hst & _ & Hin & _ & -> & _).
  destruct (cleanup_each_shrinks ids w1) as [H1 H2]. rewrite Hst in H1, H2.
  split; [|done]. intros k s Hk Ht. rewrite H2; [done|].
  intros Hmem. destruct (Hin k Hmem) as (s' & Hs' & Ht'). congruence.
Qed.

(** A manager whose only session has been inactive for a long time but
    still owns task ["t1"]. *)
Definition busy_manager : World SessionManager.t :=
  mkWorld (λ n, 2000000000 + Sample.clock n) 0 []
    (SessionManager.mk {["s1" := Session.add_task "t1" 0 stale_session]} true).

Lemma cleanup_keeps_busy_sessions_witness :
  SessionManager.sessions
    (state (SessionManager._cleanup_idle_sessions (default_config "key")
              busy_manager).2) !! "s1"
  = Some (Session.add_task "t1" 0 stale_session).
Proof.
  assert (H1 : SessionManager.sessions (state busy_manager) !! "s1"
               = Some (Session.add_task "t1" 0 stale_session)).
  { vm_compute. reflexivity. }
  assert (H2 : Session.tasks (Session.add_task "t1" 0 stale_session) ≠ []).
  { discriminate. }
  destruct (cleanup_keeps_busy_sessions (default_config "key") busy_manager) as [H _].
  exact (H "s1" (Session.add_task "t1" 0 stale_session) H1 H2).
Defined.

(** No client of a session in the table leaves [disconnect()] pending. *)
Definition disconnects_end (w : World SessionManager.t) : Prop :=
  ∀ k s, SessionManager.sessions (state w) !! k = Some s →
         on_disconnect (Session.client s) ≠ Hangs.





(** ** Request handlers *)

(** X18.  For a task id that is not registered, [interrupt_task] answers
    404 and changes nothing; so it does for a registered task whose session
    is no longer in the table.  No client is called in either case. *)
Theorem interrupt_task_not_found tid (w : World Server.t) :
  (Server.running_tasks (state w) !! tid = None →
   Server.interrupt_task tid w
   = (Raise (HTTPException 404 ("Task " +:+ tid +:+ " not found")), w))
  ∧ (∀ info,
       Server.running_tasks (state w) !! tid = Some info →
       SessionManager.sessions (Server.session_manager (state w))
         !! Server.session_id info = None →
       Server.interrupt_task tid w
       = (Raise (HTTPException 404 ("Session not found for task " +:+ tid)), w)).
Proof.
  destruct w as [c t l [m r]].
  unfold Server.interrupt_task, Server.with_manager, SessionManager.get_session,
    mbind, M_bind, get_state.
  simpl. split.
  - by intros ->.
  - intros info -> Hs. simpl. by rewrite Hs.
Qed.



Lemma interrupt_task_not_found_witness :
  Server.running_tasks (state (sample_server Sample.happy)) !! "t7" = None
  ∧ Server.interrupt_task "t7" (sample_server Sample.happy)
    = (Raise (HTTPException 404 "Task t7 not found"), sample_server Sample.happy).
Proof.
  assert (H : Server.running_tasks (state (sample_server Sample.happy)) !! "t7" = None).
  { vm_compute. reflexivity. }
  split; [exact H|].
  destruct (interrupt_task_not_found "t7" (sample_server Sample.happy)) as [H1 _].
  exact (H1 H).
Defined.

(** ** Task submission *)

(** X20.  A request to reuse a session that is not in the table is
    answered with status 500 and the detail "Internal server error": the
    404 the handler raises for it is raised inside its own [try] statement
    and caught by the last [except] clause.  Nothing is registered and no
    session is touched. *)
Theorem create_task_reuse_unknown_session config server fs sdk request sid
    (w : World Server.t) :
  Server.reuse_target (req_session request) = Some sid →
  SessionManager.sessions (Server.session_manager (state w)) !! sid = None →
  (Server.create_task config server fs sdk request w).1
  = Raise (HTTPException 500 "Internal server error")
  ∧ state (Server.create_task config server fs sdk request w).2 = state w
  ∧ log (Server.create_task config server fs sdk request w).2
    = log w
      ++ [(Log.INFO, "Creating task: " +:+ req_task_id request);
          (Log.ERROR, "Unexpected error creating task: 404: Session " +:+ sid
                      +:+ " not found")].
Proof.
  intros Ht Hs. destruct w as [c t l [m r]]. simpl in Hs.
  assert (∃ w', Server.create_task config server fs sdk request
                  (mkWorld c t l (Server.mk m r))
                = (Raise (HTTPException 500 "Internal server error"), w')
                ∧ state w' = Server.mk m r
                ∧ log w'
                  = (l ++ [(Log.INFO, "Creating task: " +:+ req_task_id request)])
                    ++ [(Log.ERROR, "Unexpected error creating task: 404: Session "
                                    +:+ sid +:+ " not found")])
    as (w' & -> & ? & Hl).
  { eexists. split.
    - unfold Server.create_task, Server._create_task_body, try_except.
      unfold mbind at 1, M_bind, logger. cbn beta iota. rewrite Ht.
      unfold mbind at 1, M_bind, Server._reuse_session.
      unfold mbind at 1, M_bind, Server.with_manager, SessionManager.get_session.
      unfold mbind at 1, M_bind, get_state. simpl. rewrite Hs. simpl. reflexivity.
    - done. }
  split_and!; [done..|]. simpl. by rewrite Hl, <- app_assoc.
Qed.

Definition sample_server_config : ServerConfig := mkServerConfig "0.0.0.0" 8000.

Definition reuse_request (tid sid : string) : TaskRequest :=
  mkTaskRequest tid "echo hi" "/tmp/w" TaskOptions_default
                (mkSessionRequest true (Some sid)).

Definition new_request (tid : string) : TaskRequest :=
  mkTaskRequest tid "echo hi" "/tmp/w" TaskOptions_default
                (mkSessionRequest false None).

Lemma create_task_reuse_unknown_session_witness :
  (Server.create_task (default_config "key") sample_server_config sample_fs sample_sdk
     (reuse_request "t2" "session-t9") (sample_server Sample.happy)).1
  = Raise (HTTPException 500 "Internal server error")
  ∧ state (Server.create_task (default_config "key") sample_server_config sample_fs
             sample_sdk (reuse_request "t2" "session-t9")
             (sample_server Sample.happy)).2
    = state (sample_server Sample.happy).
Proof.
  destruct (create_task_reuse_unknown_session (default_config "key")
              sample_server_config sample_fs sample_sdk
              (reuse_request "t2" "session-t9") "session-t9"
              (sample_server Sample.happy))
    as (H1 & H2 & _); [reflexivity|vm_compute; reflexivity|].
  by split.
Defined.

(** X21.  A request to reuse a session that is in the table is accepted
    whether or not that session already owns tasks: the task id is appended
    to the session's task list, the task is registered as RUNNING under the
    session's id, and no other session or registry entry changes. *)
Theorem create_task_reuse_session config server fs sdk request sid session
    (w : World Server.t) :
  Server.reuse_target (req_session request) = Some sid →
  SessionManager.sessions (Server.session_manager (state w)) !! sid = Some session →
  let run := Server.create_task config server fs sdk request w in
  ∃ now,
    run.1 = Ok (mkTaskResponse (req_task_id request) (Session.session_id session) RUNNING
                  ("ws://" +:+ host server +:+ ":" +:+ pretty (port server)
                   +:+ "/ws/tasks/" +:+ req_task_id request)
                  (clock w (S (S (ticks w)))))
    ∧ SessionManager.sessions (Server.session_manager (state run.2))
      = <[sid := Session.add_task (req_task_id request) now session]>
          (SessionManager.sessions (Server.session_manager (state w)))
    ∧ Session.tasks (Session.add_task (req_task_id request) now session)
      = Session.tasks session ++ [req_task_id request]
    ∧ Server.running_tasks (state run.2)
      = <[req_task_id request
          := Server.mkTaskInfo (Session.session_id session) RUNNING
               (clock w (S (ticks w)))]>
          (Server.running_tasks (state w)).
Proof.
  intros Ht Hs run. subst run. destruct w as [c t l [[ss rn] r]]. simpl in Hs.
  assert (∃ w',
            Server.create_task config server fs sdk request
              (mkWorld c t l (Server.mk (SessionManager.mk ss rn) r))
            = (Ok (mkTaskResponse (req_task_id request) (Session.session_id session)
                     RUNNING
                     ("ws://" +:+ host server +:+ ":" +:+ pretty (port server)
                      +:+ "/ws/tasks/" +:+ req_task_id request)
                     (c (S (S t)))), w')
            ∧ SessionManager.sessions (Server.session_manager (state w'))
              = alter (Session.add_task (req_task_id request) (c t)) sid ss
            ∧ Server.running_tasks (state w')
              = <[req_task_id request
                  := Server.mkTaskInfo (Session.session_id session) RUNNING (c (S t))]> r)
    as (w' & -> & Hss & Hr).
  { eexists. split.
    - unfold Server.create_task, Server._create_task_body, try_except.
      unfold mbind at 1, M_bind, logger. cbn beta iota. rewrite Ht.
      unfold mbind at 1, M_bind, Server._reuse_session.
      unfold mbind at 1, M_bind, Server.with_manager, SessionManager.get_session.
      unfold mbind at 1, M_bind, get_state. simpl. rewrite Hs. simpl. reflexivity.
    - done. }
  exists (c t). simpl. split_and!; [done| |done|done].
  rewrite Hss. apply map_eq. intros k. rewrite lookup_alter.
  destruct (decide (sid = k)) as [<-|Hne].
  - by rewrite Hs, lookup_insert_eq.
  - by rewrite lookup_insert_ne.
Qed.

Lemma create_task_reuse_session_witness :
  ∃ now,
    SessionManager.sessions
      (Server.session_manager
         (state (Server.create_task (default_config "key") sample_server_config
                   sample_fs sample_sdk (reuse_request "t2" "session-t1")
                   (sample_server Sample.happy)).2))
    !! "session-t1"
    = Some (Session.add_task "t2" now
              (Session.add_task "t1" 0
                 (Session.init "session-t1" "/tmp/w" Sample.options Sample.happy 0 0))).
Proof.
  destruct (create_task_reuse_session (default_config "key") sample_server_config
              sample_fs sample_sdk (reuse_request "t2" "session-t1") "session-t1"
              (Session.add_task "t1" 0
                 (Session.init "session-t1" "/tmp/w" Sample.options Sample.happy 0 0))
              (sample_server Sample.happy))
    as (now & _ & H & _); [reflexivity|vm_compute; reflexivity|].
  exists now. rewrite H. apply lookup_insert_eq.
Defined.

(** [create_session] changes the manager only when it returns a session. *)
Lemma create_session_failure_state config fs sdk sid ws opts
    (w : World SessionManager.t) :
  (∀ session,
     (SessionManager.create_session config fs sdk sid ws opts w).1 ≠ Ok session) →
  state (SessionManager.create_session config fs sdk sid ws opts w).2 = state w.
Proof.
  unfold SessionManager.create_session, mbind, M_bind, get_state, try_except, call.
  cbn beta iota.
  destruct (decide _); [done|]. destruct (_ <=? _); [done|].
  destruct (negb _); [done|].
  destruct (on_connect _); simpl; [|done..].
  intros H. by edestruct H.
Qed.

(** [create_task] for a request that does not reuse a session, in terms of
    what [create_session] does on the manager. *)
Lemma create_task_new_path config server fs sdk request c t l m r :
  Server.reuse_target (req_session request) = None →
  let tid := req_task_id request in
  let sid := "session-" +:+ tid in
  let run := SessionManager.create_session config fs sdk sid (req_workspace request)
               (Server.model_dump (req_options request))
               (mkWorld c t (l ++ [(Log.INFO, "Creating task: " +:+ tid)]) m) in
  Server.create_task config server fs sdk request (mkWorld c t l (Server.mk m r))
  = match run.1 with
    | Ok session =>
        (Ok (mkTaskResponse tid (Session.session_id session) RUNNING
               ("ws://" +:+ host server +:+ ":" +:+ pretty (port server)
                +:+ "/ws/tasks/" +:+ tid)
               (clock run.2 (S (S (ticks run.2))))),
         mkWorld (clock run.2) (S (S (S (ticks run.2))))
           (log run.2 ++ [(Log.INFO, "Created new session: "
                                     +:+ Session.session_id session)])
           (Server.mk
              (SessionManager.on_sessions
                 (alter (Session.add_task tid (clock run.2 (ticks run.2))) sid)
                 (state run.2))
              (<[tid := Server.mkTaskInfo (Session.session_id session) RUNNING
                          (clock run.2 (S (ticks run.2)))]> r)))
    | Raise e =>
        Server._create_task_error e
          (mkWorld (clock run.2) (ticks run.2) (log run.2) (Server.mk (state run.2) r))
    | Block =>
        (Block,
         mkWorld (clock run.2) (ticks run.2) (log run.2) (Server.mk (state run.2) r))
    end.
Proof.
  intros Ht tid sid run.
  unfold Server.create_task, Server._create_task_body, try_except.
  unfold mbind at 1, M_bind, logger. cbn beta iota. rewrite Ht.
  unfold mbind at 1, M_bind, Server._new_session.
  unfold mbind at 1, M_bind, Server.with_manager. simpl.
  fold tid sid run. by destruct run as [[session|e|] wm].
Qed.

(** The status of the answer when the handler maps [e]. *)
Definition http_status (e : exn) : Z :=
  match e with
  | ValueError _ => 400
  | RuntimeError _ => 503
  | _ => 500
  end.

Lemma create_task_error_run e (w : World Server.t) :
  ∃ detail,
    (Server._create_task_error e w).1 = Raise (HTTPException (http_status e) detail)
    ∧ state (Server._create_task_error e w).2 = state w.
Proof. destruct e; eexists; by split. Qed.

(** [create_task] for a request that reuses the session [sid]. *)
Lemma create_task_reuse_path config server fs sdk request sid c t l m r :
  Server.reuse_target (req_session request) = Some sid →
  Server.create_task config server fs sdk request (mkWorld c t l (Server.mk m r))
  = match SessionManager.sessions m !! sid with
    | None =>
        (Raise (HTTPException 500 "Internal server error"),
         mkWorld c t
           ((l ++ [(Log.INFO, "Creating task: " +:+ req_task_id request)])
            ++ [(Log.ERROR, "Unexpected error creating task: 404: Session "
                            +:+ sid +:+ " not found")])
           (Server.mk m r))
    | Some session =>
        (Ok (mkTaskResponse (req_task_id request) (Session.session_id session) RUNNING
               ("ws://" +:+ host server +:+ ":" +:+ pretty (port server)
                +:+ "/ws/tasks/" +:+ req_task_id request)
               (c (S (S t)))),
         mkWorld c (S (S (S t)))
           ((l ++ [(Log.INFO, "Creating task: " +:+ req_task_id request)])
            ++ [(Log.INFO, "Reusing session: " +:+ Session.session_id session)])
           (Server.mk
              (SessionManager.on_sessions
                 (alter (Session.add_task (req_task_id request) (c t)) sid) m)
              (<[req_task_id request
                 := Server.mkTaskInfo (Session.session_id session) RUNNING (c (S t))]>
                 r)))
    end.
Proof.
  intros Ht.
  unfold Server.create_task, Server._create_task_body, try_except.
  unfold mbind at 1, M_bind, logger. cbn beta iota. rewrite Ht.
  unfold mbind at 1, M_bind, Server._reuse_session.
  unfold mbind at 1, M_bind, Server.with_manager, SessionManager.get_session.
  unfold mbind at 1, M_bind, get_state. simpl.
  by destruct (SessionManager.sessions m !! sid).
Qed.

(** X22.  Whenever [create_task] fails, it fails with an HTTP status of
    400, 503 or 500, and it has changed neither the table of sessions nor
    the task registry: no session is left behind and no task is registered
    by a failed submission. *)
Theorem create_task_failure_changes_nothing config server fs sdk request e
    (w : World Server.t) :
  (Server.create_task config server fs sdk request w).1 = Raise e →
  (∃ code detail, e = HTTPException code detail ∧ (code = 400 ∨ code = 503 ∨ code = 500))
  ∧ state (Server.create_task config server fs sdk request w).2 = state w.
Proof.
  destruct w as [c t l [m r]].
  destruct (Server.reuse_target (req_session request)) as [sid|] eqn:Ht.
  - (* reuse *)
    rewrite (create_task_reuse_path config server fs sdk request sid c t l m r Ht).
    destruct (SessionManager.sessions m !! sid) as [session|] eqn:Hs; [done|].
    simpl. intros [= <-]. split; [|done]. eexists _, _. eauto.
  - rewrite (create_task_new_path config server fs sdk request c t l m r Ht).
    cbv zeta.
    set (run := SessionManager.create_session _ _ _ _ _ _ _).
    pose proof (create_session_failure_state config fs sdk
                  ("session-" +:+ req_task_id request) (req_workspace request)
                  (Server.model_dump (req_options request))
                  (mkWorld c t (l ++ [(Log.INFO, "Creating task: "
                                                 +:+ req_task_id request)]) m)) as Hf.
    fold run in Hf.
    destruct run.1 as [session|e'|] eqn:E1; [done| |done].
    destruct (create_task_error_run e'
                (mkWorld (clock run.2) (ticks run.2) (log run.2)
                         (Server.mk (state run.2) r))) as (detail & Er & Es).
    rewrite Er, Es. intros [= <-]. simpl. rewrite Hf by done. split; [|done].
    eexists _, _. split; [done|]. destruct e'; simpl; auto.
Qed.

Lemma create_task_failure_changes_nothing_witness :
  (Server.create_task (default_config "key") sample_server_config sample_fs sample_sdk
     (new_request "t1") (sample_server Sample.happy)).1
  = Raise (HTTPException 400 "Session session-t1 already exists")
  ∧ state (Server.create_task (default_config "key") sample_server_config sample_fs
             sample_sdk (new_request "t1") (sample_server Sample.happy)).2
    = state (sample_server Sample.happy).
Proof.
  assert (H : (Server.create_task (default_config "key") sample_server_config
                 sample_fs sample_sdk (new_request "t1")
                 (sample_server Sample.happy)).1
              = Raise (HTTPException 400 "Session session-t1 already exists")).
  { vm_compute. reflexivity. }
  split; [exact H|].
  apply (create_task_failure_changes_nothing (default_config "key")
           sample_server_config sample_fs sample_sdk (new_request "t1") _
           (sample_server Sample.happy) H).
Defined.

(** What a submission that returned has done, when it did not reuse a
    session: the session named after the task was free, it has been
    created and holds the task, and the task is registered under it. *)
Lemma create_task_new_ok config server fs sdk request resp (w : World Server.t) :
  Server.reuse_target (req_session request) = None →
  (Server.create_task config server fs sdk request w).1 = Ok resp →
  let tid := req_task_id request in
  let sid := "session-" +:+ tid in
  let w' := (Server.create_task config server fs sdk request w).2 in
  ∃ session now created,
    (sid ∉ dom (SessionManager.sessions (Server.session_manager (state w))))
    ∧ Session.session_id session = sid
    ∧ Session.tasks session = []
    ∧ Session.client session
      = sdk (SessionManager.build_options config
               (path_resolve fs (req_workspace request))
               (Server.model_dump (req_options request)))
    ∧ tr_session_id resp = sid ∧ tr_status resp = RUNNING ∧ tr_task_id resp = tid
    ∧ SessionManager.sessions (Server.session_manager (state w'))
      = <[sid := Session.add_task tid now session]>
          (SessionManager.sessions (Server.session_manager (state w)))
    ∧ Server.running_tasks (state w')
      = <[tid := Server.mkTaskInfo sid RUNNING created]> (Server.running_tasks (state w)).
Proof.
  intros Ht Hok tid sid w'. subst w'. destruct w as [c t l [m r]].
  revert Hok. rewrite (create_task_new_path config server fs sdk request c t l m r Ht).
  cbv zeta. fold tid sid.
  destruct (create_session_cases config fs sdk sid (req_workspace request)
              (Server.model_dump (req_options request))
              (mkWorld c t (l ++ [(Log.INFO, "Creating task: " +:+ tid)]) m))
    as [[Hno _]|(session & E & Hin & _ & Hid & Htasks & Hcl & Hins)].
  - set (run := SessionManager.create_session _ _ _ _ _ _ _) in *.
    destruct run.1 as [session|e|] eqn:E1; [by destruct (Hno session)| |done].
    destruct (create_task_error_run e
                (mkWorld (clock run.2) (ticks run.2) (log run.2)
                         (Server.mk (state run.2) r))) as (detail & Er & _).
    by rewrite Er.
  - set (run := SessionManager.create_session _ _ _ _ _ _ _) in *.
    rewrite E. intros [= <-]. simpl.
    exists session, (clock run.2 (ticks run.2)), (clock run.2 (S (ticks run.2))).
    simpl in Hin, Hins. rewrite Hid. split_and!; try done.
    unfold SessionManager.on_sessions. simpl. rewrite Hins.
    apply map_eq. intros k. rewrite lookup_alter.
    destruct (decide (sid = k)) as [<-|Hne].
    + by rewrite !lookup_insert_eq.
    + by rewrite !lookup_insert_ne.
Qed.

(** X23.  A submission that does not reuse a session succeeds whenever the
    session named "session-" + task id is free, the table is below
    capacity, the workspace exists and the client connects.  The session
    then owns exactly that task, the task is registered as RUNNING under
    the new session, and the answer names both. *)
Theorem create_task_new_session config server fs sdk request (w : World Server.t) :
  let tid := req_task_id request in
  let sid := "session-" +:+ tid in
  let table := SessionManager.sessions (Server.session_manager (state w)) in
  let run := Server.create_task config server fs sdk request w in
  Server.reuse_target (req_session request) = None →
  sid ∉ dom table →
  Z.of_nat (size table) < max_concurrent config →
  path_exists fs (path_resolve fs (req_workspace request)) = true →
  on_connect (sdk (SessionManager.build_options config
                     (path_resolve fs (req_workspace request))
                     (Server.model_dump (req_options request)))) = Returns →
  ∃ resp session info,
    run.1 = Ok resp
    ∧ tr_task_id resp = tid ∧ tr_session_id resp = sid ∧ tr_status resp = RUNNING
    ∧ SessionManager.sessions (Server.session_manager (state run.2)) !! sid
      = Some session
    ∧ Session.tasks session = [tid]
    ∧ Server.running_tasks (state run.2) !! tid = Some info
    ∧ Server.session_id info = sid ∧ Server.status info = RUNNING.
Proof.
  intros tid sid table run Ht Hin Hcap Hex Hcon.
  assert (∃ resp, run.1 = Ok resp) as [resp Hok].
  { subst run. destruct w as [c t l [m r]].
    rewrite (create_task_new_path config server fs sdk request c t l m r Ht).
    cbv zeta.
    destruct (create_session_run config fs sdk sid (req_workspace request)
                (Server.model_dump (req_options request))
                (mkWorld c t (l ++ [(Log.INFO, "Creating task: " +:+ tid)]) m))
      as (_ & _ & _ & H4).
    specialize (H4 Hin Hcap Hex). rewrite Hcon in H4.
    destruct H4 as (E & _). fold tid sid. rewrite E. eauto. }
  destruct (create_task_new_ok config server fs sdk request resp w Ht Hok)
    as (session & now & created & _ & Hid & Htasks & _ & R1 & R2 & R3 & Hs & Hr).
  exists resp, (Session.add_task tid now session), (Server.mkTaskInfo sid RUNNING created).
  fold run tid sid in Hs, Hr.
  split_and!; try done.
  - rewrite Hs. apply lookup_insert_eq.
  - simpl. by rewrite Htasks.
  - rewrite Hr. apply lookup_insert_eq.
Qed.

Lemma create_task_new_session_witness :
  ∃ resp session info,
    (Server.create_task (default_config "key") sample_server_config sample_fs
       sample_sdk (new_request "t2") (sample_server Sample.happy)).1 = Ok resp
    ∧ tr_task_id resp = "t2" ∧ tr_session_id resp = "session-t2"
    ∧ tr_status resp = RUNNING
    ∧ SessionManager.sessions
        (Server.session_manager
           (state (Server.create_task (default_config "key") sample_server_config
                     sample_fs sample_sdk (new_request "t2")
                     (sample_server Sample.happy)).2)) !! "session-t2"
      = Some session
    ∧ Session.tasks session = ["t2"]
    ∧ Server.running_tasks
        (state (Server.create_task (default_config "key") sample_server_config
                  sample_fs sample_sdk (new_request "t2")
                  (sample_server Sample.happy)).2) !! "t2"
      = Some info
    ∧ Server.session_id info = "session-t2" ∧ Server.status info = RUNNING.
Proof.
  apply (create_task_new_session (default_config "key") sample_server_config
           sample_fs sample_sdk (new_request "t2") (sample_server Sample.happy)).
  - reflexivity.
  - apply not_elem_of_dom. vm_compute. reflexivity.
  - vm_compute. reflexivity.
  - vm_compute. reflexivity.
  - reflexivity.
Defined.

(** X24.  Submitting a task id a second time, again without reusing a
    session, is refused with status 400, because the session named after
    the task already exists; the refused submission changes nothing, so the
    first registration stands. *)
Theorem create_task_twice config server fs sdk request request' resp
    (w : World Server.t) :
  Server.reuse_target (req_session request) = None →
  Server.reuse_target (req_session request') = None →
  req_task_id request' = req_task_id request →
  (Server.create_task config server fs sdk request w).1 = Ok resp →
  let w' := (Server.create_task config server fs sdk request w).2 in
  (Server.create_task config server fs sdk request' w').1
  = Raise (HTTPException 400 ("Session session-" +:+ req_task_id request
                              +:+ " already exists"))
  ∧ state (Server.create_task config server fs sdk request' w').2 = state w'.
Proof.
  intros Ht Ht' Hid Hok w'.
  destruct (create_task_new_ok config server fs sdk request resp w Ht Hok)
    as (session & now & created & _ & _ & _ & _ & _ & _ & _ & Hs & _).
  fold w' in Hs.
  assert (Hin : "session-" +:+ req_task_id request
                ∈ dom (SessionManager.sessions (Server.session_manager (state w')))).
  { rewrite Hs. apply elem_of_dom. rewrite lookup_insert_eq. eauto. }
  clearbody w'. destruct w' as [c t l [m r]]. simpl in Hin.
  rewrite (create_task_new_path config server fs sdk request' c t l m r Ht').
  cbv zeta. rewrite Hid.
  destruct (create_session_run config fs sdk
              ("session-" +:+ req_task_id request) (req_workspace request')
              (Server.model_dump (req_options request'))
              (mkWorld c t (l ++ [(Log.INFO, "Creating task: "
                                             +:+ req_task_id request)]) m))
    as (H1 & _).
  rewrite (H1 Hin). done.
Qed.

Lemma sample_create_task_ok :
  ∃ resp,
    (Server.create_task (default_config "key") sample_server_config sample_fs
       sample_sdk (new_request "t2") (sample_server Sample.happy)).1 = Ok resp.
Proof. eexists. vm_compute. reflexivity. Qed.

Lemma create_task_twice_witness :
  (Server.create_task (default_config "key") sample_server_config sample_fs sample_sdk
     (new_request "t2")
     (Server.create_task (default_config "key") sample_server_config sample_fs
        sample_sdk (new_request "t2") (sample_server Sample.happy)).2).1
  = Raise (HTTPException 400 "Session session-t2 already exists").
Proof.
  destruct sample_create_task_ok as (resp & H).
  destruct (create_task_twice (default_config "key") sample_server_config sample_fs
              sample_sdk (new_request "t2") (new_request "t2") resp
              (sample_server Sample.happy) eq_refl eq_refl eq_refl H) as [H1 _].
  exact H1.
Defined.

(** ** Status queries *)

(** What [task.done()] and [task.exception()] show of a background task
    that ran [execute] and was left with [r]: a suspended task is not
    done. *)
Definition background_of (r : Res unit) : option (option exn) :=
  match r with
  | Ok _ => Some None
  | Raise e => Some (Some e)
  | Block => None
  end.

(** X25.  Once the executor of a registered task has run, a status query
    reports COMPLETED, whatever the agent did during the run (also after a
    timeout or an agent error, which end the run with exit code 1) and
    whatever status the registry holds for the task (also INTERRUPTED); the
    [result] field of the answer is always empty, and the query changes
    nothing in the server. *)
Theorem get_task_status_after_run tid info (w : World Server.t)
    tid' prompt timeout (wx : World TaskExecutor.Run) :
  Server.running_tasks (state w) !! tid = Some info →
  queue_unbounded tid' (session_of wx) →
  let finished := TaskExecutor.execute tid' prompt timeout wx in
  let bg := Server.mkBackground (background_of finished.1) (progress_of finished.2) in
  ∃ resp,
    (Server.get_task_status tid bg w).1 = Ok resp
    ∧ ts_status resp = COMPLETED
    ∧ ts_result resp = None
    ∧ ts_progress resp = progress_of finished.2
    ∧ ts_session_id resp = Server.session_id info
    ∧ state (Server.get_task_status tid bg w).2 = state w.
Proof.
  intros Hi Hq finished bg.
  destruct (execute_summary tid' prompt timeout wx Hq) as (_ & _ & _ & Hok & _).
  fold finished in Hok. subst bg. rewrite Hok. simpl.
  unfold Server.get_task_status, mbind, M_bind, get_state. cbn beta iota.
  rewrite Hi. simpl. eexists. by split_and!.
Qed.

Lemma get_task_status_after_run_witness :
  ∃ resp,
    (Server.get_task_status "t1"
       (Server.mkBackground
          (background_of
             (TaskExecutor.execute "t1" "p" 1 (Sample.world Sample.hanging)).1)
          (progress_of (TaskExecutor.execute "t1" "p" 1 (Sample.world Sample.hanging)).2))
       (sample_server Sample.hanging)).1 = Ok resp
    ∧ ts_status resp = COMPLETED
    ∧ ts_result resp = None.
Proof.
  destruct (get_task_status_after_run "t1" (Server.mkTaskInfo "session-t1" RUNNING 0)
              (sample_server Sample.hanging) "t1" "p" 1 (Sample.world Sample.hanging))
    as (resp & H1 & H2 & H3 & _).
  - vm_compute. reflexivity.
  - apply Sample.world_unbounded.
  - exists resp. by split_and!.
Defined.

(** While the background task is not done, a status query reports the
    status recorded in the registry; a background task that ended with an
    exception is reported as FAILED; an unknown task id is answered with
    404.  The answer never changes the server. *)
Lemma get_task_status_cases tid bg (w : World Server.t) :
  match Server.running_tasks (state w) !! tid with
  | None =>
      Server.get_task_status tid bg w
      = (Raise (HTTPException 404 ("Task " +:+ tid +:+ " not found")), w)
  | Some info =>
      ∃ resp,
        (Server.get_task_status tid bg w).1 = Ok resp
        ∧ state (Server.get_task_status tid bg w).2 = state w
        ∧ ts_status resp
          = match Server.done bg with
            | Some (Some _) => FAILED
            | Some None => COMPLETED
            | None => Server.status info
            end
        ∧ ts_progress resp = Server.executor_progress bg
        ∧ ts_result resp = None
  end.
Proof.
  unfold Server.get_task_status, mbind, M_bind, get_state. cbn beta iota.
  destruct (Server.running_tasks (state w) !! tid) as [info|]; [|done].
  simpl. eexists. by split_and!.
Qed.

(** X26.  After [interrupt_task] has returned for a task, a status query
    made while the background task is still running reports INTERRUPTED,
    whatever status was recorded before. *)
Theorem interrupt_then_status tid info sess bg (w : World Server.t) :
  Server.running_tasks (state w) !! tid = Some info →
  SessionManager.sessions (Server.session_manager (state w)) !! Server.session_id info
  = Some sess →
  on_interrupt (Session.client sess) = Returns →
  Server.done bg = None →
  ∃ ack resp,
    (Server.interrupt_task tid w).1 = Ok ack
    ∧ Server.resp_status ack = INTERRUPTED
    ∧ (Server.get_task_status tid bg (Server.interrupt_task tid w).2).1 = Ok resp
    ∧ ts_status resp = INTERRUPTED
    ∧ ts_session_id resp = Server.session_id info.
Proof.
  intros Hi Hs Hint Hd.
  assert (∃ ack w',
            Server.interrupt_task tid w = (Ok ack, w')
            ∧ Server.resp_status ack = INTERRUPTED
            ∧ Server.running_tasks (state w') !! tid
              = Some (Server.set_status INTERRUPTED info))
    as (ack & w' & E & Hack & Hreg).
  { destruct w as [c t l [m r]]. simpl in Hi, Hs. eexists _, _. split.
    - unfold Server.interrupt_task, Server.with_manager, SessionManager.get_session,
        try_except, call, mbind, M_bind, get_state.
      simpl. rewrite Hi. simpl. rewrite Hs, Hint. simpl. reflexivity.
    - split; [done|]. simpl. apply lookup_insert_eq. }
  rewrite E. simpl.
  pose proof (get_task_status_cases tid bg w') as H. rewrite Hreg, Hd in H.
  destruct H as (resp & H1 & _ & H3 & _).
  exists ack, resp. split_and!; try done.
  revert H1. unfold Server.get_task_status, mbind, M_bind, get_state. cbn beta iota.
  rewrite Hreg. simpl. by intros [= <-].
Qed.

Lemma interrupt_then_status_witness :
  ∃ ack resp,
    (Server.interrupt_task "t1" (sample_server Sample.happy)).1 = Ok ack
    ∧ Server.resp_status ack = INTERRUPTED
    ∧ (Server.get_task_status "t1" (Server.mkBackground None TaskProgress_default)
         (Server.interrupt_task "t1" (sample_server Sample.happy)).2).1 = Ok resp
    ∧ ts_status resp = INTERRUPTED
    ∧ ts_session_id resp = "session-t1".
Proof.
  apply (interrupt_then_status "t1" (Server.mkTaskInfo "session-t1" RUNNING 0)
           (Session.add_task "t1" 0
              (Session.init "session-t1" "/tmp/w" Sample.options Sample.happy 0 0))
           (Server.mkBackground None TaskProgress_default)
           (sample_server Sample.happy));
    vm_compute; reflexivity.
Defined.

(** ** Authentication and configuration *)

(** X27.  [verify_api_key] lets a request pass exactly when authentication
    is switched off, or the request carries a non-empty key equal to the
    configured one; otherwise it fails with 401 (no key, or an empty one)
    or 403 (another key).  It never answers [False]. *)
Theorem verify_api_key_accepts api key (w : World Server.t) :
  ((Server.verify_api_key api key w).1 = Ok true
   ↔ auth_enabled api = false
     ∨ ∃ k, key = Some k ∧ k ≠ "" ∧ api_key api = Some k)
  ∧ (Server.verify_api_key api key w).1 ≠ Ok false
  ∧ (∀ e, (Server.verify_api_key api key w).1 = Raise e →
          (e = HTTPException 401 "API key required" ∧ (key = None ∨ key = Some ""))
          ∨ (e = HTTPException 403 "Invalid API key" ∧ key ≠ api_key api)).
Proof.
  unfold Server.verify_api_key.
  destruct (auth_enabled api); simpl.
  2: { split_and!; [split; auto|done|done]. }
  destruct key as [k|]; simpl.
  - destruct k as [|a k]; simpl.
    + split_and!; [|done|].
      * split; [done|]. intros [?|(k & [= <-] & ? & _)]; done.
      * intros e [= <-]. left. auto.
    + destruct (decide (Some (String a k) = api_key api)) as [E|E]; simpl.
      * split_and!; [|done|done]. split; [|done]. intros _. right.
        exists (String a k). by split_and!.
      * split_and!; [|done|].
        -- split; [done|]. intros [?|(k' & [= <-] & ? & ?)]; [done|]. congruence.
        -- intros e [= <-]. right. auto.
  - split_and!; [|done|].
    + split; [done|]. intros [?|(k & ? & _)]; done.
    + intros e [= <-]. left. auto.
Qed.

(** X28.  A configuration that [validate] accepts cannot lock the server:
    when authentication is switched on, there is a key that
    [verify_api_key] lets pass, the configured one.  (Without that check an
    enabled authentication with no configured key refuses every
    request.) *)
Theorem validate_then_verify config api (w w0 : World Server.t) :
  (validate config api w0).1 = Ok true →
  anthropic_api_key config ≠ ""
  ∧ (auth_enabled api = true →
     ∃ k, api_key api = Some k ∧ (Server.verify_api_key api (Some k) w).1 = Ok true).
Proof.
  unfold validate. destruct (decide (anthropic_api_key config = "")); [done|].
  destruct (auth_enabled api) eqn:Ha; simpl.
  - case_bool_decide as Hk; [done|]. intros _. split; [done|]. intros _.
    destruct (api_key api) as [k|] eqn:Ek; [|by destruct Hk; left].
    exists k. split; [done|].
    unfold Server.verify_api_key. rewrite Ha. simpl.
    destruct k as [|a k]; [by destruct Hk; right|].
    by rewrite decide_True.
  - intros _. split; [done|]. done.
Qed.

Lemma validate_then_verify_witness :
  (validate (default_config "key") (mkAPIConfig true (Some "secret"))
     (sample_server Sample.happy)).1 = Ok true
  ∧ anthropic_api_key (default_config "key") ≠ "".
Proof.
  assert (H : (validate (default_config "key") (mkAPIConfig true (Some "secret"))
                 (sample_server Sample.happy)).1 = Ok true).
  { vm_compute. reflexivity. }
  split; [exact H|].
  destruct (validate_then_verify (default_config "key")
              (mkAPIConfig true (Some "secret")) (sample_server Sample.happy)
              (sample_server Sample.happy) H) as [H1 _].
  exact H1.
Defined.

(** ** Shutdown and the delete endpoint *)

Lemma disconnect_all_run values (w : World SessionManager.t) :
  Forall (λ s, on_disconnect (Session.client s) ≠ Hangs) values →
  (SessionManager._disconnect_all values w).1 = Ok tt
  ∧ state (SessionManager._disconnect_all values w).2 = state w.
Proof.
  revert w. induction values as [|s values IH]; intros w Hv; simpl; [done|].
  apply Forall_cons in Hv as [Hs Hv].
  unfold mbind at 1, M_bind, try_except, call.
  destruct (on_disconnect (Session.client s)) as [|e|] eqn:Ed; [| |done].
  - unfold mbind at 1, M_bind, mret, M_ret, logger. simpl.
    destruct (IH (mkWorld (clock w) (ticks w)
                    (log w ++ [(Log.INFO, "Disconnected session: "
                                          +:+ Session.session_id s)]) (state w)) Hv)
      as [I1 I2]. by split.
  - unfold raise, logger. simpl.
    destruct (IH (mkWorld (clock w) (ticks w)
                    (log w ++ [(Log.ERROR, "Error disconnecting session "
                                           +:+ Session.session_id s +:+ ": "
                                           +:+ str e)]) (state w)) Hv)
      as [I1 I2]. by split.
Qed.

(** X29.  [stop] empties the table of sessions and clears the running
    flag, whether the clients disconnect cleanly or raise (a raising
    [disconnect()] is logged and the loop goes on), provided no
    [disconnect()] stays pending. *)
Theorem stop_clears_sessions (w : World SessionManager.t) :
  disconnects_end w →
  (SessionManager.stop w).1 = Ok tt
  ∧ SessionManager.sessions (state (SessionManager.stop w).2) = ∅
  ∧ SessionManager._running (state (SessionManager.stop w).2) = false.
Proof.
  intros Hd.
  assert (Hv : Forall (λ s, on_disconnect (Session.client s) ≠ Hangs)
                 (map_to_list (SessionManager.sessions (state w))).*2).
  { apply Forall_forall. intros s Hs.
    apply list_elem_of_fmap in Hs as ([k s'] & -> & Hs).
    apply elem_of_map_to_list in Hs. by eapply Hd. }
  set (w1 := mkWorld (clock w) (ticks w) (log w)
               (SessionManager.mk (SessionManager.sessions (state w)) false)).
  destruct (disconnect_all_run
              (map_to_list (SessionManager.sessions (state w))).*2 w1 Hv) as [H1 H2].
  assert (∃ w', SessionManager.stop w = (Ok tt, w')
                ∧ SessionManager.sessions (state w') = ∅
                ∧ SessionManager._running (state w') = false)
    as (w' & -> & ? & ?); [|done].
  unfold SessionManager.stop.
  unfold mbind at 1, M_bind, modify. cbn beta iota. fold w1.
  unfold mbind at 1, M_bind, get_state. cbn beta iota.
  unfold mbind at 1, M_bind. simpl.
  destruct (SessionManager._disconnect_all _ w1) as [r w2]. simpl in H1, H2.
  subst r. unfold mbind, M_bind, modify, logger. simpl.
  eexists. split; [done|]. simpl. rewrite H2. done.
Qed.

Lemma stop_clears_sessions_witness :
  disconnects_end stale_manager
  ∧ SessionManager.sessions (state (SessionManager.stop stale_manager).2) = ∅.
Proof.
  assert (H : disconnects_end stale_manager).
  { intros k s Hs. assert (s = stale_session) as ->.
    { simpl in Hs. apply lookup_singleton_Some in Hs as [_ <-]. done. }
    discriminate. }
  split; [exact H|].
  destruct (stop_clears_sessions stale_manager H) as (_ & H2 & _). exact H2.
Defined.

(** X30.  The delete endpoint answers 404 and changes nothing when the
    session is not in the table.  When it is, and its [disconnect()]
    returns or raises, the endpoint answers with the confirmation message
    and the session is gone from the table, while the registry of tasks is
    left as it is: tasks that ran over the session stay registered. *)
Theorem delete_session_endpoint sid (w : World Server.t) :
  match SessionManager.sessions (Server.session_manager (state w)) !! sid with
  | None =>
      (Server.delete_session sid w).1
      = Raise (HTTPException 404 ("Session " +:+ sid +:+ " not found"))
      ∧ state (Server.delete_session sid w).2 = state w
  | Some session =>
      on_disconnect (Session.client session) ≠ Hangs →
      (Server.delete_session sid w).1 = Ok ("Session " +:+ sid +:+ " deleted")
      ∧ SessionManager.sessions
          (Server.session_manager (state (Server.delete_session sid w).2))
        = delete sid (SessionManager.sessions (Server.session_manager (state w)))
      ∧ Server.running_tasks (state (Server.delete_session sid w).2)
        = Server.running_tasks (state w)
  end.
Proof.
  destruct w as [c t l [[ss rn] r]]. simpl.
  unfold Server.delete_session, Server.with_manager, SessionManager.delete_session,
    try_except, call, mbind, M_bind, get_state.
  simpl.
  destruct (ss !! sid) as [session|]; simpl; [|done].
  intros Hd. by destruct (on_disconnect (Session.client session)).
Qed.
